(** * WeaAQI image utilities: a shallow embedding of [src/utils/image_utils.py]

    The module is a set of short helpers around an image library (Pillow),
    an HTTP client and a headless browser.  The embedding keeps the code of
    the repository as Rocq functions and takes what lives outside the
    repository (resampling kernels, the operating system, the network) as
    the fields of two records, [Pillow] and [Host].

    - Python [int] is [Z]; Python [float] is IEEE 754 binary64, modelled by
      the Standard Library's [spec_float] at precision 53 and [emax] 1024.
    - Python exceptions are values of [exc]; a call that can raise returns a
      [result]; code that logs, touches files or spawns processes runs in
      the state-and-exception monad [M] over [World]. *)

From Stdlib Require Import ZArith List String Ascii Bool Lia SpecFloat.
From Stdlib Require Import Strings.Byte.
From stdpp Require Import gmap strings list pretty.

Local Open Scope Z_scope.

(** ** Exceptions and results *)

Inductive exc_kind :=
| ZeroDivisionError
| OverflowError
| ValueError
| TypeError
| UnboundLocalError
| UnicodeEncodeError
| TimeoutExpired
| OSError
| UnidentifiedImageError
| ConnectionError.

Record exc := mk_exc { kind : exc_kind; text : string }.

Inductive result (A : Type) :=
| Ok (a : A)
| Raise (e : exc).
Arguments Ok {A} a.
Arguments Raise {A} e.

Definition rbind {A B} (r : result A) (k : A -> result B) : result B :=
  match r with
  | Ok a => k a
  | Raise e => Raise e
  end.

Notation "'let*' x ':=' r 'in' k" := (rbind r (fun x => k))
  (at level 10, x pattern, r at level 100, k at level 200).

(** ** Python numbers *)

Module PyFloat.

Definition prec : Z := 53.
Definition emax : Z := 1024.

Abbreviation float := spec_float.

Definition is_zero (x : float) : bool :=
  match x with S754_zero _ => true | _ => false end.

Definition is_finite (x : float) : bool :=
  match x with S754_zero _ | S754_finite _ _ _ => true | _ => false end.

(** An integer as an exact, unrounded binary number [m * 2^0]. *)
Definition exact (z : Z) : float :=
  match z with
  | Z0 => S754_zero false
  | Zpos p => S754_finite false p 0
  | Zneg p => S754_finite true p 0
  end.

(** [float(z)]: nearest double, ties to even; too large an integer raises. *)
Definition of_int (z : Z) : result float :=
  let x := binary_normalize prec emax z 0 false in
  if is_finite x then Ok x
  else Raise (mk_exc OverflowError "int too large to convert to float").

(** [a / b] on two integers: the correctly rounded quotient. *)
Definition int_truediv (a b : Z) : result float :=
  if b =? 0 then Raise (mk_exc ZeroDivisionError "division by zero")
  else
    let q := SFdiv prec emax (exact a) (exact b) in
    if is_finite q then Ok q
    else Raise (mk_exc OverflowError "integer division result too large for a float").

(** [x / y] on two floats. *)
Definition truediv (x y : float) : result float :=
  if is_zero y then Raise (mk_exc ZeroDivisionError "float division by zero")
  else Ok (SFdiv prec emax x y).

Definition mul (x y : float) : float := SFmul prec emax x y.

(** [x > y] *)
Definition gt (x y : float) : bool := SFltb y x.

(** [int(x)]: truncation towards zero. *)
Definition to_int (x : float) : result Z :=
  match x with
  | S754_zero _ => Ok 0
  | S754_finite s m e =>
      let a := match e with
               | Zneg p => Z.shiftr (Zpos m) (Zpos p)
               | _ => Z.shiftl (Zpos m) e
               end in
      Ok (if s then - a else a)
  | S754_infinity _ =>
      Raise (mk_exc OverflowError "cannot convert float infinity to integer")
  | S754_nan =>
      Raise (mk_exc ValueError "cannot convert float NaN to integer")
  end.

(** Truth value of a float: everything but the two zeros. *)
Definition truthy (x : float) : bool := negb (is_zero x).

(** Magnitude of a finite float: the position of its leading bit. *)
Definition mag (m : positive) (e : Z) : Z := Zpos (digits2_pos m) + e.

(** A normal double of sign [s] whose magnitude lies in [lo, hi]. *)
Definition normal (s : bool) (lo hi : Z) (x : float) : Prop :=
  exists m e, x = S754_finite s m e /\ Zpos (digits2_pos m) = 53 /\ lo <= e + 53 <= hi.

End PyFloat.

(** ** Bitmaps

    A Pillow image restricted to the three 8-bit modes the helpers meet:
    greyscale, RGB and RGBA.  The pixel buffer is flat and row-major, as in
    the image library. *)

Definition bytes := list byte.

Inductive raster :=
| ModeL (d : list byte)
| ModeRGB (d : list (byte * byte * byte))
| ModeRGBA (d : list (byte * byte * byte * byte)).

Record Bitmap := mk_bitmap { size : Z * Z; pixels : raster }.

Definition width (b : Bitmap) : Z := fst (size b).
Definition height (b : Bitmap) : Z := snd (size b).

(** What the image library computes and the repository does not define. *)
Record Pillow := {
  (** the Lanczos resampling of an image to a new size *)
  lanczos : Bitmap -> Z * Z -> raster;
  (** rotation by an angle that is no multiple of 90 degrees *)
  rotate_free : Bitmap -> Z -> Bitmap;
  (** [Image.open(BytesIO(data))] *)
  decode : bytes -> result Bitmap
}.

Section Raster.
Context {A : Type} (zero : A).

(** Pixel at column [x], row [y] of a [w]-wide buffer; [zero] outside. *)
Definition getpixel (w h : Z) (d : list A) (x y : Z) : A :=
  if (0 <=? x) && (x <? w) && (0 <=? y) && (y <? h)
  then nth (Z.to_nat (y * w + x)) d zero
  else zero.

(** Row-major enumeration of an output grid of [w'] by [h'] pixels. *)
Definition tabulate (w' h' : Z) (f : Z -> Z -> A) : list A :=
  flat_map (fun y => map (fun x => f x y) (seqZ 0 w')) (seqZ 0 h').

Definition crop_data (w h : Z) (d : list A) (x0 y0 x1 y1 : Z) : list A :=
  tabulate (x1 - x0) (y1 - y0) (fun x y => getpixel w h d (x0 + x) (y0 + y)).
End Raster.

Definition zero_byte : byte := x00.

(** [image.crop((x0, y0, x1, y1))] *)
Definition crop (im : Bitmap) (box : Z * Z * Z * Z) : result Bitmap :=
  let '(x0, y0, x1, y1) := box in
  let (w, h) := size im in
  if x1 <? x0 then
    Raise (mk_exc ValueError "Coordinate 'right' is less than 'left'")
  else if y1 <? y0 then
    Raise (mk_exc ValueError "Coordinate 'lower' is less than 'upper'")
  else
    Ok (mk_bitmap (x1 - x0, y1 - y0)
          match pixels im with
          | ModeL d => ModeL (crop_data zero_byte w h d x0 y0 x1 y1)
          | ModeRGB d =>
              ModeRGB (crop_data (zero_byte, zero_byte, zero_byte) w h d x0 y0 x1 y1)
          | ModeRGBA d =>
              ModeRGBA (crop_data (zero_byte, zero_byte, zero_byte, zero_byte)
                          w h d x0 y0 x1 y1)
          end).

(** [image.resize(size, Image.LANCZOS)] *)
Definition resize (P : Pillow) (im : Bitmap) (sz : Z * Z) : result Bitmap :=
  if (fst sz <? 1) || (snd sz <? 1) then
    Raise (mk_exc ValueError "height and width must be > 0")
  else if bool_decide (size im = sz) then Ok im
  else Ok (mk_bitmap sz (lanczos P im sz)).

(** ** [resize_image] *)

(** The Python values the helpers receive where a number is expected. *)
Inductive pyval :=
| VNone
| VBool (b : bool)
| VInt (z : Z)
| VFloat (x : PyFloat.float).

(** [int(v)] *)
Definition py_int (v : pyval) : result Z :=
  match v with
  | VNone =>
      Raise (mk_exc TypeError "int() argument must be a string, a bytes-like object or a real number, not 'NoneType'")
  | VBool b => Ok (Z.b2z b)
  | VInt z => Ok z
  | VFloat x => PyFloat.to_int x
  end.

(** Truth value, as [if v:] tests it. *)
Definition py_truthy (v : pyval) : bool :=
  match v with
  | VNone => false
  | VBool b => b
  | VInt z => negb (z =? 0)
  | VFloat x => PyFloat.truthy x
  end.

(** The local variables of [resize_image] when it reaches the crop. *)
Record crop_plan := mk_plan {
  x_offset : Z; y_offset : Z; new_width : Z; new_height : Z
}.

Definition keep_width_flag : string := "keep-width".

(** Lines 85 to 107: the crop geometry. *)
Definition resize_plan (img_size : Z * Z) (desired_size : pyval * pyval)
    (image_settings : list string) : result (crop_plan * (Z * Z)) :=
  let (img_width, img_height) := img_size in
  let (desired_width0, desired_height0) := desired_size in
  let* desired_width := py_int desired_width0 in
  let* desired_height := py_int desired_height0 in
  let* img_ratio := PyFloat.int_truediv img_width img_height in
  let* _ := PyFloat.int_truediv desired_width desired_height in
  let keep_width := bool_decide (keep_width_flag ∈ image_settings) in
  let* desired_ratio := PyFloat.int_truediv desired_width desired_height in
  if PyFloat.gt img_ratio desired_ratio then
    let* fh := PyFloat.of_int img_height in
    let* new_width := PyFloat.to_int (PyFloat.mul fh desired_ratio) in
    let x_offset := if negb keep_width then (img_width - new_width) `div` 2 else 0 in
    Ok (mk_plan x_offset 0 new_width img_height, (desired_width, desired_height))
  else
    let* fw := PyFloat.of_int img_width in
    let* q := PyFloat.truediv fw desired_ratio in
    let* new_height := PyFloat.to_int q in
    let y_offset := if negb keep_width then (img_height - new_height) `div` 2 else 0 in
    Ok (mk_plan 0 y_offset img_width new_height, (desired_width, desired_height)).

(** Line 98 on its own: is the source wider than the target ratio? *)
Definition source_is_wider (img_size target : Z * Z) : result bool :=
  let* img_ratio := PyFloat.int_truediv (fst img_size) (snd img_size) in
  let* desired_ratio := PyFloat.int_truediv (fst target) (snd target) in
  Ok (PyFloat.gt img_ratio desired_ratio).

Definition resize_image (P : Pillow) (image : Bitmap) (desired_size : pyval * pyval)
    (image_settings : list string) : result Bitmap :=
  let* (p, target) := resize_plan (size image) desired_size image_settings in
  let* image := crop image (x_offset p, y_offset p,
                            x_offset p + new_width p, y_offset p + new_height p) in
  resize P image target.

(** ** SHA-256

    [hashlib.sha256], written out after FIPS 180-4 on 32-bit words held
    in [Z]; every addition is reduced modulo [2^32]. *)

Module SHA256.

Definition w32 (x : Z) : Z := x mod 2 ^ 32.
Definition add32 (x y : Z) : Z := w32 (x + y).
Definition not32 (x : Z) : Z := Z.lxor x (2 ^ 32 - 1).
Definition rotr (n x : Z) : Z := Z.lor (Z.shiftr x n) (w32 (Z.shiftl x (32 - n))).

Definition Ch (x y z : Z) : Z := Z.lxor (Z.land x y) (Z.land (not32 x) z).
Definition Maj (x y z : Z) : Z :=
  Z.lxor (Z.land x y) (Z.lxor (Z.land x z) (Z.land y z)).
Definition Sigma0 (x : Z) : Z := Z.lxor (rotr 2 x) (Z.lxor (rotr 13 x) (rotr 22 x)).
Definition Sigma1 (x : Z) : Z := Z.lxor (rotr 6 x) (Z.lxor (rotr 11 x) (rotr 25 x)).
Definition sigma0 (x : Z) : Z := Z.lxor (rotr 7 x) (Z.lxor (rotr 18 x) (Z.shiftr x 3)).
Definition sigma1 (x : Z) : Z := Z.lxor (rotr 17 x) (Z.lxor (rotr 19 x) (Z.shiftr x 10)).

Definition K : list Z :=
  [ 1116352408; 1899447441; 3049323471; 3921009573; 961987163; 1508970993;
    2453635748; 2870763221; 3624381080; 310598401; 607225278; 1426881987;
    1925078388; 2162078206; 2614888103; 3248222580; 3835390401; 4022224774;
    264347078; 604807628; 770255983; 1249150122; 1555081692; 1996064986;
    2554220882; 2821834349; 2952996808; 3210313671; 3336571891; 3584528711;
    113926993; 338241895; 666307205; 773529912; 1294757372; 1396182291;
    1695183700; 1986661051; 2177026350; 2456956037; 2730485921; 2820302411;
    3259730800; 3345764771; 3516065817; 3600352804; 4094571909; 275423344;
    430227734; 506948616; 659060556; 883997877; 958139571; 1322822218;
    1537002063; 1747873779; 1955562222; 2024104815; 2227730452; 2361852424;
    2428436474; 2756734187; 3204031479; 3329325298 ].

Definition H0 : list Z :=
  [ 1779033703; 3144134277; 1013904242; 2773480762;
    1359893119; 2600822924; 528734635; 1541459225 ].

(** Big-endian bytes of a [k]-byte unsigned number. *)
Fixpoint be_bytes (k : nat) (x : Z) : list Z :=
  match k with
  | O => []
  | S k' => (Z.shiftr x (8 * Z.of_nat k')) mod 256 :: be_bytes k' x
  end.

Definition be_word (bs : list Z) : Z :=
  fold_left (fun acc b => acc * 256 + b) bs 0.

(** Message padding: a one bit, zeros, and the bit length on 8 bytes. *)
Definition pad (msg : list Z) : list Z :=
  let len := Z.of_nat (length msg) in
  let zeros := (55 - len) mod 64 in
  msg ++ 128 :: replicate (Z.to_nat zeros) 0 ++ be_bytes 8 (8 * len).

(** Cut a list into consecutive pieces of [n] elements. *)
Fixpoint chunks {A} (fuel n : nat) (l : list A) : list (list A) :=
  match fuel with
  | O => []
  | S fuel' =>
      match l with
      | [] => []
      | _ => take n l :: chunks fuel' n (drop n l)
      end
  end.

Definition word_at (ws : list Z) (i : nat) : Z := nth i ws 0.

(** The 64-word message schedule of one 16-word block. *)
Definition schedule (block : list Z) : list Z :=
  fold_left
    (fun W t =>
       W ++ [add32 (add32 (sigma1 (word_at W (t - 2))) (word_at W (t - 7)))
                   (add32 (sigma0 (word_at W (t - 15))) (word_at W (t - 16)))])
    (seq 16 48) block.

Definition round (st : list Z) (kw : Z * Z) : list Z :=
  match st with
  | [a; b; c; d; e; f; g; h] =>
      let t1 := add32 (add32 (add32 h (Sigma1 e)) (Ch e f g)) (add32 (fst kw) (snd kw)) in
      let t2 := add32 (Sigma0 a) (Maj a b c) in
      [add32 t1 t2; a; b; c; add32 d t1; e; f; g]
  | _ => st
  end.

Definition compress (st : list Z) (block : list Z) : list Z :=
  let words := map be_word (chunks 16 4 block) in
  let st' := fold_left round (combine K (schedule words)) st in
  zip_with add32 st st'.

Definition digest (msg : list Z) : list Z :=
  let padded := pad msg in
  let blocks := chunks (length padded) 64 padded in
  flat_map (be_bytes 4) (fold_left compress blocks H0).

Definition hex_digit (n : Z) : ascii :=
  ascii_of_N (Z.to_N (if n <? 10 then 48 + n else 87 + n)).

Fixpoint hex (bs : list Z) : string :=
  match bs with
  | [] => EmptyString
  | b :: bs' => String (hex_digit (b / 16)) (String (hex_digit (b mod 16)) (hex bs'))
  end.

(** [hashlib.sha256(data).hexdigest()] *)
Definition hexdigest (data : bytes) : string :=
  hex (digest (map (fun b => Z.of_N (Byte.to_N b)) data)).

End SHA256.

(** ** [compute_image_hash] *)

(** [image.convert("RGB")]: grey levels are replicated into the three
    channels, the alpha channel of RGBA is dropped. *)
Definition convert_rgb (im : Bitmap) : Bitmap :=
  mk_bitmap (size im)
    match pixels im with
    | ModeL d => ModeRGB (map (fun l => (l, l, l)) d)
    | ModeRGB d => ModeRGB d
    | ModeRGBA d => ModeRGB (map (fun '(r, g, b, _) => (r, g, b)) d)
    end.

(** [image.tobytes()]: the raw encoder walks the pixel buffer in order. *)
Definition tobytes (im : Bitmap) : bytes :=
  match pixels im with
  | ModeL d => d
  | ModeRGB d => flat_map (fun '(r, g, b) => [r; g; b]) d
  | ModeRGBA d => flat_map (fun '(r, g, b, a) => [r; g; b; a]) d
  end.

Definition compute_image_hash (image : option Bitmap) : result string :=
  match image with
  | None => Raise (mk_exc ValueError "Cannot compute hash of an empty image")
  | Some image =>
      let image := convert_rgb image in
      let img_bytes := tobytes image in
      Ok (SHA256.hexdigest img_bytes)
  end.

(** The specification's reading of the hash, to compare with the code:
    the colour of the pixel at column [x], row [y] as three channels, the
    pixels enumerated row by row, the digest of those bytes in hexadecimal. *)
Definition spec_rgb_at (im : Bitmap) (x y : Z) : byte * byte * byte :=
  let i := Z.to_nat (y * width im + x) in
  match pixels im with
  | ModeL d => let l := nth i d zero_byte in (l, l, l)
  | ModeRGB d => nth i d (zero_byte, zero_byte, zero_byte)
  | ModeRGBA d =>
      let '(r, g, b, _) := nth i d (zero_byte, zero_byte, zero_byte, zero_byte) in
      (r, g, b)
  end.

Definition spec_row_major_bytes (im : Bitmap) : bytes :=
  flat_map
    (fun y => flat_map (fun x => let '(r, g, b) := spec_rgb_at im x y in [r; g; b])
                (seqZ 0 (width im)))
    (seqZ 0 (height im)).

Definition spec_image_hash (im : Bitmap) : string :=
  SHA256.hexdigest (spec_row_major_bytes im).

(** Number of pixels in the buffer. *)
Definition pixel_count (im : Bitmap) : nat :=
  match pixels im with
  | ModeL d => length d
  | ModeRGB d => length d
  | ModeRGBA d => length d
  end.

(** A bitmap as the image library builds them: non-negative sides and a
    buffer of exactly [width * height] pixels. *)
Definition well_formed (im : Bitmap) : Prop :=
  0 <= width im /\ 0 <= height im /\
  Z.of_nat (pixel_count im) = width im * height im.

(** ** [change_orientation] *)

Section Transpose.
Context {A : Type} (zero : A).

(** Rotation by 90 degrees counter-clockwise: the output is [h] wide. *)
Definition rotate_90_data (w h : Z) (d : list A) : list A :=
  tabulate h w (fun x y => getpixel zero w h d (w - 1 - y) x).

Definition rotate_180_data (w h : Z) (d : list A) : list A :=
  tabulate w h (fun x y => getpixel zero w h d (w - 1 - x) (h - 1 - y)).

Definition rotate_270_data (w h : Z) (d : list A) : list A :=
  tabulate h w (fun x y => getpixel zero w h d y (h - 1 - x)).
End Transpose.

Inductive transposition := ROTATE_90 | ROTATE_180 | ROTATE_270.

(** [image.transpose(method)] *)
Definition transpose (im : Bitmap) (t : transposition) : Bitmap :=
  let (w, h) := size im in
  let z1 := zero_byte in
  let z3 := (zero_byte, zero_byte, zero_byte) in
  let z4 := (zero_byte, zero_byte, zero_byte, zero_byte) in
  match t with
  | ROTATE_90 =>
      mk_bitmap (h, w)
        match pixels im with
        | ModeL d => ModeL (rotate_90_data z1 w h d)
        | ModeRGB d => ModeRGB (rotate_90_data z3 w h d)
        | ModeRGBA d => ModeRGBA (rotate_90_data z4 w h d)
        end
  | ROTATE_180 =>
      mk_bitmap (w, h)
        match pixels im with
        | ModeL d => ModeL (rotate_180_data z1 w h d)
        | ModeRGB d => ModeRGB (rotate_180_data z3 w h d)
        | ModeRGBA d => ModeRGBA (rotate_180_data z4 w h d)
        end
  | ROTATE_270 =>
      mk_bitmap (h, w)
        match pixels im with
        | ModeL d => ModeL (rotate_270_data z1 w h d)
        | ModeRGB d => ModeRGB (rotate_270_data z3 w h d)
        | ModeRGBA d => ModeRGBA (rotate_270_data z4 w h d)
        end
  end.

(** [image.rotate(angle, expand=1)]: multiples of 90 degrees take the
    image library's transposition paths. *)
Definition rotate (P : Pillow) (im : Bitmap) (angle : Z) : Bitmap :=
  let angle := angle mod 360 in
  if angle =? 0 then im
  else if angle =? 180 then transpose im ROTATE_180
  else if angle =? 90 then transpose im ROTATE_90
  else if angle =? 270 then transpose im ROTATE_270
  else rotate_free P im angle.

Definition unbound_angle : exc :=
  mk_exc UnboundLocalError
    "cannot access local variable 'angle' where it is not associated with a value".

(** Reading the local variable [angle], which is bound on some paths only. *)
Definition read_angle (angle : option Z) : result Z :=
  match angle with
  | Some a => Ok a
  | None => Raise unbound_angle
  end.

(** Lines 74 to 80: the value of [angle] handed to [rotate]. *)
Definition orientation_angle (orientation : string) (inverted : bool) : result Z :=
  let angle : option Z :=
    if String.eqb orientation "horizontal" then Some 0
    else if String.eqb orientation "vertical" then Some 90
    else None in
  let* angle :=
    (if inverted then
       let* a := read_angle angle in Ok (Some ((a + 180) mod 360))
     else Ok angle) in
  read_angle angle.

Definition change_orientation (P : Pillow) (image : Bitmap) (orientation : string)
    (inverted : bool) : result Bitmap :=
  let* angle := orientation_angle orientation inverted in
  Ok (rotate P image angle).

(** ** The world outside the process *)

(** What the helpers change: the file system (path to contents), the
    lines written by [logger.error], oldest first, and the calls made to
    [subprocess.run] (argument vector and the [timeout] keyword, [None]
    when the keyword is not passed). *)
Record World := mk_world {
  files : gmap string bytes;
  log : list string;
  spawned : list (list string * option PyFloat.float)
}.

Definition set_files (fs : gmap string bytes) (w : World) : World :=
  mk_world fs (log w) (spawned w).

(** How a child process ends: [subprocess.run] raises, or the process
    exits with a return code, what it wrote on standard error and the
    files it wrote ([Some]) or removed ([None]).  A process can also put
    entries out of the caller's reach (it makes their directory read-only,
    say): [held] lists them, each with the exception that [os.remove]
    raises on it from then on. *)
Inductive process_outcome :=
| Raises (e : exc)
| Exits (returncode : Z) (stderr : bytes) (touched : list (string * option bytes))
| ExitsHolding (returncode : Z) (stderr : bytes)
    (touched : list (string * option bytes)) (held : list (string * exc)).

(** Return code and standard error of a process that exited. *)
Definition exit_of (outcome : process_outcome) : option (Z * bytes) :=
  match outcome with
  | Raises _ => None
  | Exits returncode stderr _ | ExitsHolding returncode stderr _ _ =>
      Some (returncode, stderr)
  end.

Record response := mk_response { status_code : Z; content : bytes }.

(** What the host decides and the repository does not define. *)
Record Host := {
  (** [platform.machine()] *)
  machine : string;
  (** [shutil.which(name) is not None] *)
  which : string -> bool;
  (** [Path(p).resolve().as_uri()] *)
  as_uri : string -> string;
  (** the behaviour of a command under a given [timeout] keyword *)
  run_process : list string -> option PyFloat.float -> process_outcome;
  (** [data.decode('utf-8', errors='replace')] *)
  decode_utf8 : bytes -> string;
  (** [str(x)] of a float *)
  float_str : PyFloat.float -> string;
  (** [requests.get(url)]; a network failure raises *)
  http_get : string -> result response
}.

(** The exit code of a call, and the entries its process holds. *)
Definition exit_code_of (H : Host) (call : list string * option PyFloat.float)
  : option Z :=
  fst <$> exit_of (run_process H (fst call) (snd call)).

Definition holds_of (H : Host) (call : list string * option PyFloat.float)
  : list (string * exc) :=
  match run_process H (fst call) (snd call) with
  | ExitsHolding _ _ _ held => held
  | _ => []
  end.

Fixpoint lookup_path (path : string) (held : list (string * exc)) : option exc :=
  match held with
  | [] => None
  | (p, e) :: held' => if String.eqb p path then Some e else lookup_path path held'
  end.

(** What stands in the way of removing [path] after the processes of
    [calls] have run: the exception of the first that holds it. *)
Fixpoint held_by (H : Host) (calls : list (list string * option PyFloat.float))
    (path : string) : option exc :=
  match calls with
  | [] => None
  | call :: calls' =>
      match lookup_path path (holds_of H call) with
      | Some e => Some e
      | None => held_by H calls' path
      end
  end.

(** ** State and exceptions *)

Definition M (A : Type) : Type := World -> result A * World.

Definition ret {A} (a : A) : M A := fun w => (Ok a, w).
Definition raise {A} (e : exc) : M A := fun w => (Raise e, w).
Definition lift {A} (r : result A) : M A := fun w => (r, w).

Definition bind {A B} (m : M A) (k : A -> M B) : M B :=
  fun w =>
    match m w with
    | (Ok a, w') => k a w'
    | (Raise e, w') => (Raise e, w')
    end.

Notation "'let!' x ':=' m 'in' k" := (bind m (fun x => k))
  (at level 10, x pattern, m at level 100, k at level 200).

(** [try: body  except Exception as e: handler e] *)
Definition try_except {A} (body : M A) (handler : exc -> M A) : M A :=
  fun w =>
    match body w with
    | (Ok a, w') => (Ok a, w')
    | (Raise e, w') => handler e w'
    end.

(** [try: body  finally: fin]; an exception of [fin] replaces the outcome. *)
Definition try_finally {A} (body : M A) (fin : M unit) : M A :=
  fun w =>
    let (r, w') := body w in
    match fin w' with
    | (Ok _, w'') => (r, w'')
    | (Raise e, w'') => (Raise e, w'')
    end.

(** The outcome of a block as a value, for a [try] whose first statement
    binds a variable that the [finally] clause reads. *)
Definition attempt {A} (m : M A) : M (result A) :=
  fun w => let (r, w') := m w in (Ok r, w').

Definition logger_error (msg : string) : M unit :=
  fun w => (Ok tt, mk_world (files w) (log w ++ [msg]) (spawned w)).

Definition os_path_exists (path : string) : M bool :=
  fun w => (Ok (bool_decide (is_Some (files w !! path))), w).

(** [str(e)] of the [FileNotFoundError] for a path that [repr] leaves as
    it is, as the names of temporary files are. *)
Definition no_such_file (path : string) : exc :=
  mk_exc OSError ("[Errno 2] No such file or directory: '" +:+ path +:+ "'").

(** The number of processes run so far. *)
Definition processes_run : M nat := fun w => (Ok (length (spawned w)), w).

(** [os.remove(path)] for a file that was made when [born] processes had
    been run: it was the caller's own then, so only a process run since
    can stand in the way.  A missing file and a held one raise. *)
Definition os_remove (H : Host) (born : nat) (path : string) : M unit :=
  fun w =>
    match files w !! path with
    | None => (Raise (no_such_file path), w)
    | Some _ =>
        match held_by H (drop born (spawned w)) path with
        | Some e => (Raise e, w)
        | None => (Ok tt, set_files (delete path (files w)) w)
        end
    end.

Definition write_file (path : string) (data : bytes) : M unit :=
  fun w => (Ok tt, set_files (<[path := data]> (files w)) w).

Definition read_file (path : string) : M bytes :=
  fun w =>
    match files w !! path with
    | Some data => (Ok data, w)
    | None => (Raise (no_such_file path), w)
    end.

(** Temporary files: the first unused name in the sequence
    [/tmp/tmp0<suffix>], [/tmp/tmp1<suffix>], ... *)
Definition tmp_name (n : nat) (suffix : string) : string :=
  "/tmp/tmp" +:+ pretty n +:+ suffix.

Fixpoint first_free (fs : gmap string bytes) (suffix : string) (fuel n : nat) : string :=
  match fuel with
  | O => tmp_name n suffix
  | S fuel' =>
      if bool_decide (is_Some (fs !! tmp_name n suffix))
      then first_free fs suffix fuel' (S n)
      else tmp_name n suffix
  end.

(** The name a new temporary file gets, and the world once it exists. *)
Definition output_path (suffix : string) (w : World) : string :=
  first_free (files w) suffix (base.size (files w)) 0.

Definition with_output (suffix : string) (w : World) : World :=
  set_files (<[output_path suffix w := []]> (files w)) w.

(** [tempfile.NamedTemporaryFile(suffix=suffix, delete=False)]: the file
    exists, empty, as soon as it is opened. *)
Definition named_temporary_file (suffix : string) : M string :=
  fun w => (Ok (output_path suffix w), with_output suffix w).

Definition apply_touched (fs : gmap string bytes)
    (touched : list (string * option bytes)) : gmap string bytes :=
  fold_left
    (fun fs '(path, c) =>
       match c with
       | Some data => <[path := data]> fs
       | None => delete path fs
       end)
    touched fs.

(** [subprocess.run(command, stdout=PIPE, stderr=PIPE, [timeout=t])] *)
Definition subprocess_run (H : Host) (command : list string)
    (timeout : option PyFloat.float) : M (Z * bytes) :=
  fun w =>
    let w1 := mk_world (files w) (log w) (spawned w ++ [(command, timeout)]) in
    match run_process H command timeout with
    | Raises e => (Raise e, w1)
    | Exits returncode stderr touched | ExitsHolding returncode stderr touched _ =>
        (Ok (returncode, stderr), set_files (apply_touched (files w1) touched) w1)
    end.

(** The world once a command has run, and once a line has been logged. *)
Definition after_run (H : Host) (command : list string)
    (timeout : option PyFloat.float) (w : World) : World :=
  snd (subprocess_run H command timeout w).

Definition logged (msg : string) (w : World) : World :=
  mk_world (files w) (log w ++ [msg]) (spawned w).

(** ** Text *)

(** [s.lower()] on ASCII letters. *)
Definition lower_char (c : ascii) : ascii :=
  let n := N_of_ascii c in
  if ((65 <=? n) && (n <=? 90))%N then ascii_of_N (n + 32) else c.

Fixpoint lower (s : string) : string :=
  match s with
  | EmptyString => EmptyString
  | String c s' => String (lower_char c) (lower s')
  end.

(** Text is held in UTF-8: a [string] is the bytes of the Python [str]
    it stands for.  The white space of [str.strip()] is the set of
    characters for which [str.isspace()] holds: U+0009 to U+000D, U+001C
    to U+0020, U+0085, U+00A0, U+1680, U+2000 to U+200A, U+2028, U+2029,
    U+202F, U+205F and U+3000, each listed here by its bytes. *)
Definition white_space : list (list N) :=
  [ [9]; [10]; [11]; [12]; [13]; [28]; [29]; [30]; [31]; [32];
    [194; 133]; [194; 160]; [225; 154; 128];
    [226; 128; 128]; [226; 128; 129]; [226; 128; 130]; [226; 128; 131];
    [226; 128; 132]; [226; 128; 133]; [226; 128; 134]; [226; 128; 135];
    [226; 128; 136]; [226; 128; 137]; [226; 128; 138];
    [226; 128; 168]; [226; 128; 169]; [226; 128; 175];
    [226; 129; 159]; [227; 128; 128] ]%N.

Definition codes (s : string) : list N := map N_of_ascii (list_ascii_of_string s).
Definition text_of (l : list N) : string := string_of_list_ascii (map ascii_of_N l).

(** What follows [pattern] when the bytes start with it. *)
Fixpoint after_prefix (pattern l : list N) : option (list N) :=
  match pattern, l with
  | [], _ => Some l
  | a :: pattern', b :: l' => if (a =? b)%N then after_prefix pattern' l' else None
  | _ :: _, [] => None
  end.

(** What follows the first of [patterns] that the bytes start with. *)
Fixpoint after_any (patterns : list (list N)) (l : list N) : option (list N) :=
  match patterns with
  | [] => None
  | pattern :: patterns' =>
      match after_prefix pattern l with
      | Some rest => Some rest
      | None => after_any patterns' l
      end
  end.

(** The bytes without the characters of [patterns] at their head; each
    step removes at least one byte, so [fuel] is the length at most. *)
Fixpoint drop_leading (patterns : list (list N)) (fuel : nat) (l : list N) : list N :=
  match fuel with
  | O => l
  | S fuel' =>
      match after_any patterns l with
      | Some rest => drop_leading patterns fuel' rest
      | None => l
      end
  end.

Definition lstrip (s : string) : string :=
  text_of (drop_leading white_space (String.length s) (codes s)).

(** At the end of well-formed UTF-8 the bytes of a character are that
    character: the text is read backwards. *)
Definition rstrip (s : string) : string :=
  text_of (rev (drop_leading (map (@rev N) white_space) (String.length s)
                  (rev (codes s)))).

Definition strip (s : string) : string := rstrip (lstrip s).

(** [s.startswith(prefixes)] for a tuple of prefixes. *)
Definition startswith (s : string) (prefixes : list string) : bool :=
  existsb (fun p => String.prefix p s) prefixes.

(** A Python string whose characters matter: its code points. *)
Definition unicode := list N.

Definition byte_of_N (n : N) : byte :=
  match Byte.of_N n with
  | Some b => b
  | None => x00
  end.

Definition hex_digit_N (n : N) : ascii :=
  ascii_of_N (if (n <? 10)%N then 48 + n else 87 + n).

(** One character in UTF-8; lone surrogates have no encoding. *)
Definition utf8_encode_char (c : N) : option bytes :=
  (if c <? 128 then Some [byte_of_N c]
   else if c <? 2048 then
     Some [byte_of_N (192 + c / 64); byte_of_N (128 + c mod 64)]
   else if (55296 <=? c) && (c <=? 57343) then None
   else if c <? 65536 then
     Some [byte_of_N (224 + c / 4096); byte_of_N (128 + (c / 64) mod 64);
           byte_of_N (128 + c mod 64)]
   else
     Some [byte_of_N (240 + c / 262144); byte_of_N (128 + (c / 4096) mod 64);
           byte_of_N (128 + (c / 64) mod 64); byte_of_N (128 + c mod 64)])%N.

Definition is_surrogate (c : N) : bool := ((55296 <=? c) && (c <=? 57343))%N.

(** The surrogates at the head of a string. *)
Fixpoint surrogate_run (s : unicode) : nat :=
  match s with
  | c :: s' => if is_surrogate c then S (surrogate_run s') else O
  | [] => O
  end.

(** [str(e)] of the [UnicodeEncodeError] for the surrogate [c] at [pos]
    that [more] surrogates follow: the codec reports the whole run. *)
Definition surrogate_error (c : N) (pos more : nat) : exc :=
  mk_exc UnicodeEncodeError
    (match more with
     | O =>
         "'utf-8' codec can't encode character '\ud"
           +:+ String (hex_digit_N ((c / 256) mod 16))
                 (String (hex_digit_N ((c / 16) mod 16))
                    (String (hex_digit_N (c mod 16)) EmptyString))
           +:+ "' in position " +:+ pretty pos
     | S _ =>
         "'utf-8' codec can't encode characters in position "
           +:+ pretty pos +:+ "-" +:+ pretty (pos + more)%nat
     end +:+ ": surrogates not allowed").

Fixpoint utf8_encode_from (pos : nat) (s : unicode) : result bytes :=
  match s with
  | [] => Ok []
  | c :: s' =>
      match utf8_encode_char c with
      | None => Raise (surrogate_error c pos (surrogate_run s'))
      | Some bs => let* rest := utf8_encode_from (S pos) s' in Ok (bs ++ rest)
      end
  end.

(** [s.encode("utf-8")] *)
Definition utf8_encode (s : unicode) : result bytes := utf8_encode_from 0 s.

(** ** [get_image] *)

Definition get_image (H : Host) (P : Pillow) (image_url : string) : M (option Bitmap) :=
  let! response := lift (http_get H image_url) in
  let img : option Bitmap := None in
  if ((200 <=? status_code response) && (status_code response <? 300))
     || (status_code response =? 304)
  then
    let! img := lift (decode P (content response)) in
    ret (Some img)
  else
    let! _ := logger_error ("Received non-200 response from " +:+ image_url
                              +:+ ": status_code: " +:+ pretty (status_code response)) in
    ret img.

(** ** The screenshot renderer *)

Definition _SWIFTSHADER_ARCHITECTURES : gset string :=
  {[ "x86_64"; "amd64"; "i386"; "i686" ]}.

Definition _CHROMIUM_EXECUTABLES : list string :=
  [ "chromium-browser"; "chromium"; "google-chrome"; "google-chrome-stable";
    "chromium-headless-shell" ].

Definition _get_gl_flag (H : Host) : string :=
  let arch := lower (machine H) in
  if bool_decide (arch ∈ _SWIFTSHADER_ARCHITECTURES) then "--use-gl=swiftshader"
  else "--use-gl=egl".

Definition _normalize_target (H : Host) (target : string) : M string :=
  if startswith target ["http://"; "https://"; "file://"] then ret target
  else
    let! present := os_path_exists target in
    if present then ret (as_uri H target) else ret target.

Definition _build_chromium_command (H : Host) (executable target img_file_path : string)
    (dimensions : Z * Z) : list string :=
  let gl_flag := _get_gl_flag H in
  let base_flags :=
    [ "--headless";
      "--screenshot=" +:+ img_file_path;
      "--window-size=" +:+ pretty (fst dimensions) +:+ "," +:+ pretty (snd dimensions);
      "--disable-dev-shm-usage";
      "--disable-gpu";
      gl_flag;
      "--hide-scrollbars";
      "--in-process-gpu";
      "--js-flags=--jitless";
      "--disable-zero-copy";
      "--disable-gpu-memory-buffer-compositor-resources";
      "--disable-extensions";
      "--disable-plugins";
      "--mute-audio";
      "--no-sandbox" ] in
  if String.eqb executable "chromium-headless-shell"
  then executable :: target :: base_flags
  else executable :: base_flags ++ [target].

Definition float_1000 : PyFloat.float :=
  binary_normalize PyFloat.prec PyFloat.emax 1000 0 false.

(** [v / 1000.0] *)
Definition div_1000 (v : pyval) : result PyFloat.float :=
  match v with
  | VNone =>
      Raise (mk_exc TypeError "unsupported operand type(s) for /: 'NoneType' and 'float'")
  | VBool b => let* x := PyFloat.of_int (Z.b2z b) in PyFloat.truediv x float_1000
  | VInt z => let* x := PyFloat.of_int z in PyFloat.truediv x float_1000
  | VFloat x => PyFloat.truediv x float_1000
  end.

(** Line 166: [(timeout_ms / 1000.0) if timeout_ms else None] *)
Definition timeout_seconds_of (timeout_ms : pyval) : result (option PyFloat.float) :=
  if py_truthy timeout_ms then let* t := div_1000 timeout_ms in Ok (Some t)
  else Ok None.

(** Lines 175 to 177: the [timeout] entry of [run_kwargs], if any. *)
Definition timeout_kwarg (timeout_seconds : option PyFloat.float)
  : option PyFloat.float :=
  match timeout_seconds with
  | Some t => if PyFloat.truthy t then Some t else None
  | None => None
  end.

Definition format_timeout (H : Host) (timeout_seconds : option PyFloat.float) : string :=
  match timeout_seconds with
  | Some t => float_str H t
  | None => "None"
  end.

Definition is_timeout_expired (e : exc) : bool :=
  match kind e with
  | TimeoutExpired => true
  | _ => false
  end.

(** Lines 182 and 187: the message for a [subprocess.run] that raised. *)
Definition launch_message (H : Host) (timeout_seconds : option PyFloat.float)
    (executable : string) (e : exc) : string :=
  if is_timeout_expired e then
    executable +:+ " timed out after " +:+ format_timeout H timeout_seconds +:+ " seconds"
  else executable +:+ " failed: " +:+ text e.

(** Lines 200 and 201: the message for an exit that is not a success. *)
Definition exit_message (H : Host) (executable : string) (returncode : Z)
    (stderr : bytes) : string :=
  let stderr_output := decode_utf8 H stderr in
  executable +:+ " exited with code " +:+ pretty returncode +:+ ": " +:+ strip stderr_output.

Section CandidateLoop.
Variable H : Host.
Variables (normalized_target img_file_path : string) (dimensions : Z * Z).
Variable timeout_seconds : option PyFloat.float.

(** [errors.append(message); logger.error(message)] *)
Definition record_error (errors : list string) (message : string) : M (list string) :=
  let! _ := logger_error message in ret (errors ++ [message]).

(** Lines 170 to 203: the loop over the candidate executables.  The
    result is [errors] and [screenshot_taken] when the loop is left. *)
Fixpoint try_executables (candidates : list string) (errors : list string)
  : M (list string * bool) :=
  match candidates with
  | [] => ret (errors, false)
  | executable :: rest =>
      if negb (which H executable) then try_executables rest errors
      else
        let command :=
          _build_chromium_command H executable normalized_target img_file_path
            dimensions in
        let! outcome :=
          attempt (subprocess_run H command (timeout_kwarg timeout_seconds)) in
        match outcome with
        | Raise e =>
            let message := launch_message H timeout_seconds executable e in
            let! errors := record_error errors message in
            try_executables rest errors
        | Ok (returncode, stderr) =>
            let! present := os_path_exists img_file_path in
            if (returncode =? 0) && present then ret (errors, true)
            else if returncode =? 132 then try_executables rest errors
            else
              let message := exit_message H executable returncode stderr in
              let! errors := record_error errors message in
              try_executables rest errors
        end
  end.
End CandidateLoop.

Fixpoint log_each (errors : list string) : M unit :=
  match errors with
  | [] => ret tt
  | err :: rest => let! _ := logger_error err in log_each rest
  end.

(** What lines 205 to 211 write to the log for a given list of errors. *)
Definition failure_report (errors : list string) : list string :=
  match errors with
  | [] => ["Failed to take screenshot: No chromium executable found"]
  | _ => "Failed to take screenshot:" :: errors
  end.

(** Lines 205 to 212: the report when no candidate rendered. *)
Definition report_failure (errors : list string) : M unit :=
  match errors with
  | [] => logger_error "Failed to take screenshot: No chromium executable found"
  | _ => let! _ := logger_error "Failed to take screenshot:" in log_each errors
  end.

(** Lines 165 to 216: the [try] block after [img_file_path] is bound. *)
Definition render (H : Host) (P : Pillow) (target : string) (dimensions : Z * Z)
    (timeout_ms : pyval) (img_file_path : string) : M (option Bitmap) :=
  let! normalized_target := _normalize_target H target in
  let! timeout_seconds := lift (timeout_seconds_of timeout_ms) in
  let! (errors, screenshot_taken) :=
    try_executables H normalized_target img_file_path dimensions timeout_seconds
      _CHROMIUM_EXECUTABLES [] in
  if negb screenshot_taken then
    let! _ := report_failure errors in
    ret None
  else
    let! data := read_file img_file_path in
    let! img := lift (decode P data) in
    ret (Some img).

(** An [except Exception as e] clause: one log line, and the function goes
    on to return the current value of [image]. *)
Definition log_failure (image : option Bitmap) (e : exc) : M (option Bitmap) :=
  let! _ := logger_error ("Failed to take screenshot: " +:+ text e) in
  ret image.

(** Lines 221 and 222: the [finally] clause. *)
Definition remove_output (H : Host) (born : nat) (img_file_path : string) : M unit :=
  let! present := os_path_exists img_file_path in
  if negb (String.eqb img_file_path "") && present
  then os_remove H born img_file_path
  else ret tt.

(** The [try] statement of lines 160 to 224.  Its first statement binds
    [img_file_path]; were it to raise, the variable would still be [None]
    and the [finally] clause would have nothing to remove.  The [finally]
    clause is outside every [except]: what its [os.remove] raises reaches
    the caller. *)
Definition take_screenshot (H : Host) (P : Pillow) (target : string)
    (dimensions : Z * Z) (timeout_ms : pyval) : M (option Bitmap) :=
  let! created := attempt (named_temporary_file ".png") in
  let! born := processes_run in
  match created with
  | Raise e => log_failure None e
  | Ok img_file_path =>
      try_finally
        (try_except (render H P target dimensions timeout_ms img_file_path)
           (log_failure None))
        (remove_output H born img_file_path)
  end.

(** Lines 139 to 155.  One [try] around everything, no [finally]: the
    removal of line 150 runs only when nothing raised before it.  [image]
    is bound to the screenshot before the file is removed, so a failing
    removal is logged and the screenshot still returned. *)
Definition take_screenshot_html (H : Host) (P : Pillow) (html_str : unicode)
    (dimensions : Z * Z) (timeout_ms : pyval) : M (option Bitmap) :=
  try_except
    (let! html_file_path := named_temporary_file ".html" in
     let! born := processes_run in
     let! data := lift (utf8_encode html_str) in
     let! _ := write_file html_file_path data in
     let! image := take_screenshot H P html_file_path dimensions timeout_ms in
     try_except (let! _ := os_remove H born html_file_path in ret image)
       (log_failure image))
    (log_failure None).

(** ** Sample images and hosts, to run the model on *)

Definition sample_pillow : Pillow := {|
  lanczos := fun _ sz => ModeL (replicate (Z.to_nat (fst sz * snd sz)) x00);
  rotate_free := fun im _ => im;
  decode := fun data =>
    match data with
    | [] => Raise (mk_exc UnidentifiedImageError "cannot identify image file")
    | b :: _ => Ok (mk_bitmap (1, 1) (ModeL [b]))
    end
|}.

(** Two pixels side by side: once in grey levels, once in RGBA. *)
Definition sample_grey : Bitmap := mk_bitmap (2, 1) (ModeL [x10; x20]).
Definition sample_rgba : Bitmap :=
  mk_bitmap (2, 1) (ModeRGBA [(x10, x10, x10, xff); (x20, x20, x20, x00)]).

(** A host with one browser, [chromium], that ends as [outcome] says; the
    network answers every request with [status] and one byte. *)
Definition sample_host (outcome : process_outcome) (status : Z) : Host := {|
  machine := "x86_64";
  which := fun name => String.eqb name "chromium";
  as_uri := fun path => "file://" +:+ path;
  run_process := fun _ _ => outcome;
  decode_utf8 := string_of_list_byte;
  float_str := fun _ => "5.0";
  http_get := fun _ => Ok (mk_response status [x2a])
|}.

Definition empty_world : World := mk_world ∅ [] [].

(** A browser that fails with exit code 1 and a line on standard error. *)
Definition failing_host : Host :=
  sample_host (Exits 1 (list_byte_of_string "boom" ++ [x0a]) []) 200.

(** A browser that stops on an illegal instruction. *)
Definition sigill_host : Host := sample_host (Exits 132 [] []) 200.

(** A browser that renders, and removes the page it was given. *)
Definition rendering_host : Host :=
  sample_host (Exits 0 [] [("/tmp/tmp0.png", Some [x2a]); ("/tmp/tmp0.html", None)]) 200.

(** ** Traces of the screenshot renderer *)

(** What a spawned command did to the file system. *)
Definition touched_by (H : Host) (call : list string * option PyFloat.float)
  : list (string * option bytes) :=
  match run_process H (fst call) (snd call) with
  | Exits _ _ touched | ExitsHolding _ _ touched _ => touched
  | Raises _ => []
  end.

(** The file system after a sequence of spawned commands. *)
Definition files_after (H : Host) (calls : list (list string * option PyFloat.float))
    (fs : gmap string bytes) : gmap string bytes :=
  fold_left (fun fs call => apply_touched fs (touched_by H call)) calls fs.

(** The world without a file. *)
Definition without_file (path : string) (w : World) : World :=
  set_files (delete path (files w)) w.

(** The [finally] clause of [take_screenshot] after a [try] block that
    gave [r] and ran [calls]: a file that is there and held stays, and the
    exception of [os.remove] replaces [r]; otherwise the file is gone. *)
Definition finish {A} (H : Host) (calls : list (list string * option PyFloat.float))
    (path : string) (r : result A) (w : World) : result A * World :=
  match files w !! path, held_by H calls path with
  | Some _, Some e => (Raise e, w)
  | _, _ => (r, without_file path w)
  end.

(** The calls the candidate loop makes when it tries every candidate that
    is on the PATH. *)
Definition all_calls (H : Host) (normalized_target img_file_path : string)
    (dimensions : Z * Z) (timeout_seconds : option PyFloat.float)
    (candidates : list string) : list (list string * option PyFloat.float) :=
  map (fun executable =>
         (_build_chromium_command H executable normalized_target img_file_path
            dimensions,
          timeout_kwarg timeout_seconds))
    (List.filter (which H) candidates).

(** A string that holds a lone surrogate somewhere. *)
Definition has_surrogate (s : unicode) : Prop :=
  Exists (fun c => (55296 <= c <= 57343)%N) s.

(** ** [pad_image_blur] *)

(** What [ImageOps] and [ImageFilter] compute; each may raise. *)
Record ImageOps := {
  (** [ImageOps.fit(img, size)]: crop and scale to fill [size] *)
  fit : Bitmap -> Z * Z -> result Bitmap;
  (** [ImageOps.contain(img, size)]: scale to fit inside [size] *)
  contain : Bitmap -> Z * Z -> result Bitmap;
  (** [img.filter(ImageFilter.BoxBlur(radius))] *)
  box_blur : Bitmap -> Z -> result Bitmap;
  (** pasting an image of another mode, which is first converted *)
  paste_converted : Bitmap -> Bitmap -> Z * Z -> Bitmap
}.

Section Paste.
Context {A : Type} (zero : A).

(** The [bw] by [bh] buffer [bd] with the [iw] by [ih] buffer [d] copied
    over it, upper left corner at column [ox], row [oy]. *)
Definition paste_data (bw bh : Z) (bd : list A) (iw ih : Z) (d : list A) (ox oy : Z)
  : list A :=
  tabulate bw bh
    (fun x y =>
       if (ox <=? x) && (x <? ox + iw) && (oy <=? y) && (y <? oy + ih)
       then getpixel zero iw ih d (x - ox) (y - oy)
       else getpixel zero bw bh bd x y).
End Paste.

(** [bkg.paste(img, box)] for a two-coordinate [box], as the bitmap [bkg]
    is afterwards. *)
Definition paste (O : ImageOps) (bkg img : Bitmap) (box : Z * Z) : Bitmap :=
  let (bw, bh) := size bkg in
  let (iw, ih) := size img in
  let (ox, oy) := box in
  match pixels bkg, pixels img with
  | ModeL bd, ModeL d =>
      mk_bitmap (bw, bh) (ModeL (paste_data zero_byte bw bh bd iw ih d ox oy))
  | ModeRGB bd, ModeRGB d =>
      mk_bitmap (bw, bh)
        (ModeRGB (paste_data (zero_byte, zero_byte, zero_byte) bw bh bd iw ih d ox oy))
  | ModeRGBA bd, ModeRGBA d =>
      mk_bitmap (bw, bh)
        (ModeRGBA (paste_data (zero_byte, zero_byte, zero_byte, zero_byte)
                     bw bh bd iw ih d ox oy))
  | _, _ => paste_converted O bkg img box
  end.

Definition pad_image_blur (O : ImageOps) (img : Bitmap) (dimensions : Z * Z)
  : result Bitmap :=
  let* bkg := fit O img dimensions in
  let* bkg := box_blur O bkg 8 in
  let* img := contain O img dimensions in
  let img_size := size img in
  Ok (paste O bkg img
        ((fst dimensions - fst img_size) `div` 2,
         (snd dimensions - snd img_size) `div` 2)).

(** A pixel of any mode, and the pixel of a bitmap at a position. *)
Inductive pixel :=
| PxL (l : byte)
| PxRGB (p : byte * byte * byte)
| PxRGBA (p : byte * byte * byte * byte).

Definition pixel_at (im : Bitmap) (x y : Z) : pixel :=
  match pixels im with
  | ModeL d => PxL (getpixel zero_byte (width im) (height im) d x y)
  | ModeRGB d =>
      PxRGB (getpixel (zero_byte, zero_byte, zero_byte) (width im) (height im) d x y)
  | ModeRGBA d =>
      PxRGBA (getpixel (zero_byte, zero_byte, zero_byte, zero_byte)
                (width im) (height im) d x y)
  end.

Definition same_mode (a b : Bitmap) : bool :=
  match pixels a, pixels b with
  | ModeL _, ModeL _ | ModeRGB _, ModeRGB _ | ModeRGBA _, ModeRGBA _ => true
  | _, _ => false
  end.

(** ** [apply_image_enhancement] *)

Inductive enhancer := Brightness | Contrast | Color | Sharpness.

(** What [ImageEnhance] computes: the degenerate image of each enhancer
    (black, mean grey, greyscale, smoothed), which may raise, and the
    interpolation of two images for a factor other than 0 and 1. *)
Record ImageEnhance := {
  degenerate : enhancer -> Bitmap -> result Bitmap;
  interpolate : Bitmap -> Bitmap -> PyFloat.float -> Bitmap
}.

Definition float_one : PyFloat.float :=
  binary_normalize PyFloat.prec PyFloat.emax 1 0 false.

(** [Image.blend(im1, im2, alpha)]: a copy of [im1] at 0, of [im2] at 1. *)
Definition blend (E : ImageEnhance) (im1 im2 : Bitmap) (alpha : PyFloat.float) : Bitmap :=
  if SFeqb alpha (S754_zero false) then im1
  else if SFeqb alpha float_one then im2
  else interpolate E im1 im2 alpha.

(** [ImageEnhance.<kind>(image).enhance(factor)] *)
Definition enhance (E : ImageEnhance) (kind : enhancer) (image : Bitmap)
    (factor : PyFloat.float) : result Bitmap :=
  let* degenerate_image := degenerate E kind image in
  Ok (blend E degenerate_image image factor).

(** [image_settings.get(key, 1.0)] *)
Definition setting (image_settings : gmap string PyFloat.float) (key : string)
  : PyFloat.float :=
  default float_one (image_settings !! key).

Definition apply_image_enhancement (E : ImageEnhance) (img : Bitmap)
    (image_settings : gmap string PyFloat.float) : result Bitmap :=
  let* img := enhance E Brightness img (setting image_settings "brightness") in
  let* img := enhance E Contrast img (setting image_settings "contrast") in
  let* img := enhance E Color img (setting image_settings "saturation") in
  let* img := enhance E Sharpness img (setting image_settings "sharpness") in
  Ok img.

(** A sample: fitting and containing are done by cropping to the target,
    the blur and the degenerate images leave the image as it is. *)
Definition sample_ops : ImageOps := {|
  fit := fun im sz => crop im (0, 0, fst sz, snd sz);
  contain := fun im sz => crop im (0, 0, Z.min (width im) (fst sz), Z.min (height im) (snd sz));
  box_blur := fun im _ => Ok im;
  paste_converted := fun bkg _ _ => bkg
|}.

Definition sample_enhance : ImageEnhance := {|
  degenerate := fun _ im => Ok im;
  interpolate := fun im1 _ _ => im1
|}.

(** A wider sample: four columns, two rows, grey levels 0 to 7. *)
Definition sample_wide : Bitmap :=
  mk_bitmap (4, 2) (ModeL [x00; x01; x02; x03; x04; x05; x06; x07]).

(** ** The value of a double

    The rational number a finite double stands for, to state how far the
    arithmetic of [resize_image] is from exact arithmetic. *)

From Stdlib Require Import QArith Qpower Lqa.
Local Open Scope Z_scope.

Definition value (x : PyFloat.float) : Q :=
  match x with
  | S754_finite s m e => (inject_Z (if s then Zneg m else Zpos m) * 2 ^ e)%Q
  | _ => 0%Q
  end.


(** ** More samples and predicates *)

(** A character of a lower-case hexadecimal number. *)
Definition is_lower_hex (c : ascii) : bool :=
  let n := N_of_ascii c in
  ((48 <=? n)%N && (n <=? 57)%N) || ((97 <=? n)%N && (n <=? 102)%N).


(** A browser that renders and leaves the output file in a directory
    it has made read-only. *)
Definition holding_host : Host :=
  sample_host
    (ExitsHolding 0 [] [("/tmp/tmp0.png", Some [x2a])]
       [("/tmp/tmp0.png",
         mk_exc OSError "[Errno 13] Permission denied: '/tmp/tmp0.png'")])
    200.


(** ** Predicates of the statements *)

(** Sizes the image library can hold: positive C [int]s. *)
Definition valid_dim (z : Z) : Prop := 0 < z < 2 ^ 31.

(** The status test of line 67 of [get_image]. *)
Definition http_success (status : Z) : Prop := 200 <= status < 300 \/ status = 304.

(** The three bytes of an RGB pixel. *)
Definition rgb_bytes (px : byte * byte * byte) : bytes :=
  let '(r, g, b) := px in [r; g; b].

(** A successful [let*] chain: name the value of its first step. *)
Ltac step_result H x E :=
  match type of H with
  | rbind ?r _ = Ok _ =>
      destruct r as [x|] eqn:E; cbn [rbind] in H; [|discriminate H]
  end.

(** * Properties *)

(** ** Binary64 arithmetic stays in range

    Rounding a mantissa of at least 53 bits whose magnitude is far from
    the overflow and underflow thresholds gives a normal double of the same
    sign and nearly the same magnitude; so do the products, quotients and
    integer conversions that [resize_image] performs. *)

Module FloatFacts.
Import PyFloat.

Lemma digits2_pos_bounds (p : positive) :
  2 ^ (Zpos (digits2_pos p) - 1) <= Zpos p /\ Zpos p < 2 ^ Zpos (digits2_pos p).
Proof.
  induction p as [p IH|p IH|]; cbn [digits2_pos].
  - rewrite Pos2Z.inj_succ, (Pos2Z.inj_xI p).
    replace (Z.succ (Z.pos (digits2_pos p)) - 1) with (Z.succ (Z.pos (digits2_pos p) - 1)) by lia.
    rewrite !Z.pow_succ_r by lia. destruct IH; split; lia.
  - rewrite Pos2Z.inj_succ, (Pos2Z.inj_xO p).
    replace (Z.succ (Z.pos (digits2_pos p)) - 1) with (Z.succ (Z.pos (digits2_pos p) - 1)) by lia.
    rewrite !Z.pow_succ_r by lia. destruct IH; split; lia.
  - cbn. lia.
Qed.

Lemma digits2_pos_unique (p : positive) (k : Z) :
  2 ^ (k - 1) <= Zpos p -> Zpos p < 2 ^ k -> Zpos (digits2_pos p) = k.
Proof.
  intros Hlo Hhi. pose proof (digits2_pos_bounds p) as [Dlo Dhi].
  assert (0 <= k).
  { destruct (Z.le_gt_cases 0 k); [done|]. rewrite Z.pow_neg_r in Hhi by lia. lia. }
  destruct (Z.lt_trichotomy (Zpos (digits2_pos p)) k) as [Hlt|[->|Hgt]]; [|done|].
  - assert (2 ^ Zpos (digits2_pos p) <= 2 ^ (k - 1)) by (apply Z.pow_le_mono_r; lia). lia.
  - assert (2 ^ k <= 2 ^ (Zpos (digits2_pos p) - 1)) by (apply Z.pow_le_mono_r; lia). lia.
Qed.

Lemma shr_1_m (r : shr_record) : 0 <= shr_m r -> shr_m (shr_1 r) = shr_m r / 2.
Proof.
  destruct r as [m r s]; cbn [shr_m]. intros Hm.
  destruct m as [|[p|p|]|p]; cbn [shr_1 shr_m]; try lia; try reflexivity.
  - apply (Z.div_unique _ 2 _ 1); [lia|]. rewrite (Pos2Z.inj_xI p). lia.
  - apply (Z.div_unique _ 2 _ 0); [lia|]. rewrite (Pos2Z.inj_xO p). lia.
Qed.

Lemma iter_shr_1_m (p : positive) (r : shr_record) :
  0 <= shr_m r -> shr_m (SpecFloat.iter_pos shr_1 p r) = shr_m r / 2 ^ Zpos p.
Proof.
  revert r. induction p as [p IH|p IH|]; intros r Hr; cbn [SpecFloat.iter_pos].
  - assert (H1 : 0 <= shr_m (shr_1 r)) by (rewrite shr_1_m by done; apply Z.div_pos; lia).
    assert (H2 : 0 <= shr_m (SpecFloat.iter_pos shr_1 p (shr_1 r)))
      by (rewrite IH by done; apply Z.div_pos; lia).
    rewrite IH, IH, shr_1_m by done.
    rewrite !Z.div_div by lia. f_equal.
    rewrite (Pos2Z.inj_xI p), Z.pow_add_r, Z.pow_1_r by lia.
    replace (2 * Z.pos p) with (Z.pos p + Z.pos p) by lia.
    rewrite Z.pow_add_r by lia. lia.
  - assert (H2 : 0 <= shr_m (SpecFloat.iter_pos shr_1 p r))
      by (rewrite IH by done; apply Z.div_pos; lia).
    rewrite IH, IH by done.
    rewrite !Z.div_div by lia. f_equal.
    rewrite (Pos2Z.inj_xO p).
    replace (2 * Z.pos p) with (Z.pos p + Z.pos p) by lia.
    rewrite Z.pow_add_r by lia. lia.
  - rewrite shr_1_m by done. reflexivity.
Qed.

Lemma shr_spec (r : shr_record) (e n : Z) :
  0 <= shr_m r -> 0 <= n ->
  shr_m (fst (shr r e n)) = shr_m r / 2 ^ n /\ snd (shr r e n) = e + n.
Proof.
  intros Hr Hn. destruct n as [|p|p]; cbn [shr fst snd]; [| |lia].
  - rewrite Z.pow_0_r, Z.div_1_r. lia.
  - rewrite iter_shr_1_m by done. lia.
Qed.

Lemma shr_record_of_loc_m m l : shr_m (shr_record_of_loc m l) = m.
Proof. destruct l as [|[]]; reflexivity. Qed.

Lemma round_nearest_even_bounds m l :
  m <= round_nearest_even m l <= m + 1.
Proof. destruct l as [|[]]; cbn [round_nearest_even]; try destruct (Z.even m); lia. Qed.


Lemma fexp_normal (k : Z) : -1021 <= k -> fexp prec emax k = k - 53.
Proof. unfold fexp, emin, prec, emax. lia. Qed.

Lemma Zdigits2_53_or_54 (m : Z) :
  2 ^ 52 <= m <= 2 ^ 53 ->
  (Zdigits2 m = 53 /\ m < 2 ^ 53) \/ (Zdigits2 m = 54 /\ m = 2 ^ 53).
Proof.
  intros [Hlo Hhi]. destruct m as [|p|p]; try lia.
  destruct (Z.eq_dec (Zpos p) (2 ^ 53)) as [E|N].
  - right. split; [|done]. apply digits2_pos_unique; rewrite E; lia.
  - left. split; [|lia]. apply digits2_pos_unique; lia.
Qed.

Lemma binary_round_aux_normal (s : bool) (m e : Z) (l : location) :
  0 < m -> 53 <= Zdigits2 m -> -1021 <= Zdigits2 m + e -> Zdigits2 m + e <= 1023 ->
  normal s (Zdigits2 m + e) (Zdigits2 m + e + 1) (binary_round_aux prec emax s m e l).
Proof.
  intros Hm Hd Hlo Hhi. unfold binary_round_aux, shr_fexp.
  rewrite fexp_normal by done.
  set (d := Zdigits2 m) in *.
  assert (Hb : 2 ^ (d - 1) <= m /\ m < 2 ^ d).
  { destruct m as [|p|p]; try lia. apply digits2_pos_bounds. }
  destruct (shr_spec (shr_record_of_loc m l) e (d + e - 53 - e)) as [Hm1 He1].
  { rewrite shr_record_of_loc_m. lia. }
  { lia. }
  destruct (shr (shr_record_of_loc m l) e (d + e - 53 - e)) as [r1 e1].
  cbn [fst snd] in Hm1, He1. rewrite shr_record_of_loc_m in Hm1.
  replace (d + e - 53 - e) with (d - 53) in Hm1, He1 by lia.
  assert (Hr1 : 2 ^ 52 <= shr_m r1 < 2 ^ 53).
  { rewrite Hm1. split.
    - apply Z.div_le_lower_bound; [lia|].
      rewrite <- Z.pow_add_r by lia. replace (d - 53 + 52) with (d - 1) by lia. lia.
    - apply Z.div_lt_upper_bound; [lia|].
      rewrite <- Z.pow_add_r by lia. replace (d - 53 + 53) with d by lia. lia. }
  pose proof (round_nearest_even_bounds (shr_m r1) (loc_of_shr_record r1)) as Hr2.
  set (m2 := round_nearest_even (shr_m r1) (loc_of_shr_record r1)) in *.
  destruct (Zdigits2_53_or_54 m2) as [[Hd2 Hlt]|[Hd2 Heq]]; [lia| |].
  - rewrite Hd2, fexp_normal by lia.
    replace (53 + e1 - 53 - e1) with 0 by lia. cbn [shr shr_record_of_loc shr_m].
    destruct m2 as [|p2|p2]; try lia.
    replace (e1 <=? emax - prec) with true by (unfold emax, prec; lia).
    exists p2, e1. cbn [Zdigits2] in Hd2. split; [done|]. split; [done|lia].
  - rewrite Hd2, fexp_normal by lia.
    replace (54 + e1 - 53 - e1) with 1 by lia. rewrite Heq.
    cbn [shr shr_record_of_loc shr_m SpecFloat.iter_pos].
    replace (e1 + 1 <=? emax - prec) with true by (unfold emax, prec; lia).
    cbn. eexists _, _. split; [reflexivity|]. split; [reflexivity|lia].
Qed.


Lemma normal_weaken s lo hi lo' hi' x :
  normal s lo hi x -> lo' <= lo -> hi <= hi' -> normal s lo' hi' x.
Proof. intros (m & e & -> & Hd & Hr) ? ?. exists m, e. repeat split; [done|lia|lia]. Qed.

Lemma Zdigits2_ge (m k : Z) : 0 < m -> 2 ^ (k - 1) <= m -> k <= Zdigits2 m.
Proof.
  intros Hm Hk. destruct m as [|p|p]; try lia. cbn [Zdigits2].
  pose proof (digits2_pos_bounds p) as [_ Hhi].
  destruct (Z.le_gt_cases k (Zpos (digits2_pos p))); [done|].
  assert (2 ^ Zpos (digits2_pos p) <= 2 ^ (k - 1)) by (apply Z.pow_le_mono_r; lia). lia.
Qed.

Lemma Zdigits2_le (m k : Z) : 0 < m -> 0 <= k -> m < 2 ^ k -> Zdigits2 m <= k.
Proof.
  intros Hm Hk Hlt. destruct m as [|p|p]; try lia. cbn [Zdigits2].
  pose proof (digits2_pos_bounds p) as [Hlo _].
  destruct (Z.le_gt_cases (Zpos (digits2_pos p)) k); [done|].
  assert (2 ^ k <= 2 ^ (Zpos (digits2_pos p) - 1)) by (apply Z.pow_le_mono_r; lia). lia.
Qed.

Lemma pow2_split (k : Z) : 0 < k -> 2 ^ k = 2 * 2 ^ (k - 1).
Proof. intros. rewrite <- Z.pow_succ_r by lia. f_equal. lia. Qed.

Lemma SFdiv_normal sx mx ex sy my ey :
  -1021 <= mag mx ex - mag my ey -> mag mx ex - mag my ey <= 1022 ->
  normal (xorb sx sy) (mag mx ex - mag my ey) (mag mx ex - mag my ey + 2)
    (SFdiv prec emax (S754_finite sx mx ex) (S754_finite sy my ey)).
Proof.
  unfold mag. intros Hlo Hhi. cbn [SFdiv]. unfold SFdiv_core_binary. cbn [Zdigits2].
  set (dx := Zpos (digits2_pos mx)) in *. set (dy := Zpos (digits2_pos my)) in *.
  rewrite fexp_normal by lia.
  set (e' := Z.min (dx + ex - (dy + ey) - 53) (ex - ey)).
  set (sh := ex - ey - e').
  assert (Hsh : 0 <= sh /\ dy - dx + 53 <= sh) by (unfold sh, e'; lia).
  set (m' := match sh with Z.pos _ => Z.shiftl (Z.pos mx) sh | 0 => Z.pos mx | Z.neg _ => 0 end).
  assert (Hm' : m' = Zpos mx * 2 ^ sh).
  { unfold m'. destruct sh as [|p|p] eqn:E; [lia| |lia].
    rewrite Z.shiftl_mul_pow2 by lia. reflexivity. }
  pose proof (Z_div_mod m' (Zpos my) eq_refl) as Hdm.
  destruct (Z.div_eucl m' (Z.pos my)) as [q r]. destruct Hdm as [Hq Hr].
  pose proof (digits2_pos_bounds mx) as [Hxl Hxh]. fold dx in Hxl, Hxh.
  pose proof (digits2_pos_bounds my) as [Hyl Hyh]. fold dy in Hyl, Hyh.
  set (K := dx + sh - dy - 1).
  assert (HK : 52 <= K) by (unfold K; lia).
  assert (Hrel : 2 ^ K * (2 * 2 ^ (dy - 1)) = 2 ^ (dx - 1) * 2 ^ sh).
  { rewrite <- pow2_split by lia. rewrite <- !Z.pow_add_r by lia. f_equal. unfold K. lia. }
  rewrite (pow2_split dx) in Hxh by lia. rewrite (pow2_split dy) in Hyh by lia.
  assert (HS : 0 < 2 ^ sh) by (apply Z.pow_pos_nonneg; lia).
  assert (HKp : 0 < 2 ^ K) by (apply Z.pow_pos_nonneg; lia).
  assert (HA : 0 < 2 ^ (dx - 1)) by (apply Z.pow_pos_nonneg; lia).
  assert (HB : 0 < 2 ^ (dy - 1)) by (apply Z.pow_pos_nonneg; lia).
  assert (Hql : 2 ^ K <= q).
  { destruct (Z.le_gt_cases (2 ^ K) q); [done|]. exfalso.
    assert (m' < Z.pos my * 2 ^ K) by nia. nia. }
  assert (Hqh : q < 2 ^ (K + 2)).
  { replace (K + 2) with (Z.succ (Z.succ K)) by lia. rewrite !Z.pow_succ_r by lia.
    destruct (Z.le_gt_cases (2 * (2 * 2 ^ K)) q); [|done]. exfalso. nia. }
  assert (Hq0 : 0 < q) by lia.
  assert (Hdl : K + 1 <= Zdigits2 q).
  { apply Zdigits2_ge; [done|]. replace (K + 1 - 1) with K by lia. done. }
  assert (Hdh : Zdigits2 q <= K + 2) by (apply Zdigits2_le; [done|lia|done]).
  assert (Hse : sh + e' = ex - ey) by (unfold sh; lia).
  eapply normal_weaken; [apply binary_round_aux_normal| |]; unfold K in *; lia.
Qed.


Lemma SFmul_normal sx mx ex sy my ey :
  54 <= Zpos (digits2_pos mx) + Zpos (digits2_pos my) ->
  -1020 <= mag mx ex + mag my ey -> mag mx ex + mag my ey <= 1023 ->
  normal (xorb sx sy) (mag mx ex + mag my ey - 1) (mag mx ex + mag my ey + 1)
    (SFmul prec emax (S754_finite sx mx ex) (S754_finite sy my ey)).
Proof.
  unfold mag. intros Hd Hlo Hhi. cbn [SFmul].
  set (dx := Zpos (digits2_pos mx)) in *. set (dy := Zpos (digits2_pos my)) in *.
  pose proof (digits2_pos_bounds mx) as [Hxl Hxh]. fold dx in Hxl, Hxh.
  pose proof (digits2_pos_bounds my) as [Hyl Hyh]. fold dy in Hyl, Hyh.
  assert (HA : 0 < 2 ^ (dx - 1)) by (apply Z.pow_pos_nonneg; lia).
  assert (HB : 0 < 2 ^ (dy - 1)) by (apply Z.pow_pos_nonneg; lia).
  assert (Hdl : dx + dy - 1 <= Zdigits2 (Zpos (mx * my))).
  { apply Zdigits2_ge; [lia|]. replace (dx + dy - 1 - 1) with ((dx - 1) + (dy - 1)) by lia.
    rewrite Z.pow_add_r, Pos2Z.inj_mul by lia. nia. }
  assert (Hdh : Zdigits2 (Zpos (mx * my)) <= dx + dy).
  { apply Zdigits2_le; [lia|lia|]. rewrite Z.pow_add_r, Pos2Z.inj_mul by lia. nia. }
  eapply normal_weaken; [apply binary_round_aux_normal| |]; lia.
Qed.

Lemma iter_xO_pow (m k : positive) : Zpos (Pos.iter xO m k) = Zpos m * 2 ^ Zpos k.
Proof.
  induction k as [|k IH] using Pos.peano_ind.
  - cbn [Pos.iter]. rewrite (Pos2Z.inj_xO m). lia.
  - rewrite Pos.iter_succ, (Pos2Z.inj_xO (Pos.iter xO m k)), IH, Pos2Z.inj_succ.
    rewrite Z.pow_succ_r by lia. lia.
Qed.

Lemma of_int_normal (z : Z) :
  0 < z -> Zdigits2 z <= 1023 ->
  exists x, of_int z = Ok x /\ normal false (Zdigits2 z) (Zdigits2 z + 1) x.
Proof.
  intros Hz Hd. destruct z as [|p|p]; try lia. cbn [Zdigits2] in *.
  unfold of_int. cbn [binary_normalize]. unfold binary_round.
  set (d := Zpos (digits2_pos p)) in *.
  pose proof (digits2_pos_bounds p) as [Hl Hh]. fold d in Hl, Hh.
  assert (Hn : normal false d (d + 1)
                 (let '(mz, ez) := shl_align p 0 (fexp prec emax (d + 0)) in
                  binary_round_aux prec emax false (Z.pos mz) ez loc_Exact)).
  { rewrite fexp_normal by lia. unfold shl_align.
    destruct (d + 0 - 53 - 0) as [|k|k] eqn:E.
    - eapply normal_weaken; [apply binary_round_aux_normal| |]; cbn [Zdigits2]; lia.
    - eapply normal_weaken; [apply binary_round_aux_normal| |]; cbn [Zdigits2]; lia.
    - assert (Hk : Zpos k = 53 - d) by lia.
      assert (Hdk : Zpos (digits2_pos (Pos.iter xO p k)) = 53).
      { apply digits2_pos_unique; rewrite iter_xO_pow, Hk.
        - replace (53 - 1) with ((d - 1) + (53 - d)) by lia. rewrite Z.pow_add_r by lia.
          apply Z.mul_le_mono_nonneg_r; [apply Z.pow_nonneg|]; lia.
        - replace 53 with (d + (53 - d)) at 2 by lia. rewrite Z.pow_add_r by lia.
          apply Z.mul_lt_mono_pos_r; [apply Z.pow_pos_nonneg|]; lia. }
      eapply normal_weaken; [apply binary_round_aux_normal| |]; cbn [Zdigits2]; lia. }
  destruct Hn as (m & e & Hx & Hm & He).
  eexists. rewrite Hx. cbn [is_finite]. split; [reflexivity|].
  exists m, e. split; [done|]. split; [done|lia].
Qed.

Lemma int_truediv_normal (a b : Z) :
  0 < a -> 0 < b -> -1021 <= Zdigits2 a - Zdigits2 b -> Zdigits2 a - Zdigits2 b <= 1022 ->
  exists x, int_truediv a b = Ok x /\
            normal false (Zdigits2 a - Zdigits2 b) (Zdigits2 a - Zdigits2 b + 2) x.
Proof.
  intros Ha Hb Hlo Hhi. unfold int_truediv.
  destruct (Z.eqb_spec b 0); [lia|].
  destruct a as [|pa|pa], b as [|pb|pb]; try lia. cbn [exact Zdigits2] in *.
  pose proof (SFdiv_normal false pa 0 false pb 0) as Hn. unfold mag in Hn.
  rewrite !Z.add_0_r in Hn. specialize (Hn Hlo Hhi).
  destruct Hn as (m & e & Hx & Hm & He).
  eexists. rewrite Hx. cbn [is_finite]. split; [reflexivity|].
  exists m, e. split; [done|]. split; [done|lia].
Qed.

Lemma to_int_normal (lo hi : Z) (x : float) :
  normal false lo hi x -> exists n, to_int x = Ok n /\ 0 <= n.
Proof.
  intros (m & e & -> & _ & _). cbn [to_int]. eexists. split; [reflexivity|].
  destruct e as [|p|p].
  - rewrite Z.shiftl_0_r. lia.
  - apply Z.shiftl_nonneg. lia.
  - apply Z.shiftr_nonneg. lia.
Qed.

End FloatFacts.


(** ** [resize_image]: the output size *)

Lemma valid_dim_digits (z : Z) : valid_dim z -> 1 <= Zdigits2 z <= 31.
Proof.
  intros [Hlo Hhi]. split.
  - apply FloatFacts.Zdigits2_ge; [done|]. cbn. lia.
  - apply FloatFacts.Zdigits2_le; [done|lia|done].
Qed.

(** The crop geometry never raises on valid sizes and is never negative. *)
Lemma resize_plan_ok (iw ih : Z) (dw0 dh0 : pyval) (dw dh : Z) (settings : list string) :
  valid_dim iw -> valid_dim ih ->
  py_int dw0 = Ok dw -> py_int dh0 = Ok dh -> valid_dim dw -> valid_dim dh ->
  exists p, resize_plan (iw, ih) (dw0, dh0) settings = Ok (p, (dw, dh)) /\
            0 <= new_width p /\ 0 <= new_height p.
Proof.
  intros Hiw Hih Edw Edh Hdw Hdh. unfold resize_plan. rewrite Edw, Edh. cbn [rbind].
  pose proof (valid_dim_digits _ Hiw). pose proof (valid_dim_digits _ Hih).
  pose proof (valid_dim_digits _ Hdw). pose proof (valid_dim_digits _ Hdh).
  destruct (FloatFacts.int_truediv_normal iw ih) as (ir & -> & Hir);
    [unfold valid_dim in *; lia..|].
  destruct (FloatFacts.int_truediv_normal dw dh) as (dr & -> & Hdr);
    [unfold valid_dim in *; lia..|].
  cbn [rbind]. destruct Hdr as (m2 & e2 & -> & Hm2 & He2).
  destruct (PyFloat.gt ir (S754_finite false m2 e2)).
  - destruct (FloatFacts.of_int_normal ih) as (fh & -> & (m1 & e1 & -> & Hm1 & He1));
      [unfold valid_dim in *; lia..|].
    cbn [rbind]. unfold PyFloat.mul.
    pose proof (FloatFacts.SFmul_normal false m1 e1 false m2 e2) as Hn.
    unfold PyFloat.mag in Hn. cbn [xorb] in Hn.
    destruct (FloatFacts.to_int_normal _ _ _ (Hn ltac:(lia) ltac:(lia) ltac:(lia)))
      as (n & -> & Hn0).
    cbn [rbind]. eexists. split; [reflexivity|]. cbn. unfold valid_dim in *. lia.
  - destruct (FloatFacts.of_int_normal iw) as (fw & -> & (m1 & e1 & -> & Hm1 & He1));
      [unfold valid_dim in *; lia..|].
    cbn [rbind]. unfold PyFloat.truediv. cbn [PyFloat.is_zero rbind].
    pose proof (FloatFacts.SFdiv_normal false m1 e1 false m2 e2) as Hn.
    unfold PyFloat.mag in Hn. cbn [xorb] in Hn.
    destruct (FloatFacts.to_int_normal _ _ _ (Hn ltac:(lia) ltac:(lia)))
      as (n & -> & Hn0).
    cbn [rbind]. eexists. split; [reflexivity|]. cbn. unfold valid_dim in *. lia.
Qed.

(** C2.  For a bitmap and a target whose sides, once coerced to integers,
    are positive and fit the image library's sizes, [resize_image] returns
    (no division, conversion, crop or resize raises) and the bitmap it
    returns has exactly the requested width and height, whatever the source
    ratio and the settings. *)
Theorem resize_image_exact_size (P : Pillow) (image : Bitmap) (dw0 dh0 : pyval)
    (dw dh : Z) (settings : list string) :
  valid_dim (width image) -> valid_dim (height image) ->
  py_int dw0 = Ok dw -> py_int dh0 = Ok dh -> valid_dim dw -> valid_dim dh ->
  exists out, resize_image P image (dw0, dh0) settings = Ok out /\ size out = (dw, dh).
Proof.
  intros Hiw Hih Edw Edh Hdw Hdh. unfold resize_image.
  destruct image as [[iw ih] px]. unfold width, height in *. cbn [size fst snd] in *.
  destruct (resize_plan_ok iw ih dw0 dh0 dw dh settings) as (p & -> & Hnw & Hnh); try done.
  cbn [rbind]. unfold crop. cbn [size pixels].
  destruct (Z.ltb_spec (x_offset p + new_width p) (x_offset p)); [lia|].
  destruct (Z.ltb_spec (y_offset p + new_height p) (y_offset p)); [lia|].
  cbn [rbind]. unfold resize. cbn [fst snd size].
  destruct (Z.ltb_spec dw 1); [unfold valid_dim in *; lia|].
  destruct (Z.ltb_spec dh 1); [unfold valid_dim in *; lia|].
  cbn [orb]. case_bool_decide as Hs.
  - eexists. split; [reflexivity|]. exact Hs.
  - eexists. split; [reflexivity|]. reflexivity.
Qed.

(** ** [resize_image]: the [keep-width] flag *)


(** C1, as amended.  With the flag [keep-width] in the settings the crop
    is anchored at the top-left corner in both branches: [x_offset] is 0
    when the source is wider than the target ratio and [y_offset] is 0 when
    it is not; the branch taken crops the width, respectively the height. *)
Theorem resize_image_keep_width (iw ih : Z) (desired_size : pyval * pyval)
    (image_settings : list string) (p : crop_plan) (target : Z * Z) :
  keep_width_flag ∈ image_settings ->
  resize_plan (iw, ih) desired_size image_settings = Ok (p, target) ->
  exists wider,
    source_is_wider (iw, ih) target = Ok wider /\
    x_offset p = 0 /\ y_offset p = 0 /\
    (if wider then new_height p = ih else new_width p = iw).
Proof.
  intros Hkeep Hplan. unfold resize_plan in Hplan.
  destruct desired_size as [dw0 dh0]. cbv beta iota zeta in Hplan.
  step_result Hplan dw Edw. step_result Hplan dh Edh.
  step_result Hplan img_ratio Ei. step_result Hplan desired_ratio Ed.
  rewrite bool_decide_eq_true_2 in Hplan by done. cbn [negb] in Hplan.
  unfold source_is_wider. cbn [fst snd].
  destruct (PyFloat.gt img_ratio desired_ratio) eqn:Hgt.
  - step_result Hplan fh Efh. step_result Hplan nw Enw. injection Hplan as <- <-.
    cbn [fst snd]. rewrite Ei, Ed. cbn [rbind]. rewrite Hgt.
    exists true. cbn. done.
  - step_result Hplan fw Efw. step_result Hplan q Equo. step_result Hplan nh Enh.
    injection Hplan as <- <-.
    cbn [fst snd]. rewrite Ei, Ed. cbn [rbind]. rewrite Hgt.
    exists false. cbn. done.
Qed.

Lemma resize_image_keep_width_witness :
  exists wider,
    source_is_wider (100, 200) (100, 100) = Ok wider /\
    x_offset (mk_plan 0 0 100 100) = 0 /\ y_offset (mk_plan 0 0 100 100) = 0 /\
    (if wider then new_height (mk_plan 0 0 100 100) = 200
     else new_width (mk_plan 0 0 100 100) = 100).
Proof.
  apply (resize_image_keep_width 100 200 (VInt 100, VInt 100) [keep_width_flag]).
  - apply list_elem_of_In. simpl. auto.
  - vm_compute. reflexivity.
Defined.

(** C1, as stated, fails: a 100 by 200 source cropped for a square target
    with [keep-width] set is not wider than the target, and its crop starts
    at row 0, not at the centred row [(200 - 100) // 2 = 50]. *)
Lemma keep_width_taller_not_centred :
  exists p,
    keep_width_flag ∈ [keep_width_flag] /\
    resize_plan (100, 200) (VInt 100, VInt 100) [keep_width_flag] = Ok (p, (100, 100)) /\
    source_is_wider (100, 200) (100, 100) = Ok false /\
    y_offset p <> (200 - new_height p) `div` 2.
Proof.
  exists (mk_plan 0 0 100 100). split; [apply list_elem_of_In; simpl; auto|].
  split; [vm_compute; reflexivity|]. split; [vm_compute; reflexivity|].
  vm_compute. discriminate.
Qed.

(** ** [compute_image_hash] *)

Section RowMajor.
Context {A : Type} (zero : A).

Lemma map_nth_seq_take (d : list A) (k : nat) :
  (k <= length d)%nat -> map (fun x => nth x d zero) (seq 0 k) = take k d.
Proof.
  revert k. induction d as [|a d IH]; intros [|k] Hk; cbn in Hk; try lia; try reflexivity.
  cbn [seq map nth take]. f_equal.
  rewrite <- seq_shift, map_map. cbn [nth]. apply IH. lia.
Qed.

Lemma nth_drop (d : list A) (n k : nat) : nth (n + k) d zero = nth k (drop n d) zero.
Proof.
  revert d. induction n as [|n IH]; intros [|a d]; cbn; try reflexivity.
  - destruct k; reflexivity.
  - apply IH.
Qed.

(** Reading a buffer of [h] rows of [w] pixels row by row gives it back. *)
Lemma rows_nth (w : nat) (h : nat) (d : list A) :
  length d = (h * w)%nat ->
  flat_map (fun y => map (fun x => nth (y * w + x) d zero) (seq 0 w)) (seq 0 h) = d.
Proof.
  revert d. induction h as [|h IH]; intros d Hd.
  - destruct d; [reflexivity|discriminate].
  - cbn [seq flat_map]. rewrite <- seq_shift, flat_map_concat_map, map_map,
      <- flat_map_concat_map.
    cbn [Nat.mul Nat.add]. rewrite map_nth_seq_take by lia.
    transitivity (take w d ++ drop w d); [|apply take_drop]. f_equal.
    etransitivity; [|apply (IH (drop w d)); rewrite length_drop; lia].
    apply flat_map_ext. intros y. apply map_ext. intros x.
    rewrite <- nth_drop. f_equal. lia.
Qed.

Lemma tabulate_nth (w h : Z) (d : list A) :
  0 <= w -> 0 <= h -> Z.of_nat (length d) = w * h ->
  tabulate w h (fun x y => nth (Z.to_nat (y * w + x)) d zero) = d.
Proof.
  intros Hw Hh Hd. unfold tabulate, seqZ.
  rewrite flat_map_concat_map, map_map, <- flat_map_concat_map.
  etransitivity; [|apply (rows_nth (Z.to_nat w) (Z.to_nat h) d); nia].
  apply flat_map_ext. intros y. rewrite map_map. apply map_ext. intros x.
  f_equal. nia.
Qed.

Lemma flat_map_tabulate {B} (enc : A -> list B) (w h : Z) (f : Z -> Z -> A) :
  flat_map enc (tabulate w h f)
  = flat_map (fun y => flat_map (fun x => enc (f x y)) (seqZ 0 w)) (seqZ 0 h).
Proof.
  unfold tabulate. induction (seqZ 0 h) as [|y ys IH]; [reflexivity|].
  cbn [flat_map]. rewrite flat_map_app, IH. f_equal. clear IH.
  induction (seqZ 0 w) as [|x xs IHx]; [reflexivity|].
  cbn [map flat_map]. by rewrite IHx.
Qed.
End RowMajor.

(** The code's bytes are the specification's row-major RGB bytes. *)
Lemma tobytes_convert_rgb (im : Bitmap) :
  well_formed im -> tobytes (convert_rgb im) = spec_row_major_bytes im.
Proof.
  intros (Hw & Hh & Hlen).
  transitivity (flat_map rgb_bytes
                  (tabulate (width im) (height im) (spec_rgb_at im))).
  2: { rewrite flat_map_tabulate. unfold spec_row_major_bytes.
       apply flat_map_ext. intros y. apply flat_map_ext. intros x.
       unfold rgb_bytes. reflexivity. }
  unfold tobytes, convert_rgb, spec_rgb_at, pixel_count in *. cbn [pixels].
  destruct (pixels im) as [d|d|d].
  - rewrite <- (tabulate_nth (zero_byte, zero_byte, zero_byte) (width im) (height im)
                  (map (fun l => (l, l, l)) d))
      by (rewrite ?length_map; done).
    f_equal. unfold tabulate. apply flat_map_ext. intros y. apply map_ext. intros x.
    apply (map_nth (fun l => (l, l, l))).
  - rewrite (tabulate_nth (zero_byte, zero_byte, zero_byte) (width im) (height im) d)
      by done.
    reflexivity.
  - rewrite <- (tabulate_nth (zero_byte, zero_byte, zero_byte) (width im) (height im)
                  (map (fun '(r, g, b, _) => (r, g, b)) d))
      by (rewrite ?length_map; done).
    f_equal. unfold tabulate. apply flat_map_ext. intros y. apply map_ext. intros x.
    apply (map_nth (fun '(r, g, b, _) => (r, g, b)) d
             (zero_byte, zero_byte, zero_byte, zero_byte)).
Qed.

(** C7.  On a bitmap the hash is the hexadecimal SHA-256 digest of the
    row-major bytes of its pixels seen as three-channel RGB; so two bitmaps
    with the same RGB pixel content, whatever their modes, have the same
    hash. *)
Theorem compute_image_hash_digest (a b : Bitmap) :
  well_formed a -> well_formed b ->
  compute_image_hash (Some a) = Ok (spec_image_hash a) /\
  (spec_row_major_bytes a = spec_row_major_bytes b ->
   compute_image_hash (Some a) = compute_image_hash (Some b)).
Proof.
  intros Ha Hb. unfold compute_image_hash, spec_image_hash.
  rewrite !tobytes_convert_rgb by done. split; [reflexivity|].
  intros ->. reflexivity.
Qed.

(** C8.  The hash raises its [ValueError] exactly on an absent image; on a
    bitmap it goes on to the digest. *)
Theorem compute_image_hash_raises_iff_absent (image : option Bitmap) :
  (compute_image_hash image
   = Raise (mk_exc ValueError "Cannot compute hash of an empty image")
   <-> image = None) /\
  ((exists e, compute_image_hash image = Raise e) <-> image = None) /\
  (forall im, image = Some im ->
     compute_image_hash image = Ok (SHA256.hexdigest (tobytes (convert_rgb im)))).
Proof.
  destruct image as [im|]; cbn [compute_image_hash].
  - split; [split; discriminate|]. split; [|intros ? [= ->]; reflexivity].
    split; [intros [e He]; discriminate|discriminate].
  - split; [split; reflexivity|]. split; [|discriminate].
    split; [reflexivity|]. intros _. eexists. reflexivity.
Qed.

(** ** [change_orientation] *)

Lemma orientation_angle_unrecognised (orientation : string) (inverted : bool) :
  orientation <> "horizontal" -> orientation <> "vertical" ->
  orientation_angle orientation inverted = Raise unbound_angle.
Proof.
  intros Hh Hv. unfold orientation_angle.
  destruct (String.eqb_spec orientation "horizontal"); [done|].
  destruct (String.eqb_spec orientation "vertical"); [done|].
  destruct inverted; reflexivity.
Qed.

(** C9.  The angle handed to the rotation is 0 for ['horizontal'] and 90
    for ['vertical'], plus 180 modulo 360 when [inverted] is set; any other
    orientation fails on the unbound local variable [angle]. *)
Theorem change_orientation_angle (P : Pillow) (image : Bitmap) :
  (orientation_angle "horizontal" false = Ok 0 /\
   orientation_angle "vertical" false = Ok 90 /\
   orientation_angle "horizontal" true = Ok 180 /\
   orientation_angle "vertical" true = Ok 270) /\
  (forall orientation inverted angle,
     orientation_angle orientation inverted = Ok angle ->
     change_orientation P image orientation inverted = Ok (rotate P image angle)) /\
  change_orientation P image "horizontal" false = Ok image /\
  (forall orientation inverted,
     orientation <> "horizontal" -> orientation <> "vertical" ->
     change_orientation P image orientation inverted = Raise unbound_angle /\
     kind unbound_angle = UnboundLocalError).
Proof.
  split; [repeat split|]. split; [|split].
  - intros orientation inverted angle Hangle. unfold change_orientation.
    rewrite Hangle. reflexivity.
  - reflexivity.
  - intros orientation inverted Hh Hv. unfold change_orientation.
    rewrite orientation_angle_unrecognised by done. split; reflexivity.
Qed.

(** ** [get_image] *)

Lemma http_success_test (status : Z) :
  ((200 <=? status) && (status <? 300)) || (status =? 304) = true <-> http_success status.
Proof. unfold http_success. lia. Qed.

(** C6.  A network failure propagates; a status in [200, 300) or 304 has
    the body decoded, the bitmap returned when the decoder accepts it; any
    other status logs one error line and returns [None] without raising.
    So a bitmap comes back only under a successful status. *)
Theorem get_image_contract (H : Host) (P : Pillow) (image_url : string) (w : World) :
  (forall e, http_get H image_url = Raise e ->
     get_image H P image_url w = (Raise e, w)) /\
  (forall r, http_get H image_url = Ok r -> http_success (status_code r) ->
     get_image H P image_url w
     = (match decode P (content r) with
        | Ok img => Ok (Some img)
        | Raise e => Raise e
        end, w)) /\
  (forall r, http_get H image_url = Ok r -> ~ http_success (status_code r) ->
     get_image H P image_url w
     = (Ok None,
        mk_world (files w)
          (log w ++ ["Received non-200 response from " +:+ image_url
                       +:+ ": status_code: " +:+ pretty (status_code r)])
          (spawned w))) /\
  (forall img w', get_image H P image_url w = (Ok (Some img), w') ->
     exists r, http_get H image_url = Ok r /\ http_success (status_code r) /\
               decode P (content r) = Ok img).
Proof.
  unfold get_image, bind, lift, ret, logger_error.
  destruct (http_get H image_url) as [r|e].
  - destruct (((200 <=? status_code r) && (status_code r <? 300))
              || (status_code r =? 304)) eqn:Hs.
    + apply http_success_test in Hs.
      split; [discriminate|]. split; [|split].
      * intros ? [= <-] _. destruct (decode P (content r)); reflexivity.
      * intros ? [= <-] Hn. done.
      * intros img w' Hg. exists r. split; [done|]. split; [done|].
        destruct (decode P (content r)); [|discriminate]. by injection Hg as -> _.
    + assert (~ http_success (status_code r)) as Hn.
      { intros Hc. apply http_success_test in Hc. congruence. }
      split; [discriminate|]. split; [|split].
      * intros ? [= <-] Hc. done.
      * intros ? [= <-] _. reflexivity.
      * intros img w' [=].
  - split; [intros ? [= <-]; reflexivity|].
    split; [discriminate|]. split; [discriminate|]. intros img w' [=].
Qed.

(** ** Temporary files are new files *)

Lemma string_length_app (s1 s2 : string) :
  String.length (s1 +:+ s2) = (String.length s1 + String.length s2)%nat.
Proof.
  induction s1 as [|c s1 IH]; [reflexivity|].
  change (String c s1 +:+ s2) with (String c (s1 +:+ s2)).
  cbn [String.length]. by rewrite IH.
Qed.

Lemma string_app_inv_tail (s1 s2 t : string) : s1 +:+ t = s2 +:+ t -> s1 = s2.
Proof.
  revert s2. induction s1 as [|c s1 IH]; intros [|c' s2] Heq.
  - reflexivity.
  - apply (f_equal String.length) in Heq.
    rewrite !string_length_app in Heq. cbn in Heq. lia.
  - apply (f_equal String.length) in Heq.
    rewrite !string_length_app in Heq. cbn in Heq. lia.
  - change (String c (s1 +:+ t) = String c' (s2 +:+ t)) in Heq.
    injection Heq as -> Heq. f_equal. by apply IH.
Qed.

Lemma tmp_name_inj (suffix : string) (n m : nat) :
  tmp_name n suffix = tmp_name m suffix -> n = m.
Proof.
  unfold tmp_name. intros Heq. apply (inj (String.append "/tmp/tmp")) in Heq.
  apply string_app_inv_tail in Heq. by apply (inj pretty).
Qed.

Lemma first_free_spec (fs : gmap string bytes) (suffix : string) (fuel : nat) :
  forall n : nat,
    (forall i : nat, (i < n)%nat -> is_Some (fs !! tmp_name i suffix)) ->
    (fuel + n)%nat = base.size fs ->
    fs !! first_free fs suffix fuel n = None.
Proof.
  induction fuel as [|fuel IH]; intros n Hbelow Hsize; cbn [first_free].
  - destruct (fs !! tmp_name n suffix) as [data|] eqn:Hn; [exfalso|done].
    set (names := (fun i => tmp_name i suffix) <$> seq 0 (S n)).
    assert (Hdup : NoDup names).
    { apply NoDup_fmap_2; [|apply NoDup_seq].
      intros i j. apply tmp_name_inj. }
    assert (Hsub : list_to_set names ⊆ dom fs).
    { intros name Hin. apply elem_of_list_to_set, list_elem_of_fmap in Hin.
      destruct Hin as (i & -> & Hi). apply elem_of_seq in Hi. apply elem_of_dom.
      destruct (decide (i = n)) as [->|]; [by eexists|]. apply Hbelow. lia. }
    apply subseteq_size in Hsub.
    rewrite size_list_to_set, size_dom in Hsub by done.
    unfold names in Hsub. rewrite length_fmap, length_seq in Hsub. cbn in Hsize. lia.
  - case_bool_decide as Hn.
    + apply IH; [|lia]. intros i Hi.
      destruct (decide (i = n)) as [->|]; [done|]. apply Hbelow. lia.
    + by apply eq_None_not_Some.
Qed.

(** The name chosen for a temporary file is not in use. *)
Lemma output_path_fresh (suffix : string) (w : World) :
  files w !! output_path suffix w = None.
Proof.
  unfold output_path. apply first_free_spec; [|lia]. intros i Hi. lia.
Qed.

Lemma first_free_is_tmp_name (fs : gmap string bytes) (suffix : string) (fuel n : nat) :
  exists k, first_free fs suffix fuel n = tmp_name k suffix.
Proof.
  revert n. induction fuel as [|fuel IH]; intros n; cbn [first_free]; [by eexists|].
  destruct (bool_decide _); [apply IH|by eexists].
Qed.

Lemma output_path_nonempty (suffix : string) (w : World) :
  String.eqb (output_path suffix w) "" = false.
Proof.
  unfold output_path.
  destruct (first_free_is_tmp_name (files w) suffix (base.size (files w)) 0) as [k ->].
  reflexivity.
Qed.
(** ** The candidate loop of [take_screenshot] *)

Lemma run_exits H command timeout w returncode stderr :
  exit_of (run_process H command timeout) = Some (returncode, stderr) ->
  subprocess_run H command timeout w
  = (Ok (returncode, stderr), after_run H command timeout w).
Proof.
  unfold after_run, subprocess_run.
  destruct (run_process H command timeout); cbn [exit_of snd]; intros [=]; by subst.
Qed.

Lemma run_raises H command timeout w e :
  run_process H command timeout = Raises e ->
  subprocess_run H command timeout w = (Raise e, after_run H command timeout w).
Proof. unfold after_run, subprocess_run. by intros ->. Qed.

Lemma exit_of_Exits H command timeout returncode stderr touched :
  run_process H command timeout = Exits returncode stderr touched ->
  exit_of (run_process H command timeout) = Some (returncode, stderr).
Proof. by intros ->. Qed.

Section LoopFacts.
Variable H : Host.
Variables (normalized_target img_file_path : string) (dimensions : Z * Z).
Variable timeout_seconds : option PyFloat.float.

Local Abbreviation loop :=
  (try_executables H normalized_target img_file_path dimensions timeout_seconds).
Local Abbreviation command executable :=
  (_build_chromium_command H executable normalized_target img_file_path dimensions).

Lemma loop_absent executable rest errors w :
  which H executable = false ->
  loop (executable :: rest) errors w = loop rest errors w.
Proof. intros Hw. cbn [try_executables]. rewrite Hw. reflexivity. Qed.

Lemma loop_raises executable rest errors w e :
  which H executable = true ->
  run_process H (command executable) (timeout_kwarg timeout_seconds) = Raises e ->
  loop (executable :: rest) errors w
  = loop rest (errors ++ [launch_message H timeout_seconds executable e])
      (logged (launch_message H timeout_seconds executable e)
         (after_run H (command executable) (timeout_kwarg timeout_seconds) w)).
Proof.
  intros Hw Hr. cbn [try_executables].
  rewrite Hw. cbn [negb]. unfold bind at 1. unfold attempt.
  rewrite (run_raises _ _ _ _ e) by done.
  unfold record_error, bind, logger_error, ret, launch_message. reflexivity.
Qed.

Lemma loop_rendered executable rest errors w stderr :
  which H executable = true ->
  exit_of (run_process H (command executable) (timeout_kwarg timeout_seconds))
    = Some (0, stderr) ->
  is_Some (files (after_run H (command executable) (timeout_kwarg timeout_seconds) w)
             !! img_file_path) ->
  loop (executable :: rest) errors w
  = (Ok (errors, true),
     after_run H (command executable) (timeout_kwarg timeout_seconds) w).
Proof.
  intros Hw Hr Hp. cbn [try_executables].
  rewrite Hw. cbn [negb]. unfold bind at 1. unfold attempt.
  rewrite (run_exits _ _ _ _ 0 stderr) by done.
  unfold bind, os_path_exists.
  rewrite bool_decide_eq_true_2 by done. reflexivity.
Qed.

Lemma loop_sigill executable rest errors w stderr :
  which H executable = true ->
  exit_of (run_process H (command executable) (timeout_kwarg timeout_seconds))
    = Some (132, stderr) ->
  loop (executable :: rest) errors w
  = loop rest errors
      (after_run H (command executable) (timeout_kwarg timeout_seconds) w).
Proof.
  intros Hw Hr. cbn [try_executables].
  rewrite Hw. cbn [negb]. unfold bind at 1. unfold attempt.
  rewrite (run_exits _ _ _ _ 132 stderr) by done.
  unfold bind at 1. unfold os_path_exists. reflexivity.
Qed.

Lemma loop_failed executable rest errors w returncode stderr :
  which H executable = true ->
  exit_of (run_process H (command executable) (timeout_kwarg timeout_seconds))
    = Some (returncode, stderr) ->
  returncode <> 132 ->
  (returncode <> 0 \/
   files (after_run H (command executable) (timeout_kwarg timeout_seconds) w)
     !! img_file_path = None) ->
  loop (executable :: rest) errors w
  = loop rest (errors ++ [exit_message H executable returncode stderr])
      (logged (exit_message H executable returncode stderr)
         (after_run H (command executable) (timeout_kwarg timeout_seconds) w)).
Proof.
  intros Hw Hr Hn Hf. cbn [try_executables].
  rewrite Hw. cbn [negb]. unfold bind at 1. unfold attempt.
  rewrite (run_exits _ _ _ _ returncode stderr) by done.
  unfold bind at 1. unfold os_path_exists.
  replace ((returncode =? 0) && _) with false.
  2: { symmetry. apply andb_false_iff. destruct Hf as [Hf|Hf].
       - left. lia.
       - right. apply bool_decide_eq_false_2. rewrite Hf. by intros [? ?]. }
  replace (returncode =? 132) with false by lia.
  unfold record_error, bind, logger_error, ret, exit_message. reflexivity.
Qed.
End LoopFacts.

Lemma after_run_log H command timeout w : log (after_run H command timeout w) = log w.
Proof.
  unfold after_run, subprocess_run. by destruct (run_process H command timeout).
Qed.

Lemma after_run_spawned H command timeout w :
  spawned (after_run H command timeout w) = spawned w ++ [(command, timeout)].
Proof.
  unfold after_run, subprocess_run. by destruct (run_process H command timeout).
Qed.

(** The four ways a candidate on the PATH leaves the loop body. *)
Lemma loop_step H normalized_target img_file_path dimensions timeout_seconds
    executable rest errors w :
  let cmd :=
    _build_chromium_command H executable normalized_target img_file_path dimensions in
  let kw := timeout_kwarg timeout_seconds in
  let w1 := after_run H cmd kw w in
  let loop :=
    try_executables H normalized_target img_file_path dimensions timeout_seconds in
  which H executable = true ->
  (exists e,
     exit_code_of H (cmd, kw) = None /\
     loop (executable :: rest) errors w
     = loop rest (errors ++ [launch_message H timeout_seconds executable e])
         (logged (launch_message H timeout_seconds executable e) w1)) \/
  (exit_code_of H (cmd, kw) = Some 132 /\
   loop (executable :: rest) errors w = loop rest errors w1) \/
  (exit_code_of H (cmd, kw) = Some 0 /\
   loop (executable :: rest) errors w = (Ok (errors, true), w1)) \/
  (exists returncode stderr,
     exit_code_of H (cmd, kw) = Some returncode /\ returncode <> 132 /\
     loop (executable :: rest) errors w
     = loop rest (errors ++ [exit_message H executable returncode stderr])
         (logged (exit_message H executable returncode stderr) w1)).
Proof.
  intros cmd kw w1 loop Hw. unfold exit_code_of. cbn [fst snd].
  destruct (exit_of (run_process H cmd kw)) as [[returncode stderr]|] eqn:Hx.
  - right. cbn [fmap option_fmap option_map fst].
    destruct (decide (returncode = 132)) as [->|Hn132].
    { left. split; [done|]. by apply (loop_sigill _ _ _ _ _ _ _ _ _ stderr). }
    right.
    destruct (decide (returncode = 0 /\ is_Some (files w1 !! img_file_path)))
      as [[-> Hp]|Hf].
    { left. split; [done|]. by apply (loop_rendered _ _ _ _ _ _ _ _ _ stderr). }
    right. exists returncode, stderr. split; [done|]. split; [done|].
    apply loop_failed; [done..|].
    destruct (decide (returncode = 0)) as [->|]; [|by left].
    right. destruct (files _ !! img_file_path) eqn:E; [|done].
    exfalso. apply Hf. split; [done|]. by eexists.
  - left. destruct (run_process H cmd kw) as [e| |] eqn:Hr; try discriminate Hx.
    exists e. split; [done|]. by apply loop_raises.
Qed.

(** The loop never raises; what it appends to [errors] is what it logs;
    every command it spawns carries the [timeout] keyword of line 177; it
    records nothing unless it spawned something; and when it ends without
    a render, it has recorded nothing exactly when every process it ran
    exited with code 132. *)
Lemma try_executables_spec H normalized_target img_file_path dimensions timeout_seconds
    (candidates : list string) :
  forall errors w,
  exists new taken calls w',
    try_executables H normalized_target img_file_path dimensions timeout_seconds
      candidates errors w = (Ok (errors ++ new, taken), w') /\
    log w' = log w ++ new /\
    spawned w' = spawned w ++ calls /\
    Forall (fun c => snd c = timeout_kwarg timeout_seconds) calls /\
    (calls = [] -> new = []) /\
    (taken = false ->
     (new = [] <-> Forall (fun c => exit_code_of H c = Some 132) calls)).
Proof.
  induction candidates as [|executable rest IH]; intros errors w.
  - exists [], false, [], w. cbn [try_executables]. unfold ret.
    rewrite !app_nil_r. done.
  - set (cmd := _build_chromium_command H executable normalized_target img_file_path
                  dimensions).
    set (kw := timeout_kwarg timeout_seconds).
    set (w1 := after_run H cmd kw w).
    assert (Hl1 : log w1 = log w) by apply after_run_log.
    assert (Hs1 : spawned w1 = spawned w ++ [(cmd, kw)]) by apply after_run_spawned.
    destruct (which H executable) eqn:Hw.
    2: { rewrite loop_absent by done. apply IH. }
    destruct (loop_step H normalized_target img_file_path dimensions timeout_seconds
                executable rest errors w Hw)
      as [(e & Hx & ->)|[(Hx & ->)|[(Hx & ->)|(returncode & stderr & Hx & Hn & ->)]]];
      fold cmd kw w1 in Hx |- *.
    + destruct (IH (errors ++ [launch_message H timeout_seconds executable e])
                  (logged (launch_message H timeout_seconds executable e) w1))
        as (new & taken & calls & w' & -> & Hl & Hs & Hc & _ & _).
      exists (launch_message H timeout_seconds executable e :: new), taken,
        ((cmd, kw) :: calls), w'.
      cbn [logged log spawned] in Hl, Hs. rewrite Hl, Hs, Hl1, Hs1, <- !app_assoc.
      split; [done|]. split; [done|]. split; [done|].
      split; [by constructor|]. split; [done|].
      intros _. split; [done|]. intros Hall. apply Forall_cons in Hall as [Hc0 _].
      rewrite Hx in Hc0. discriminate.
    + destruct (IH errors w1) as (new & taken & calls & w' & -> & Hl & Hs & Hc & _ & Hiff).
      exists new, taken, ((cmd, kw) :: calls), w'.
      rewrite Hl, Hs, Hl1, Hs1, <- !app_assoc.
      split; [done|]. split; [done|]. split; [done|].
      split; [by constructor|]. split; [done|].
      intros Ht. rewrite (Hiff Ht), Forall_cons.
      split; [intros Hall; by split|by intros [_ Hall]].
    + exists [], true, [(cmd, kw)], w1. rewrite !app_nil_r.
      split; [done|]. split; [done|]. split; [done|].
      split; [by constructor|]. done.
    + destruct (IH (errors ++ [exit_message H executable returncode stderr])
                  (logged (exit_message H executable returncode stderr) w1))
        as (new & taken & calls & w' & -> & Hl & Hs & Hc & _ & _).
      exists (exit_message H executable returncode stderr :: new), taken,
        ((cmd, kw) :: calls), w'.
      cbn [logged log spawned] in Hl, Hs. rewrite Hl, Hs, Hl1, Hs1, <- !app_assoc.
      split; [done|]. split; [done|]. split; [done|].
      split; [by constructor|]. split; [done|].
      intros _. split; [done|]. intros Hall. apply Forall_cons in Hall as [Hc0 _].
      rewrite Hx in Hc0. congruence.
Qed.

(** ** [take_screenshot] *)

Lemma normalize_target_ok (H : Host) (target : string) (w : World) :
  exists normalized_target, _normalize_target H target w = (Ok normalized_target, w).
Proof.
  unfold _normalize_target. destruct (startswith target _); [by eexists|].
  unfold bind, os_path_exists. destruct (bool_decide _); by eexists.
Qed.

Lemma log_each_spec (errors : list string) (w : World) :
  log_each errors w = (Ok tt, mk_world (files w) (log w ++ errors) (spawned w)).
Proof.
  revert w. induction errors as [|err rest IH]; intros [fs lg sp]; cbn [log_each].
  - unfold ret. cbn. by rewrite app_nil_r.
  - unfold bind, logger_error. rewrite IH. cbn. by rewrite <- app_assoc.
Qed.

Lemma report_failure_spec (errors : list string) (w : World) :
  report_failure errors w
  = (Ok tt, mk_world (files w) (log w ++ failure_report errors) (spawned w)).
Proof.
  destruct errors as [|err rest]; [reflexivity|].
  cbn [report_failure failure_report]. unfold bind, logger_error.
  rewrite log_each_spec. cbn. by rewrite <- app_assoc.
Qed.

(** The [finally] clause of lines 220 to 222. *)
Lemma remove_output_finish (H : Host) (born : nat) (img_file_path : string) (w : World) :
  String.eqb img_file_path "" = false ->
  remove_output H born img_file_path w
  = finish H (drop born (spawned w)) img_file_path (Ok tt) w.
Proof.
  intros Hne. unfold remove_output, bind, os_path_exists, os_remove, ret, finish.
  rewrite Hne. cbn [negb andb].
  destruct (files w !! img_file_path) as [data|] eqn:E.
  - rewrite bool_decide_eq_true_2 by by eexists. rewrite E.
    by destruct (held_by H (drop born (spawned w)) img_file_path).
  - rewrite bool_decide_eq_false_2 by by intros [? ?].
    unfold without_file, set_files. rewrite delete_id by done. by destruct w.
Qed.

Lemma finish_log_spawned {A} (H : Host) calls (path : string) (r : result A) (w : World) :
  log (snd (finish H calls path r w)) = log w /\
  spawned (snd (finish H calls path r w)) = spawned w.
Proof.
  unfold finish. by destruct (files w !! path), (held_by H calls path).
Qed.

(** What [finish] returns: the value of the block, unless the file is
    still there and held. *)
Lemma finish_result {A} (H : Host) calls (path : string) (r : result A) (w : World) :
  (held_by H calls path = None -> fst (finish H calls path r w) = r) /\
  (fst (finish H calls path r w) = r \/
   exists e, fst (finish H calls path r w) = Raise e /\
             held_by H calls path = Some e /\
             is_Some (files (snd (finish H calls path r w)) !! path)).
Proof.
  unfold finish. destruct (files w !! path) as [data|] eqn:E;
    destruct (held_by H calls path) as [e|]; cbn [fst snd]; split; auto; try done.
  right. exists e. rewrite E. split; [done|]. split; [done|]. by eexists.
Qed.

(** The temporary file of line 162 and the world once it exists. *)
Lemma named_temporary_file_eq (suffix : string) (w : World) :
  named_temporary_file suffix w
  = (Ok (output_path suffix w), with_output suffix w).
Proof. reflexivity. Qed.

(** [take_screenshot] in terms of its [try] block: the block's value, or
    [None] and one more log line when the block raised; then the
    [finally] clause. *)
Lemma take_screenshot_finish H P target dimensions timeout_ms w :
  take_screenshot H P target dimensions timeout_ms w
  = match render H P target dimensions timeout_ms (output_path ".png" w)
            (with_output ".png" w) with
    | (Ok image, w3) =>
        finish H (drop (length (spawned w)) (spawned w3)) (output_path ".png" w)
          (Ok image) w3
    | (Raise e, w3) =>
        finish H (drop (length (spawned w)) (spawned w3)) (output_path ".png" w)
          (Ok None) (logged ("Failed to take screenshot: " +:+ text e) w3)
    end.
Proof.
  unfold take_screenshot. unfold bind at 1. unfold attempt.
  rewrite named_temporary_file_eq. unfold bind at 1. unfold processes_run.
  cbn [with_output set_files spawned]. unfold try_finally, try_except.
  fold (with_output ".png" w).
  destruct (render H P target dimensions timeout_ms (output_path ".png" w)
              (with_output ".png" w)) as [[image|e] w3].
  - rewrite remove_output_finish by apply output_path_nonempty.
    unfold finish.
    destruct (files w3 !! output_path ".png" w);
      by destruct (held_by H (drop (length (spawned w)) (spawned w3))
                     (output_path ".png" w)).
  - unfold log_failure, bind, logger_error, ret. fold (logged ("Failed to take screenshot: " +:+ text e) w3).
    rewrite remove_output_finish by apply output_path_nonempty.
    unfold finish. cbn [logged files spawned].
    destruct (files w3 !! output_path ".png" w);
      by destruct (held_by H (drop (length (spawned w)) (spawned w3))
                     (output_path ".png" w)).
Qed.

(** Log and process calls of [take_screenshot] are those of its [try]
    block, with one more line when the block raised. *)
Lemma take_screenshot_of_render H P target dimensions timeout_ms w :
  exists r w',
    log w' = match render H P target dimensions timeout_ms (output_path ".png" w)
                     (with_output ".png" w) with
             | (Ok _, w3) => log w3
             | (Raise e, w3) => log w3 ++ ["Failed to take screenshot: " +:+ text e]
             end /\
    spawned w' = spawned (snd (render H P target dimensions timeout_ms
                                 (output_path ".png" w) (with_output ".png" w))) /\
    take_screenshot H P target dimensions timeout_ms w = (r, w').
Proof.
  rewrite take_screenshot_finish.
  destruct (render H P target dimensions timeout_ms (output_path ".png" w)
              (with_output ".png" w)) as [[image|e] w3]; cbn [fst snd].
  - match goal with
    | |- context [finish ?H0 ?c ?p ?r ?w0] =>
        destruct (finish_log_spawned H0 c p r w0) as [Hl Hs];
        destruct (finish H0 c p r w0) as [r' w']
    end.
    exists r', w'. done.
  - match goal with
    | |- context [finish ?H0 ?c ?p ?r ?w0] =>
        destruct (finish_log_spawned H0 c p r w0) as [Hl Hs];
        destruct (finish H0 c p r w0) as [r' w']
    end.
    exists r', w'. done.
Qed.

(** The [try] block when the loop ends without a render. *)
Lemma render_no_render H P target dimensions timeout_ms img_file_path w
    normalized_target timeout_seconds errors w2 :
  _normalize_target H target w = (Ok normalized_target, w) ->
  timeout_seconds_of timeout_ms = Ok timeout_seconds ->
  try_executables H normalized_target img_file_path dimensions timeout_seconds
    _CHROMIUM_EXECUTABLES [] w = (Ok (errors, false), w2) ->
  render H P target dimensions timeout_ms img_file_path w
  = (Ok None, mk_world (files w2) (log w2 ++ failure_report errors) (spawned w2)).
Proof.
  intros Hn Ht Hl. unfold render. unfold bind at 1. rewrite Hn.
  unfold bind at 1. unfold lift. rewrite Ht.
  unfold bind at 1. rewrite Hl. cbn [negb].
  unfold bind, ret. rewrite report_failure_spec. reflexivity.
Qed.

Lemma try_executables_none_on_path H normalized_target img_file_path dimensions
    timeout_seconds (candidates : list string) (errors : list string) (w : World) :
  (forall executable, executable ∈ candidates -> which H executable = false) ->
  try_executables H normalized_target img_file_path dimensions timeout_seconds
    candidates errors w = (Ok (errors, false), w).
Proof.
  induction candidates as [|executable rest IH]; intros Hnone; [reflexivity|].
  cbn [try_executables]. rewrite (Hnone executable) by apply list_elem_of_here.
  cbn [negb]. apply IH. intros e He. apply Hnone. by apply list_elem_of_further.
Qed.

(** C3, as amended.  Once the timeout is converted, the candidate loop
    runs to its end without raising, and what it accumulated in [errors]
    is what it logged.  If it ends without a render, [take_screenshot]
    logs the line [No chromium executable found] when [errors] is empty,
    otherwise a header line followed by every accumulated error, and
    returns [None]; only the [os.remove] of the [finally] clause can still
    raise, when the output file is there and held.  At the end of a loop
    without a render, [errors] is empty exactly when every process that
    was run exited with code 132: in particular when no candidate was run,
    as when none is on the PATH. *)
Theorem take_screenshot_failure_report (H : Host) (P : Pillow) (target : string)
    (dimensions : Z * Z) (timeout_ms : pyval) (timeout_seconds : option PyFloat.float)
    (w : World) :
  timeout_seconds_of timeout_ms = Ok timeout_seconds ->
  exists normalized_target errors taken calls w2,
    _normalize_target H target (with_output ".png" w)
      = (Ok normalized_target, with_output ".png" w) /\
    try_executables H normalized_target (output_path ".png" w) dimensions timeout_seconds
      _CHROMIUM_EXECUTABLES [] (with_output ".png" w) = (Ok (errors, taken), w2) /\
    log w2 = log w ++ errors /\
    spawned w2 = spawned w ++ calls /\
    (calls = [] -> errors = []) /\
    ((forall executable, executable ∈ _CHROMIUM_EXECUTABLES -> which H executable = false) ->
     errors = [] /\ taken = false /\ calls = []) /\
    (taken = false ->
     (errors = [] <-> Forall (fun call => exit_code_of H call = Some 132) calls) /\
     exists r w',
       take_screenshot H P target dimensions timeout_ms w = (r, w') /\
       log w' = log w2 ++
                match errors with
                | [] => ["Failed to take screenshot: No chromium executable found"]
                | _ => "Failed to take screenshot:" :: errors
                end /\
       (held_by H calls (output_path ".png" w) = None -> r = Ok None) /\
       (r = Ok None \/
        exists e, r = Raise e /\
                  held_by H calls (output_path ".png" w) = Some e /\
                  is_Some (files w' !! output_path ".png" w))).
Proof.
  intros Ht.
  destruct (normalize_target_ok H target (with_output ".png" w)) as (nt & Hn).
  destruct (try_executables_spec H nt (output_path ".png" w) dimensions timeout_seconds
              _CHROMIUM_EXECUTABLES [] (with_output ".png" w))
    as (errors & taken & calls & w2 & Hloop & Hl & Hs & _ & Hnil & Hiff).
  cbn [app] in Hloop. cbn [with_output set_files spawned log] in Hs, Hl.
  exists nt, errors, taken, calls, w2.
  split; [done|]. split; [done|]. split; [done|]. split; [done|]. split; [done|].
  split.
  - intros Hnone.
    rewrite (try_executables_none_on_path _ _ _ _ _ _ _ _ Hnone) in Hloop.
    injection Hloop as <- <- <-. split; [done|]. split; [done|].
    cbn [with_output set_files spawned] in Hs.
    apply (app_inv_head (spawned w)). by rewrite app_nil_r.
  - intros ->. split; [by apply Hiff|].
    rewrite take_screenshot_finish.
    rewrite (render_no_render _ _ _ _ _ _ _ nt timeout_seconds errors w2) by done.
    cbn [spawned]. rewrite Hs, drop_app_length.
    match goal with
    | |- context [finish ?H0 ?c ?p ?r0 ?w0] =>
        destruct (finish_log_spawned H0 c p r0 w0) as [Hl' _];
        destruct (finish_result H0 c p r0 w0) as [Hnone Hcase];
        destruct (finish H0 c p r0 w0) as [r w']
    end.
    cbn [fst snd log] in *. exists r, w'. split; [done|].
    split; [rewrite Hl'; by destruct errors|]. done.
Qed.

(** C5.  In the loop, a candidate that is on the PATH and whose process
    exits with a non-zero code leaves the log as it was while it runs.  On
    code 132 nothing is recorded or logged for it: the loop goes on with
    the next candidate, [errors] and log untouched, and ends so when it
    was the last.  On any other code the line made of the executable, the
    exit code and the decoded, stripped standard error is appended to
    [errors] and logged, and the loop goes on.  Whatever the candidates
    that follow, the result of the loop starts with these entries. *)
Theorem try_executables_exit_codes (H : Host) (normalized_target img_file_path : string)
    (dimensions : Z * Z) (timeout_seconds : option PyFloat.float)
    (executable : string) (rest errors : list string) (w : World)
    (returncode : Z) (stderr : bytes) :
  let command :=
    _build_chromium_command H executable normalized_target img_file_path dimensions in
  let w1 := after_run H command (timeout_kwarg timeout_seconds) w in
  let message :=
    executable +:+ " exited with code " +:+ pretty returncode +:+ ": "
      +:+ strip (decode_utf8 H stderr) in
  let recorded := if decide (returncode = 132) then [] else [message] in
  which H executable = true ->
  exit_of (run_process H command (timeout_kwarg timeout_seconds))
    = Some (returncode, stderr) ->
  returncode <> 0 ->
  log w1 = log w /\
  spawned w1 = spawned w ++ [(command, timeout_kwarg timeout_seconds)] /\
  (returncode = 132 ->
   try_executables H normalized_target img_file_path dimensions timeout_seconds
     (executable :: rest) errors w
   = try_executables H normalized_target img_file_path dimensions timeout_seconds
       rest errors w1) /\
  (returncode <> 132 ->
   try_executables H normalized_target img_file_path dimensions timeout_seconds
     (executable :: rest) errors w
   = try_executables H normalized_target img_file_path dimensions timeout_seconds
       rest (errors ++ [message])
       (mk_world (files w1) (log w1 ++ [message]) (spawned w1))) /\
  try_executables H normalized_target img_file_path dimensions timeout_seconds
    [executable] errors w
  = (Ok (errors ++ recorded, false),
     mk_world (files w1) (log w ++ recorded)
       (spawned w ++ [(command, timeout_kwarg timeout_seconds)])) /\
  exists later taken more_calls w',
    try_executables H normalized_target img_file_path dimensions timeout_seconds
      (executable :: rest) errors w
    = (Ok (errors ++ recorded ++ later, taken), w') /\
    log w' = log w ++ recorded ++ later /\
    spawned w' = spawned w ++ (command, timeout_kwarg timeout_seconds) :: more_calls.
Proof.
  intros command w1 message recorded Hw Hr Hnz.
  assert (Hl1 : log w1 = log w) by apply after_run_log.
  assert (Hs1 : spawned w1 = spawned w ++ [(command, timeout_kwarg timeout_seconds)])
    by apply after_run_spawned.
  assert (H132 : returncode = 132 ->
            forall rest',
              try_executables H normalized_target img_file_path dimensions
                timeout_seconds (executable :: rest') errors w
              = try_executables H normalized_target img_file_path dimensions
                  timeout_seconds rest' errors w1).
  { intros -> rest'. by apply (loop_sigill _ _ _ _ _ _ _ _ _ stderr). }
  assert (Hother : returncode <> 132 ->
            forall rest',
              try_executables H normalized_target img_file_path dimensions
                timeout_seconds (executable :: rest') errors w
              = try_executables H normalized_target img_file_path dimensions
                  timeout_seconds rest' (errors ++ [message])
                  (mk_world (files w1) (log w1 ++ [message]) (spawned w1))).
  { intros Hn rest'. apply (loop_failed _ _ _ _ _ _ _ _ _ _ stderr); auto. }
  split; [done|]. split; [done|].
  split; [intros Hc; by apply H132|]. split; [intros Hc; by apply Hother|].
  unfold recorded. destruct (decide (returncode = 132)) as [Hc|Hc].
  - split.
    + rewrite (H132 Hc). cbn [try_executables]. unfold ret.
      rewrite !app_nil_r, <- Hl1, <- Hs1. by destruct w1.
    + rewrite (H132 Hc).
      destruct (try_executables_spec H normalized_target img_file_path dimensions
                  timeout_seconds rest errors w1)
        as (later & taken & more & w' & -> & Hl & Hs & _).
      exists later, taken, more, w'. cbn [app].
      rewrite Hl, Hs, Hl1, Hs1, <- app_assoc. done.
  - split.
    + rewrite (Hother Hc). cbn [try_executables]. unfold ret. by rewrite Hl1, Hs1.
    + rewrite (Hother Hc).
      destruct (try_executables_spec H normalized_target img_file_path dimensions
                  timeout_seconds rest (errors ++ [message])
                  (mk_world (files w1) (log w1 ++ [message]) (spawned w1)))
        as (later & taken & more & w' & -> & Hl & Hs & _).
      exists later, taken, more, w'. cbn [log spawned] in Hl, Hs.
      rewrite Hl, Hs, Hl1, Hs1, <- !app_assoc. done.
Qed.

(** The [try] block spawns exactly what the loop spawns. *)
Lemma render_spawned H P target dimensions timeout_ms img_file_path w :
  exists calls,
    spawned (snd (render H P target dimensions timeout_ms img_file_path w))
      = spawned w ++ calls /\
    forall c, c ∈ calls ->
      exists timeout_seconds,
        timeout_seconds_of timeout_ms = Ok timeout_seconds /\
        snd c = timeout_kwarg timeout_seconds.
Proof.
  unfold render. destruct (normalize_target_ok H target w) as (nt & Hn).
  unfold bind at 1. rewrite Hn. unfold bind at 1. unfold lift.
  destruct (timeout_seconds_of timeout_ms) as [ts|e].
  - destruct (try_executables_spec H nt img_file_path dimensions ts
                _CHROMIUM_EXECUTABLES [] w)
      as (errors & taken & calls & w2 & Hloop & _ & Hs & Hc & _).
    cbn [app] in Hloop. unfold bind at 1. rewrite Hloop.
    exists calls. split.
    + destruct taken; cbn [negb].
      * unfold bind, read_file, lift, ret.
        destruct (files w2 !! img_file_path); [|done].
        by destruct (decode P _).
      * unfold bind, ret. by rewrite report_failure_spec.
    + intros c Hin. exists ts. split; [done|].
      by apply (proj1 (Forall_forall _ _) Hc).
  - exists []. cbn [snd]. rewrite app_nil_r. split; [done|].
    intros c Hin. by apply not_elem_of_nil in Hin.
Qed.

Lemma timeout_seconds_of_falsy (timeout_ms : pyval) :
  py_truthy timeout_ms = false -> timeout_seconds_of timeout_ms = Ok None.
Proof. intros Hf. unfold timeout_seconds_of. by rewrite Hf. Qed.

(** C10.  A falsy [timeout_ms], 0 included, makes [timeout_seconds]
    [None], and [take_screenshot] then does what it does without a timeout
    argument; no command is spawned with a [timeout] keyword.  In general a
    spawned command carries the keyword only when [timeout_ms] is truthy. *)
Theorem falsy_timeout_is_no_timeout (H : Host) (P : Pillow) (target : string)
    (dimensions : Z * Z) (timeout_ms : pyval) (w : World) :
  exists calls,
    spawned (snd (take_screenshot H P target dimensions timeout_ms w))
      = spawned w ++ calls /\
    (forall c t, c ∈ calls -> snd c = Some t -> py_truthy timeout_ms = true) /\
    (py_truthy timeout_ms = false ->
     timeout_seconds_of timeout_ms = Ok None /\
     timeout_kwarg None = None /\
     take_screenshot H P target dimensions timeout_ms w
       = take_screenshot H P target dimensions VNone w /\
     Forall (fun c => snd c = None) calls).
Proof.
  destruct (take_screenshot_of_render H P target dimensions timeout_ms w)
    as (r & w' & _ & Hs & Hshot).
  destruct (render_spawned H P target dimensions timeout_ms (output_path ".png" w)
              (with_output ".png" w)) as (calls & Hcalls & Hkw).
  exists calls. rewrite Hshot. cbn [snd]. rewrite Hs, Hcalls.
  split; [reflexivity|]. split.
  - intros c t Hin Hsome. destruct (Hkw c Hin) as (ts & Hts & Hc).
    destruct (py_truthy timeout_ms) eqn:Htruthy; [done|].
    rewrite timeout_seconds_of_falsy in Hts by done. injection Hts as <-.
    cbn in Hc. congruence.
  - intros Hf. split; [by apply timeout_seconds_of_falsy|]. split; [reflexivity|].
    split.
    + rewrite <- Hshot. unfold take_screenshot, render.
      rewrite (timeout_seconds_of_falsy timeout_ms Hf). reflexivity.
    + apply Forall_forall. intros c Hin. destruct (Hkw c Hin) as (ts & Hts & Hc).
      rewrite timeout_seconds_of_falsy in Hts by done. injection Hts as <-.
      exact Hc.
Qed.

(** ** [take_screenshot_html] *)

(** C4 at the failing input.  A string that starts with a lone surrogate
    cannot be encoded: the call logs the codec's message and returns
    [None], no process is run, and the temporary [.html] file, which did
    not exist before the call, is still there afterwards.  The message
    names the one character when no other surrogate follows it, the whole
    run of surrogates otherwise. *)
Theorem take_screenshot_html_leaves_file (H : Host) (P : Pillow) (rest : unicode)
    (dimensions : Z * Z) (timeout_ms : pyval) (w : World) :
  let html_file_path := output_path ".html" w in
  let w' := snd (take_screenshot_html H P (55296%N :: rest) dimensions timeout_ms w) in
  let e := surrogate_error 55296 0 (surrogate_run rest) in
  fst (take_screenshot_html H P (55296%N :: rest) dimensions timeout_ms w) = Ok None /\
  utf8_encode (55296%N :: rest) = Raise e /\
  log w' = log w ++ ["Failed to take screenshot: " +:+ text e] /\
  (surrogate_run rest = 0%nat ->
   text e = "'utf-8' codec can't encode character '\ud800' in position 0: surrogates not allowed") /\
  (forall more, surrogate_run rest = S more ->
   text e = "'utf-8' codec can't encode characters in position 0-" +:+ pretty (S more)
              +:+ ": surrogates not allowed") /\
  spawned w' = spawned w /\
  files w !! html_file_path = None /\
  files w' !! html_file_path = Some [].
Proof.
  intros html_file_path w' e.
  assert (Henc : utf8_encode (55296%N :: rest) = Raise e) by reflexivity.
  assert (Hrun : take_screenshot_html H P (55296%N :: rest) dimensions timeout_ms w
                 = (Ok None,
                    mk_world (<[html_file_path := []]> (files w))
                      (log w ++ ["Failed to take screenshot: " +:+ text e]) (spawned w))).
  { unfold take_screenshot_html, try_except at 1.
    unfold bind at 1. rewrite named_temporary_file_eq.
    unfold bind at 1. unfold processes_run.
    unfold bind at 1. unfold lift. rewrite Henc. reflexivity. }
  unfold w'. rewrite Hrun. cbn [fst snd log spawned files].
  split; [done|]. split; [done|]. split; [done|].
  split; [unfold e; by intros ->|]. split; [unfold e; by intros more ->|].
  split; [done|]. split; [apply output_path_fresh|apply lookup_insert_eq].
Qed.

(** ** Witnesses and runs of the model *)

Lemma resize_image_exact_size_witness :
  exists out,
    resize_image sample_pillow sample_grey (VInt 800, VFloat float_1000) [keep_width_flag]
      = Ok out /\
    size out = (800, 1000).
Proof.
  apply (resize_image_exact_size sample_pillow sample_grey (VInt 800) (VFloat float_1000)
           800 1000 [keep_width_flag]);
    try reflexivity; split; reflexivity.
Defined.

Lemma compute_image_hash_digest_witness :
  compute_image_hash (Some sample_grey) = Ok (spec_image_hash sample_grey) /\
  (spec_row_major_bytes sample_grey = spec_row_major_bytes sample_rgba ->
   compute_image_hash (Some sample_grey) = compute_image_hash (Some sample_rgba)).
Proof.
  apply (compute_image_hash_digest sample_grey sample_rgba);
    unfold well_formed, width, height; cbn; lia.
Defined.

Lemma take_screenshot_failure_report_witness :
  exists normalized_target errors taken calls w2,
    _normalize_target sigill_host "http://example.org" (with_output ".png" empty_world)
      = (Ok normalized_target, with_output ".png" empty_world) /\
    try_executables sigill_host normalized_target (output_path ".png" empty_world)
      (800, 480) None _CHROMIUM_EXECUTABLES [] (with_output ".png" empty_world)
      = (Ok (errors, taken), w2) /\
    log w2 = log empty_world ++ errors /\
    spawned w2 = spawned empty_world ++ calls /\
    (calls = [] -> errors = []) /\
    ((forall executable,
        executable ∈ _CHROMIUM_EXECUTABLES -> which sigill_host executable = false) ->
     errors = [] /\ taken = false /\ calls = []) /\
    (taken = false ->
     (errors = [] <-> Forall (fun call => exit_code_of sigill_host call = Some 132) calls) /\
     exists r w',
       take_screenshot sigill_host sample_pillow "http://example.org" (800, 480) VNone
         empty_world = (r, w') /\
       log w' = log w2 ++
                match errors with
                | [] => ["Failed to take screenshot: No chromium executable found"]
                | _ => "Failed to take screenshot:" :: errors
                end /\
       (held_by sigill_host calls (output_path ".png" empty_world) = None -> r = Ok None) /\
       (r = Ok None \/
        exists e, r = Raise e /\
                  held_by sigill_host calls (output_path ".png" empty_world) = Some e /\
                  is_Some (files w' !! output_path ".png" empty_world))).
Proof.
  apply (take_screenshot_failure_report sigill_host sample_pillow "http://example.org"
           (800, 480) VNone None empty_world).
  reflexivity.
Defined.

Lemma try_executables_exit_codes_witness :
  try_executables failing_host "http://example.org" "/tmp/tmp0.png" (800, 480) None
    ["chromium"] [] empty_world
  = (Ok (["chromium exited with code 1: boom"], false),
     mk_world ∅ ["chromium exited with code 1: boom"]
       [(_build_chromium_command failing_host "chromium" "http://example.org"
           "/tmp/tmp0.png" (800, 480), None)]).
Proof.
  destruct (try_executables_exit_codes failing_host "http://example.org" "/tmp/tmp0.png"
              (800, 480) None "chromium" ["google-chrome"] [] empty_world 1
              (list_byte_of_string "boom" ++ [x0a]) eq_refl eq_refl ltac:(lia))
    as (_ & _ & _ & _ & Hbase & _).
  rewrite Hbase. vm_compute. reflexivity.
Defined.

Lemma get_image_contract_witness :
  get_image (sample_host (Raises unbound_angle) 404) sample_pillow "http://example.org"
    empty_world
  = (Ok None,
     mk_world (files empty_world)
       (log empty_world
          ++ ["Received non-200 response from " +:+ "http://example.org"
                +:+ ": status_code: " +:+ pretty (status_code (mk_response 404 [x2a]))])
       (spawned empty_world)).
Proof.
  apply (proj1 (proj2 (proj2 (get_image_contract (sample_host (Raises unbound_angle) 404)
                                sample_pillow "http://example.org" empty_world)))
           (mk_response 404 [x2a])).
  - reflexivity.
  - unfold http_success. cbn. lia.
Defined.

Lemma compute_image_hash_raises_iff_absent_witness :
  compute_image_hash (Some sample_grey)
  = Ok (SHA256.hexdigest (tobytes (convert_rgb sample_grey))).
Proof.
  apply (proj2 (proj2 (compute_image_hash_raises_iff_absent (Some sample_grey)))
           sample_grey).
  reflexivity.
Defined.

Lemma change_orientation_angle_witness :
  change_orientation sample_pillow sample_grey "diagonal" true = Raise unbound_angle /\
  kind unbound_angle = UnboundLocalError.
Proof.
  apply (proj2 (proj2 (proj2 (change_orientation_angle sample_pillow sample_grey)))
           "diagonal" true); discriminate.
Defined.

Lemma falsy_timeout_is_no_timeout_witness :
  exists calls,
    spawned (snd (take_screenshot sigill_host sample_pillow "http://example.org"
                    (800, 480) (VInt 0) empty_world))
      = spawned empty_world ++ calls /\
    timeout_seconds_of (VInt 0) = Ok None /\
    Forall (fun c => snd c = None) calls.
Proof.
  destruct (falsy_timeout_is_no_timeout sigill_host sample_pillow "http://example.org"
              (800, 480) (VInt 0) empty_world) as (calls & Hs & _ & Hfalsy).
  destruct (Hfalsy eq_refl) as (Hts & _ & _ & Hnone).
  exists calls. split; [exact Hs|]. split; [exact Hts|exact Hnone].
Defined.

(** C3, as stated, fails: with [chromium] on the PATH and stopping on an
    illegal instruction, one candidate was attempted, yet the log holds the
    line for the case where none was. *)
Lemma attempted_candidate_reported_as_missing :
  exists w',
    take_screenshot sigill_host sample_pillow "http://example.org" (800, 480) VNone
      empty_world = (Ok None, w') /\
    length (spawned w') = 1%nat /\
    which sigill_host "chromium" = true /\
    "chromium" ∈ _CHROMIUM_EXECUTABLES /\
    log w' = ["Failed to take screenshot: No chromium executable found"].
Proof.
  eexists. split; [vm_compute; reflexivity|]. cbn [spawned log length].
  split; [reflexivity|]. split; [reflexivity|]. split; [|reflexivity].
  apply list_elem_of_In. simpl. auto.
Qed.

(** Known digests. *)
Example sha256_abc :
  SHA256.hexdigest (list_byte_of_string "abc")
  = "ba7816bf8f01cfea414140de5dae2223b00361a396177a9cb410ff61f20015ad".
Proof. vm_compute. reflexivity. Qed.

Example sha256_empty :
  SHA256.hexdigest []
  = "e3b0c44298fc1c149afbf4c8996fb92427ae41e4649b934ca495991b7852b855".
Proof. vm_compute. reflexivity. Qed.

(** The grey and the RGBA sample hold the same colours and hash alike. *)
Example hash_across_modes :
  compute_image_hash (Some sample_grey) = compute_image_hash (Some sample_rgba) /\
  compute_image_hash (Some sample_grey)
  = Ok "31c507512f8749c837a95a4304ac22d10c00376db8406c920dceb331ab48aa51".
Proof. vm_compute. split; reflexivity. Qed.

(** Without the flag the taller source is centred; with it, it is not. *)
Example resize_plan_centred :
  resize_plan (100, 200) (VInt 100, VInt 100) [] = Ok (mk_plan 0 50 100 100, (100, 100)).
Proof. vm_compute. reflexivity. Qed.

Example resize_plan_wider :
  resize_plan (300, 200) (VInt 100, VInt 100) [] = Ok (mk_plan 50 0 200 200, (100, 100)) /\
  resize_plan (300, 200) (VInt 100, VInt 100) [keep_width_flag]
  = Ok (mk_plan 0 0 200 200, (100, 100)).
Proof. vm_compute. split; reflexivity. Qed.

(** A zero height raises instead of returning. *)
Example resize_plan_zero_height :
  resize_plan (300, 200) (VInt 100, VInt 0) []
  = Raise (mk_exc ZeroDivisionError "division by zero").
Proof. vm_compute. reflexivity. Qed.

(** Statuses 200 and 304 reach the decoder, 404 does not. *)
Example get_image_statuses :
  fst (get_image (sample_host (Raises unbound_angle) 200) sample_pillow "u" empty_world)
    = Ok (Some (mk_bitmap (1, 1) (ModeL [x2a]))) /\
  fst (get_image (sample_host (Raises unbound_angle) 304) sample_pillow "u" empty_world)
    = Ok (Some (mk_bitmap (1, 1) (ModeL [x2a]))) /\
  get_image (sample_host (Raises unbound_angle) 404) sample_pillow "u" empty_world
    = (Ok None,
       mk_world ∅ ["Received non-200 response from u: status_code: 404"] []).
Proof. vm_compute. repeat split; reflexivity. Qed.

(** A timeout of 0 milliseconds passes no keyword; 5000 passes 5.0. *)
Example timeout_zero_and_five :
  timeout_seconds_of (VInt 0) = Ok None /\
  timeout_seconds_of (VFloat (S754_zero true)) = Ok None /\
  timeout_seconds_of (VInt 5000) = Ok (Some (S754_finite false 5629499534213120 (-50))) /\
  map snd (spawned (snd (take_screenshot sigill_host sample_pillow "http://example.org"
                           (800, 480) (VInt 0) empty_world))) = [None] /\
  map snd (spawned (snd (take_screenshot sigill_host sample_pillow "http://example.org"
                           (800, 480) (VInt 5000) empty_world)))
  = [Some (S754_finite false 5629499534213120 (-50))].
Proof. vm_compute. repeat split; reflexivity. Qed.

(** When the page file is gone before line 150, the removal fails, the
    failure is logged, and the screenshot is returned all the same. *)
Example take_screenshot_html_removal_fails :
  take_screenshot_html rendering_host sample_pillow [60%N; 62%N] (800, 480) VNone
    empty_world
  = (Ok (Some (mk_bitmap (1, 1) (ModeL [x2a]))),
     mk_world ∅
       ["Failed to take screenshot: [Errno 2] No such file or directory: '/tmp/tmp0.html'"]
       (spawned (snd (take_screenshot rendering_host sample_pillow "/tmp/tmp0.html"
                        (800, 480) VNone (with_output ".html" empty_world))))).
Proof. vm_compute. reflexivity. Qed.

(** ** More on [take_screenshot] *)

Lemma after_run_files H command timeout w :
  files (after_run H command timeout w)
  = apply_touched (files w) (touched_by H (command, timeout)).
Proof.
  unfold after_run, subprocess_run, touched_by. cbn [fst snd].
  by destruct (run_process H command timeout).
Qed.

(** The loop tries the candidates that are on the PATH in the order of the
    list, one command each, and stops at the first render; the file system
    changes only by what those commands do. *)
Lemma try_executables_trace H normalized_target img_file_path dimensions timeout_seconds
    (candidates : list string) :
  forall errors w,
  exists new taken k w',
    try_executables H normalized_target img_file_path dimensions timeout_seconds
      candidates errors w = (Ok (errors ++ new, taken), w') /\
    log w' = log w ++ new /\
    spawned w' = spawned w ++
      take k (all_calls H normalized_target img_file_path dimensions timeout_seconds
                candidates) /\
    files w' = files_after H
      (take k (all_calls H normalized_target img_file_path dimensions timeout_seconds
                 candidates)) (files w) /\
    (taken = false ->
     take k (all_calls H normalized_target img_file_path dimensions timeout_seconds
               candidates)
     = all_calls H normalized_target img_file_path dimensions timeout_seconds
         candidates).
Proof.
  unfold all_calls.
  induction candidates as [|executable rest IH]; intros errors w.
  - exists [], false, 0%nat, w. cbn. unfold ret. rewrite !app_nil_r. done.
  - set (cmd := _build_chromium_command H executable normalized_target img_file_path
                  dimensions).
    set (kw := timeout_kwarg timeout_seconds).
    set (w1 := after_run H cmd kw w).
    assert (Hl1 : log w1 = log w) by apply after_run_log.
    assert (Hs1 : spawned w1 = spawned w ++ [(cmd, kw)]) by apply after_run_spawned.
    assert (Hf1 : files w1 = apply_touched (files w) (touched_by H (cmd, kw)))
      by apply after_run_files.
    cbn [List.filter]. destruct (which H executable) eqn:Hw.
    2: { rewrite loop_absent by done. apply IH. }
    cbn [map]. fold cmd kw.
    assert (Hgo : forall message,
              exists new taken k w',
                try_executables H normalized_target img_file_path dimensions
                  timeout_seconds rest (errors ++ message) (mk_world (files w1)
                  (log w1 ++ message) (spawned w1))
                = (Ok (errors ++ new, taken), w') /\
                log w' = log w ++ new /\
                spawned w' = spawned w ++
                  take k ((cmd, kw) ::
                    map (fun executable =>
                           (_build_chromium_command H executable normalized_target
                              img_file_path dimensions, kw))
                      (List.filter (which H) rest)) /\
                files w' = files_after H
                  (take k ((cmd, kw) ::
                     map (fun executable =>
                            (_build_chromium_command H executable normalized_target
                               img_file_path dimensions, kw))
                       (List.filter (which H) rest))) (files w) /\
                (taken = false ->
                 take k ((cmd, kw) ::
                   map (fun executable =>
                          (_build_chromium_command H executable normalized_target
                             img_file_path dimensions, kw))
                     (List.filter (which H) rest))
                 = (cmd, kw) ::
                   map (fun executable =>
                          (_build_chromium_command H executable normalized_target
                             img_file_path dimensions, kw))
                     (List.filter (which H) rest))).
    { intros message.
      destruct (IH (errors ++ message)
                  (mk_world (files w1) (log w1 ++ message) (spawned w1)))
        as (new & taken & k & w' & -> & Hl & Hs & Hf & Hall).
      exists (message ++ new), taken, (S k), w'.
      cbn [log spawned files] in Hl, Hs, Hf. cbn [take files_after fold_left].
      fold (files_after H). rewrite Hl, Hs, Hf, Hl1, Hs1, Hf1, <- !app_assoc.
      split; [done|]. split; [done|]. split; [done|]. split; [done|].
      intros Ht. f_equal. exact (Hall Ht). }
    destruct (loop_step H normalized_target img_file_path dimensions timeout_seconds
                executable rest errors w Hw)
      as [(e & _ & ->)|[(_ & ->)|[(_ & ->)|(returncode & stderr & _ & _ & ->)]]];
      fold cmd kw w1.
    + apply (Hgo [launch_message H timeout_seconds executable e]).
    + destruct (Hgo []) as (new & taken & k & w' & Hloop & Hrest).
      rewrite !app_nil_r in Hloop.
      replace (mk_world (files w1) (log w1) (spawned w1)) with w1 in Hloop
        by by destruct w1.
      by exists new, taken, k, w'.
    + exists [], true, 1%nat, w1. cbn [take files_after fold_left].
      rewrite take_0, !app_nil_r.
      split; [done|]. split; [done|]. split; [done|]. split; [done|]. done.
    + apply (Hgo [exit_message H executable returncode stderr]).
Qed.

(** The [try] block: what it logs, spawns and does to the files. *)
Lemma render_trace H P target dimensions timeout_ms img_file_path w :
  exists r w3 new calls,
    render H P target dimensions timeout_ms img_file_path w = (r, w3) /\
    log w3 = log w ++ new /\
    spawned w3 = spawned w ++ calls /\
    files w3 = files_after H calls (files w).
Proof.
  unfold render. destruct (normalize_target_ok H target w) as (nt & Hn).
  unfold bind at 1. rewrite Hn. unfold bind at 1. unfold lift.
  destruct (timeout_seconds_of timeout_ms) as [ts|e].
  - destruct (try_executables_trace H nt img_file_path dimensions ts
                _CHROMIUM_EXECUTABLES [] w)
      as (errors & taken & k & w2 & Hloop & Hl & Hs & Hf & _).
    cbn [app] in Hloop. unfold bind at 1. rewrite Hloop.
    destruct taken; cbn [negb].
    + unfold bind, read_file, lift, ret.
      destruct (files w2 !! img_file_path); [destruct (decode P _)|];
        eexists _, w2, errors, _; done.
    + unfold bind, ret. rewrite report_failure_spec.
      eexists _, _, (errors ++ failure_report errors), _.
      split; [reflexivity|]. cbn [log spawned files]. by rewrite Hl, app_assoc.
  - eexists _, w, [], []. cbn [files_after fold_left]. by rewrite !app_nil_r.
Qed.

(** [take_screenshot] from its [try] block to its result: the calls made
    since the output file exists are the calls of the block. *)
Lemma take_screenshot_trace H P target dimensions timeout_ms w :
  exists (r0 : result (option Bitmap)) w3 new calls,
    log w3 = log w ++ new /\
    spawned w3 = spawned w ++ calls /\
    files w3 = files_after H calls (<[output_path ".png" w := []]> (files w)) /\
    take_screenshot H P target dimensions timeout_ms w
    = finish H calls (output_path ".png" w) r0 w3 /\
    exists image, r0 = Ok image.
Proof.
  rewrite take_screenshot_finish.
  destruct (render_trace H P target dimensions timeout_ms (output_path ".png" w)
              (with_output ".png" w)) as (r & w3 & new & calls & -> & Hl & Hs & Hf).
  cbn [with_output set_files log spawned files] in Hl, Hs, Hf.
  rewrite Hs, drop_app_length. destruct r as [image|e].
  - exists (Ok image), w3, new, calls. split; [done|]. split; [done|]. split; [done|].
    split; [done|]. by eexists.
  - exists (Ok None), (logged ("Failed to take screenshot: " +:+ text e) w3),
      (new ++ ["Failed to take screenshot: " +:+ text e]), calls.
    cbn [logged log spawned files]. rewrite Hl, app_assoc.
    split; [done|]. split; [done|]. split; [done|]. split; [done|]. by eexists.
Qed.

(** X1.  [take_screenshot] catches whatever its [try] block raises: the
    only exception that reaches the caller is the one that [os.remove]
    raises in the [finally] clause, when the output file is still there
    and a process run by the call holds it.  Otherwise the call returns a
    bitmap or [None].  Either way it only appends to the log and to the
    list of spawned commands. *)
Theorem take_screenshot_raises_only_on_removal (H : Host) (P : Pillow) (target : string)
    (dimensions : Z * Z) (timeout_ms : pyval) (w : World) :
  exists r w' new calls,
    take_screenshot H P target dimensions timeout_ms w = (r, w') /\
    log w' = log w ++ new /\
    spawned w' = spawned w ++ calls /\
    (held_by H calls (output_path ".png" w) = None -> exists image, r = Ok image) /\
    (forall e,
       r = Raise e <->
       held_by H calls (output_path ".png" w) = Some e /\
       is_Some (files w' !! output_path ".png" w)).
Proof.
  destruct (take_screenshot_trace H P target dimensions timeout_ms w)
    as (r0 & w3 & new & calls & Hl & Hs & _ & -> & image & ->).
  destruct (finish_log_spawned H calls (output_path ".png" w)
              (@Ok (option Bitmap) image) w3) as [Hl' Hs'].
  destruct (finish_result H calls (output_path ".png" w)
              (@Ok (option Bitmap) image) w3) as [Hnone Hcase].
  destruct (finish H calls (output_path ".png" w) (@Ok (option Bitmap) image) w3)
    as [r w'] eqn:Hfin.
  cbn [fst snd] in *. exists r, w', new, calls.
  split; [done|]. split; [congruence|]. split; [congruence|].
  split; [intros Hh; exists image; by apply Hnone|].
  intros e. split.
  - intros ->. destruct Hcase as [[=]|(e' & [= <-] & Hh & Hp)]. done.
  - intros [Hh Hp]. unfold finish in Hfin. rewrite Hh in Hfin.
    destruct (files w3 !! output_path ".png" w) eqn:E.
    + by injection Hfin as <- <-.
    + injection Hfin as <- <-. cbn [without_file set_files files] in Hp.
      rewrite lookup_delete_eq in Hp. by destruct Hp.
Qed.

(** X2.  After [take_screenshot] the file system is what the spawned
    commands made of it, without the temporary [.png] file: the file is
    gone on every path, and if the commands touch no file the file system
    is exactly as it was before the call.  The one exception is the path on
    which the [finally] clause raises (the file is there and held): then
    nothing is removed and the file stays. *)
Theorem take_screenshot_cleans_up (H : Host) (P : Pillow) (target : string)
    (dimensions : Z * Z) (timeout_ms : pyval) (w : World) :
  exists calls,
    let r := fst (take_screenshot H P target dimensions timeout_ms w) in
    let w' := snd (take_screenshot H P target dimensions timeout_ms w) in
    let img_file_path := output_path ".png" w in
    let made := files_after H calls (<[img_file_path := []]> (files w)) in
    spawned w' = spawned w ++ calls /\
    files w !! img_file_path = None /\
    ((exists image, r = Ok image) ->
     files w' !! img_file_path = None /\
     files w' = delete img_file_path made /\
     (Forall (fun call => touched_by H call = []) calls -> files w' = files w)) /\
    (forall e, r = Raise e -> is_Some (files w' !! img_file_path) /\ files w' = made).
Proof.
  destruct (take_screenshot_trace H P target dimensions timeout_ms w)
    as (r0 & w3 & new & calls & _ & Hs & Hf & -> & image & ->).
  exists calls. cbn zeta.
  destruct (finish_log_spawned H calls (output_path ".png" w)
              (@Ok (option Bitmap) image) w3) as [_ Hs'].
  rewrite Hs', Hs. split; [done|]. split; [apply output_path_fresh|].
  unfold finish.
  destruct (files w3 !! output_path ".png" w) as [data|] eqn:E;
    destruct (held_by H calls (output_path ".png" w)) as [e0|];
    cbn [fst snd without_file set_files files]; rewrite <- ?Hf.
  1: { split; [intros [? [=]]|]. intros e _. rewrite E. split; [by eexists|done]. }
  all: split; [intros _|intros e [=]].
  all: split; [apply lookup_delete_eq|]; split; [done|].
  all: intros Hnone; rewrite Hf.
  all: assert (Hsame : forall fs, files_after H calls fs = fs)
         by (clear -Hnone; induction Hnone as [|call calls Hcall _ IH]; intros fs;
             [done|]; cbn [files_after fold_left]; rewrite Hcall;
             cbn [apply_touched fold_left]; apply IH).
  all: rewrite Hsame; apply delete_insert_id, output_path_fresh.
Qed.

(** X3.  The loop runs one command for each candidate that is on the
    PATH, in the order of the list, each with the [timeout] keyword of
    line 177, until one renders: the commands spawned are a prefix of that
    sequence, and the whole of it when no candidate renders. *)
Theorem try_executables_in_order (H : Host) (normalized_target img_file_path : string)
    (dimensions : Z * Z) (timeout_seconds : option PyFloat.float)
    (candidates errors : list string) (w : World) :
  exists errors' taken k w',
    try_executables H normalized_target img_file_path dimensions timeout_seconds
      candidates errors w = (Ok (errors', taken), w') /\
    spawned w' = spawned w ++
      take k (map (fun executable =>
                     (_build_chromium_command H executable normalized_target
                        img_file_path dimensions,
                      timeout_kwarg timeout_seconds))
                (List.filter (which H) candidates)) /\
    (taken = false ->
     spawned w' = spawned w ++
       map (fun executable =>
              (_build_chromium_command H executable normalized_target
                 img_file_path dimensions,
               timeout_kwarg timeout_seconds))
         (List.filter (which H) candidates)).
Proof.
  destruct (try_executables_trace H normalized_target img_file_path dimensions
              timeout_seconds candidates errors w)
    as (new & taken & k & w' & Hloop & _ & Hs & _ & Hall).
  exists (errors ++ new), taken, k, w'. unfold all_calls in *.
  split; [done|]. split; [done|]. intros Ht. by rewrite <- (Hall Ht).
Qed.


(** X5.  A zero exit code counts as a render exactly when the output file
    exists afterwards: then the loop stops with [screenshot_taken] set and
    [errors] untouched, and no later candidate is run; if the file is
    missing, the exit is recorded as a failure with code 0 and the loop
    goes on. *)
Theorem try_executables_zero_exit (H : Host) (normalized_target img_file_path : string)
    (dimensions : Z * Z) (timeout_seconds : option PyFloat.float)
    (executable : string) (rest errors : list string) (w : World)
    (stderr : bytes) (touched : list (string * option bytes)) :
  let command :=
    _build_chromium_command H executable normalized_target img_file_path dimensions in
  let w1 := after_run H command (timeout_kwarg timeout_seconds) w in
  let message :=
    executable +:+ " exited with code 0: " +:+ strip (decode_utf8 H stderr) in
  which H executable = true ->
  run_process H command (timeout_kwarg timeout_seconds) = Exits 0 stderr touched ->
  files w1 = apply_touched (files w) touched /\
  (is_Some (files w1 !! img_file_path) ->
   try_executables H normalized_target img_file_path dimensions timeout_seconds
     (executable :: rest) errors w = (Ok (errors, true), w1)) /\
  (files w1 !! img_file_path = None ->
   try_executables H normalized_target img_file_path dimensions timeout_seconds
     (executable :: rest) errors w
   = try_executables H normalized_target img_file_path dimensions timeout_seconds
       rest (errors ++ [message])
       (mk_world (files w1) (log w1 ++ [message]) (spawned w1))).
Proof.
  intros command w1 message Hw Hr.
  pose proof (exit_of_Exits _ _ _ _ _ _ Hr) as Hx.
  split; [unfold w1; rewrite after_run_files; unfold touched_by; cbn [fst snd];
          fold command; by rewrite Hr|].
  split.
  - intros Hp. by apply (loop_rendered _ _ _ _ _ _ _ _ _ stderr).
  - intros Hn.
    rewrite (loop_failed _ _ _ _ _ _ _ _ _ 0 stderr);
      [reflexivity|done|done|lia|by right].
Qed.




(** ** More on [take_screenshot_html] and [_normalize_target] *)

Lemma utf8_encode_char_none (c : N) :
  utf8_encode_char c = None <-> (55296 <= c <= 57343)%N.
Proof.
  unfold utf8_encode_char.
  destruct (N.ltb_spec c 128); [split; [discriminate|lia]|].
  destruct (N.ltb_spec c 2048); [split; [discriminate|lia]|].
  destruct (N.leb_spec 55296 c), (N.leb_spec c 57343); cbn [andb];
    try (split; [intros _; lia|done]);
    destruct (N.ltb_spec c 65536); split; try discriminate; lia.
Qed.

(** Encoding fails exactly on the strings that hold a lone surrogate. *)
Lemma utf8_encode_from_raises (s : unicode) :
  forall pos,
    (exists e, utf8_encode_from pos s = Raise e /\ kind e = UnicodeEncodeError)
    <-> has_surrogate s.
Proof.
  unfold has_surrogate. induction s as [|c s IH]; intros pos; cbn [utf8_encode_from].
  - split; [intros (e & [=] & _)|intros Hx; inversion Hx].
  - destruct (utf8_encode_char c) as [bs|] eqn:Hc.
    + assert (Hns : ~ (55296 <= c <= 57343)%N).
      { intros Hx. apply utf8_encode_char_none in Hx. congruence. }
      rewrite Exists_cons. rewrite <- (IH (S pos)).
      destruct (utf8_encode_from (S pos) s) as [rest|e]; cbn [rbind].
      * split; [intros (e & [=] & _)|intros [Hx|(e & [=] & _)]; done].
      * split; [intros (e' & [= <-] & Hk); right; by exists e|].
        intros [Hx|(e' & [= <-] & Hk)]; [done|by exists e].
    + apply utf8_encode_char_none in Hc. split; [intros _; by left|].
      intros _. eexists. split; reflexivity.
Qed.

Lemma take_screenshot_spawned H P target dimensions timeout_ms w :
  exists r w' calls,
    take_screenshot H P target dimensions timeout_ms w = (r, w') /\
    spawned w' = spawned w ++ calls.
Proof.
  destruct (take_screenshot_trace H P target dimensions timeout_ms w)
    as (r0 & w3 & new & calls & _ & Hs & _ & -> & _).
  destruct (finish_log_spawned H calls (output_path ".png" w) r0 w3) as [_ Hs'].
  destruct (finish H calls (output_path ".png" w) r0 w3) as [r w'].
  exists r, w', calls. cbn [snd] in Hs'. split; [done|congruence].
Qed.

(** X7.  For an encodable HTML string, [take_screenshot_html] calls
    [take_screenshot] on a new temporary [.html] file that holds the UTF-8
    bytes of the string.  If that call raises (from its [finally] clause),
    the exception is logged, [None] is returned and the page file is not
    removed.  Otherwise its result is returned, whatever happens to the
    page file: it is removed if it is there and free; if it is gone or
    held, the failing [os.remove] is logged. *)
Theorem take_screenshot_html_normal_path (H : Host) (P : Pillow) (html_str : unicode)
    (dimensions : Z * Z) (timeout_ms : pyval) (w : World) (data : bytes) :
  utf8_encode html_str = Ok data ->
  let html_file_path := output_path ".html" w in
  let w1 := set_files (<[html_file_path := data]> (files w)) w in
  files w !! html_file_path = None /\
  exists r w2 calls,
    take_screenshot H P html_file_path dimensions timeout_ms w1 = (r, w2) /\
    spawned w2 = spawned w ++ calls /\
    take_screenshot_html H P html_str dimensions timeout_ms w
    = match r with
      | Raise e => (Ok None, logged ("Failed to take screenshot: " +:+ text e) w2)
      | Ok image =>
          match files w2 !! html_file_path, held_by H calls html_file_path with
          | None, _ =>
              (Ok image,
               logged ("Failed to take screenshot: "
                         +:+ text (no_such_file html_file_path)) w2)
          | Some _, Some e =>
              (Ok image, logged ("Failed to take screenshot: " +:+ text e) w2)
          | Some _, None => (Ok image, without_file html_file_path w2)
          end
      end.
Proof.
  intros Henc html_file_path w1. split; [apply output_path_fresh|].
  destruct (take_screenshot_spawned H P html_file_path dimensions timeout_ms w1)
    as (r & w2 & calls & Hshot & Hs).
  exists r, w2, calls. split; [done|]. split; [done|].
  assert (Hw1 : set_files (<[html_file_path := data]> (files (with_output ".html" w)))
                  (with_output ".html" w) = w1).
  { unfold w1, with_output, set_files. cbn [files log spawned]. fold html_file_path.
    by rewrite insert_insert_eq. }
  unfold take_screenshot_html, try_except at 1.
  unfold bind at 1. rewrite named_temporary_file_eq. fold html_file_path.
  unfold bind at 1. unfold processes_run. cbn [with_output set_files spawned].
  fold (with_output ".html" w).
  unfold bind at 1. unfold lift. rewrite Henc.
  unfold bind at 1. unfold write_file. rewrite Hw1.
  unfold bind at 1. rewrite Hshot. destruct r as [image|e].
  - assert (Hd : drop (length (spawned w)) (spawned w2) = calls).
    { cbn [spawned] in Hs. rewrite Hs. apply drop_app_length. }
    unfold try_except, bind, os_remove, ret, log_failure, logger_error, logged,
      without_file.
    rewrite Hd.
    destruct (files w2 !! html_file_path); [|by unfold bind, ret].
    destruct (held_by H calls html_file_path); by unfold bind, ret.
  - reflexivity.
Qed.

(** X8.  [take_screenshot_html] never raises.  When the HTML string holds
    a lone surrogate anywhere, no process is spawned: the encoding error is
    logged, [None] is returned and the empty temporary file stays. *)
Theorem take_screenshot_html_unencodable (H : Host) (P : Pillow) (html_str : unicode)
    (dimensions : Z * Z) (timeout_ms : pyval) (w : World) :
  (exists image w',
     take_screenshot_html H P html_str dimensions timeout_ms w = (Ok image, w')) /\
  (has_surrogate html_str ->
   exists e,
     utf8_encode html_str = Raise e /\ kind e = UnicodeEncodeError /\
     take_screenshot_html H P html_str dimensions timeout_ms w
     = (Ok None,
        mk_world (<[output_path ".html" w := []]> (files w))
          (log w ++ ["Failed to take screenshot: " +:+ text e]) (spawned w))).
Proof.
  split.
  - unfold take_screenshot_html, try_except at 1.
    match goal with
    | |- context [match ?body w with _ => _ end] =>
        destruct (body w) as [[image|e] w']
    end; [by eexists _, _|].
    unfold log_failure, bind, logger_error, ret. by eexists _, _.
  - intros Hs. apply (utf8_encode_from_raises html_str 0) in Hs.
    destruct Hs as (e & He & Hk). exists e. split; [done|]. split; [done|].
    unfold take_screenshot_html, try_except at 1.
    unfold bind at 1. rewrite named_temporary_file_eq.
    unfold bind at 1. unfold processes_run.
    unfold bind at 1. unfold lift, utf8_encode. rewrite He.
    reflexivity.
Qed.

(** X9.  [_normalize_target] never raises and leaves the world alone.  A
    target with one of the three schemes is returned as it is, whether or
    not a file has that name; when the host's file URIs start with
    [file://], normalising is idempotent, and the result is the target
    itself or the URI of an existing file. *)
Theorem normalize_target_idempotent (H : Host) (target : string) (w : World) :
  (forall path, String.prefix "file://" (as_uri H path) = true) ->
  exists normalized_target,
    _normalize_target H target w = (Ok normalized_target, w) /\
    _normalize_target H normalized_target w = (Ok normalized_target, w) /\
    (startswith target ["http://"; "https://"; "file://"] = true ->
     normalized_target = target) /\
    (normalized_target = target \/
     (normalized_target = as_uri H target /\ is_Some (files w !! target))).
Proof.
  intros Huri. unfold _normalize_target.
  destruct (startswith target _) eqn:Hs.
  - exists target. rewrite Hs. repeat split; auto.
  - unfold bind, os_path_exists, ret.
    destruct (bool_decide (is_Some (files w !! target))) eqn:Hp.
    + exists (as_uri H target).
      assert (Hs' : startswith (as_uri H target) ["http://"; "https://"; "file://"] = true).
      { unfold startswith. cbn [existsb]. rewrite Huri. by rewrite !orb_true_r. }
      rewrite Hs'. apply bool_decide_eq_true_1 in Hp.
      split; [done|]. split; [done|]. split; [done|]. by right.
    + exists target. rewrite Hs, Hp. split; [done|]. split; [done|]. split; [done|].
      by left.
Qed.

(** ** Pixel grids *)

Section Grid.
Context {A : Type} (zero : A).

Lemma length_flat_map_rows {B} (g : B -> list A) (n : nat) (l : list B) :
  (forall y, length (g y) = n) -> length (flat_map g l) = (length l * n)%nat.
Proof.
  intros Hg. induction l as [|a l IH]; [reflexivity|].
  cbn [flat_map length]. rewrite length_app, Hg, IH. lia.
Qed.

Lemma nth_flat_map_rows {B} (g : B -> list A) (n : nat) (l : list B) (d0 : B) :
  (forall y, length (g y) = n) ->
  forall j i, (i < n)%nat -> (j < length l)%nat ->
    nth (j * n + i) (flat_map g l) zero = nth i (g (nth j l d0)) zero.
Proof.
  intros Hg. induction l as [|a l IH]; intros j i Hi Hj; cbn [length] in Hj; [lia|].
  cbn [flat_map]. destruct j as [|j].
  - cbn [Nat.mul Nat.add nth]. apply app_nth1. rewrite Hg. lia.
  - rewrite app_nth2 by (rewrite Hg; lia). rewrite Hg. cbn [nth].
    replace (S j * n + i - n)%nat with (j * n + i)%nat by lia.
    apply IH; lia.
Qed.

Lemma length_tabulate (w h : Z) (f : Z -> Z -> A) :
  length (tabulate w h f) = (Z.to_nat h * Z.to_nat w)%nat.
Proof.
  unfold tabulate. rewrite (length_flat_map_rows _ (Z.to_nat w)).
  - by rewrite length_seqZ.
  - intros y. by rewrite length_map, length_seqZ.
Qed.

Lemma nth_seqZ (n : Z) (i : nat) :
  Z.of_nat i < n -> nth i (seqZ 0 n) 0 = Z.of_nat i.
Proof.
  intros Hi. rewrite nth_lookup, lookup_seqZ_lt by done. cbn. lia.
Qed.

Lemma getpixel_tabulate (w h : Z) (f : Z -> Z -> A) (x y : Z) :
  0 <= x < w -> 0 <= y < h -> getpixel zero w h (tabulate w h f) x y = f x y.
Proof.
  intros Hx Hy. unfold getpixel.
  replace ((0 <=? x) && (x <? w) && (0 <=? y) && (y <? h)) with true by lia.
  unfold tabulate.
  replace (Z.to_nat (y * w + x)) with (Z.to_nat y * Z.to_nat w + Z.to_nat x)%nat by nia.
  rewrite (nth_flat_map_rows _ (Z.to_nat w) _ 0).
  - rewrite nth_seqZ by lia. rewrite Z2Nat.id by lia.
    rewrite (nth_indep _ zero (f 0 y)) by (rewrite length_map, length_seqZ; lia).
    rewrite (map_nth (fun x => f x y)), nth_seqZ by lia. f_equal. lia.
  - intros y'. by rewrite length_map, length_seqZ.
  - lia.
  - rewrite length_seqZ. lia.
Qed.

Lemma tabulate_ext (w h : Z) (f g : Z -> Z -> A) :
  (forall x y, 0 <= x < w -> 0 <= y < h -> f x y = g x y) ->
  tabulate w h f = tabulate w h g.
Proof.
  intros Hfg. unfold tabulate.
  rewrite !flat_map_concat_map. f_equal. apply map_ext_in. intros y Hy.
  apply map_ext_in. intros x Hx.
  apply list_elem_of_In, list_elem_of_lookup in Hx, Hy.
  destruct Hx as [i Hi], Hy as [j Hj]. apply lookup_seqZ in Hi, Hj.
  apply Hfg; lia.
Qed.

(** Reading a well-sized buffer through [getpixel] gives it back. *)
Lemma tabulate_getpixel (w h : Z) (d : list A) :
  0 <= w -> 0 <= h -> Z.of_nat (length d) = w * h ->
  tabulate w h (getpixel zero w h d) = d.
Proof.
  intros Hw Hh Hd. etransitivity; [|by apply (tabulate_nth zero w h d)].
  apply tabulate_ext. intros x y Hx Hy. unfold getpixel.
  by replace ((0 <=? x) && (x <? w) && (0 <=? y) && (y <? h)) with true by lia.
Qed.

Lemma rotate_180_180 (w h : Z) (d : list A) :
  0 <= w -> 0 <= h -> Z.of_nat (length d) = w * h ->
  rotate_180_data zero w h (rotate_180_data zero w h d) = d.
Proof.
  intros Hw Hh Hd. unfold rotate_180_data.
  etransitivity; [|by apply (tabulate_getpixel w h d)].
  apply tabulate_ext. intros x y Hx Hy.
  rewrite getpixel_tabulate by lia. f_equal; lia.
Qed.

Lemma rotate_180_90 (w h : Z) (d : list A) :
  rotate_180_data zero h w (rotate_90_data zero w h d) = rotate_270_data zero w h d.
Proof.
  unfold rotate_180_data, rotate_90_data, rotate_270_data.
  apply tabulate_ext. intros x y Hx Hy.
  rewrite getpixel_tabulate by lia. f_equal; lia.
Qed.

Lemma rotate_180_270 (w h : Z) (d : list A) :
  rotate_180_data zero h w (rotate_270_data zero w h d) = rotate_90_data zero w h d.
Proof.
  unfold rotate_180_data, rotate_90_data, rotate_270_data.
  apply tabulate_ext. intros x y Hx Hy.
  rewrite getpixel_tabulate by lia. f_equal; lia.
Qed.
End Grid.

(** ** More on [change_orientation] *)

Lemma transpose_180_180 (im : Bitmap) :
  well_formed im -> transpose (transpose im ROTATE_180) ROTATE_180 = im.
Proof.
  destruct im as [[w h] px]. unfold well_formed, width, height, pixel_count.
  cbn [size pixels fst snd]. intros (Hw & Hh & Hlen). unfold transpose. cbn [size pixels].
  destruct px as [d|d|d]; by rewrite rotate_180_180.
Qed.

Lemma transpose_180_90 (im : Bitmap) :
  transpose (transpose im ROTATE_90) ROTATE_180 = transpose im ROTATE_270.
Proof.
  destruct im as [[w h] px]. unfold transpose. cbn [size pixels].
  destruct px as [d|d|d]; by rewrite rotate_180_90.
Qed.

Lemma transpose_180_270 (im : Bitmap) :
  transpose (transpose im ROTATE_270) ROTATE_180 = transpose im ROTATE_90.
Proof.
  destruct im as [[w h] px]. unfold transpose. cbn [size pixels].
  destruct px as [d|d|d]; by rewrite rotate_180_270.
Qed.

Lemma well_formed_transpose (im : Bitmap) (t : transposition) :
  well_formed im ->
  well_formed (transpose im t) /\
  pixel_count (transpose im t) = pixel_count im /\
  size (transpose im t)
  = match t with
    | ROTATE_180 => size im
    | _ => (height im, width im)
    end.
Proof.
  destruct im as [[w h] px]. unfold well_formed, width, height, pixel_count.
  cbn [size pixels fst snd]. intros (Hw & Hh & Hlen). unfold transpose. cbn [size pixels].
  destruct t, px as [d|d|d]; cbn [size pixels fst snd];
    unfold rotate_90_data, rotate_180_data, rotate_270_data;
    rewrite length_tabulate; repeat split; try lia; try nia.
Qed.

Lemma change_orientation_cases (P : Pillow) (image : Bitmap) :
  change_orientation P image "horizontal" false = Ok image /\
  change_orientation P image "vertical" false = Ok (transpose image ROTATE_90) /\
  change_orientation P image "horizontal" true = Ok (transpose image ROTATE_180) /\
  change_orientation P image "vertical" true = Ok (transpose image ROTATE_270).
Proof. repeat split. Qed.

(** X10.  On a well-formed bitmap and a recognised orientation,
    [change_orientation] returns a well-formed bitmap with the same number
    of pixels: of the same size for ['horizontal'], with width and height
    exchanged for ['vertical'], whether inverted or not. *)
Theorem change_orientation_geometry (P : Pillow) (image : Bitmap) (orientation : string)
    (inverted : bool) :
  well_formed image ->
  orientation = "horizontal" \/ orientation = "vertical" ->
  exists out,
    change_orientation P image orientation inverted = Ok out /\
    well_formed out /\
    pixel_count out = pixel_count image /\
    size out = if String.eqb orientation "vertical"
               then (height image, width image)
               else size image.
Proof.
  intros Hwf Ho.
  destruct (change_orientation_cases P image) as (Hhf & Hvf & Hht & Hvt).
  destruct (well_formed_transpose image ROTATE_90 Hwf) as (W90 & C90 & S90).
  destruct (well_formed_transpose image ROTATE_180 Hwf) as (W180 & C180 & S180).
  destruct (well_formed_transpose image ROTATE_270 Hwf) as (W270 & C270 & S270).
  destruct Ho as [-> | ->], inverted; eexists; (split; [eassumption|]); done.
Qed.

(** X11.  The [inverted] flag turns the upright result by half a turn, and
    a second half turn gives the upright result back: for ['horizontal']
    and for ['vertical'], the inverted result is the upright one rotated by
    180 degrees, pixel for pixel. *)
Theorem change_orientation_inverted (P : Pillow) (image : Bitmap) (orientation : string) :
  well_formed image ->
  orientation = "horizontal" \/ orientation = "vertical" ->
  exists upright upside_down,
    change_orientation P image orientation false = Ok upright /\
    change_orientation P image orientation true = Ok upside_down /\
    upside_down = transpose upright ROTATE_180 /\
    transpose upside_down ROTATE_180 = upright.
Proof.
  intros Hwf Ho.
  destruct (change_orientation_cases P image) as (Hhf & Hvf & Hht & Hvt).
  destruct Ho as [-> | ->]; eexists _, _;
    (split; [eassumption|]); (split; [eassumption|]).
  - split; [reflexivity|]. by apply transpose_180_180.
  - split; [symmetry; apply transpose_180_90|apply transpose_180_270].
Qed.

(** ** [pad_image_blur] and [apply_image_enhancement] *)

Lemma well_formed_paste (O : ImageOps) (bkg img : Bitmap) (box : Z * Z) :
  well_formed bkg -> same_mode bkg img = true ->
  well_formed (paste O bkg img box) /\ size (paste O bkg img box) = size bkg.
Proof.
  destruct bkg as [[bw bh] bpx], img as [[iw ih] ipx], box as [ox oy].
  unfold well_formed, width, height, pixel_count, same_mode, paste.
  cbn [size pixels fst snd]. intros (Hw & Hh & Hlen) Hmode.
  destruct bpx, ipx; try discriminate; cbn [size pixels fst snd];
    unfold paste_data; rewrite length_tabulate; repeat split; lia.
Qed.

Lemma pixel_at_paste (O : ImageOps) (bkg img : Bitmap) (ox oy x y : Z) :
  same_mode bkg img = true ->
  0 <= x < width bkg -> 0 <= y < height bkg ->
  pixel_at (paste O bkg img (ox, oy)) x y
  = if (ox <=? x) && (x <? ox + width img) && (oy <=? y) && (y <? oy + height img)
    then pixel_at img (x - ox) (y - oy)
    else pixel_at bkg x y.
Proof.
  destruct bkg as [[bw bh] bpx], img as [[iw ih] ipx].
  unfold width, height, same_mode, paste, pixel_at.
  cbn [size pixels fst snd]. intros Hmode Hx Hy.
  destruct bpx, ipx; try discriminate; cbn [size pixels fst snd width height];
    unfold paste_data; rewrite getpixel_tabulate by done;
    by destruct ((ox <=? x) && (x <? ox + iw) && (oy <=? y) && (y <? oy + ih)).
Qed.

(** X12.  When the background (fitted, then blurred) has the requested
    size and the contained foreground fits inside it, [pad_image_blur]
    returns a bitmap of the requested size in which the foreground sits
    centred: both margins are non-negative, the right and bottom margins
    exceed the left and top ones by at most one pixel, every pixel inside
    the centred box is the foreground's and every pixel outside it is the
    blurred background's. *)
Theorem pad_image_blur_centred (O : ImageOps) (img : Bitmap) (dimensions : Z * Z)
    (fitted bkg fg : Bitmap) :
  fit O img dimensions = Ok fitted ->
  box_blur O fitted 8 = Ok bkg ->
  contain O img dimensions = Ok fg ->
  well_formed bkg -> size bkg = dimensions -> same_mode bkg fg = true ->
  width fg <= fst dimensions -> height fg <= snd dimensions ->
  let left := (fst dimensions - width fg) `div` 2 in
  let top := (snd dimensions - height fg) `div` 2 in
  exists out,
    pad_image_blur O img dimensions = Ok out /\
    well_formed out /\ size out = dimensions /\
    (0 <= left /\ left <= fst dimensions - width fg - left <= left + 1) /\
    (0 <= top /\ top <= snd dimensions - height fg - top <= top + 1) /\
    forall x y, 0 <= x < fst dimensions -> 0 <= y < snd dimensions ->
      pixel_at out x y
      = if (left <=? x) && (x <? left + width fg) && (top <=? y) && (y <? top + height fg)
        then pixel_at fg (x - left) (y - top)
        else pixel_at bkg x y.
Proof.
  intros Hfit Hblur Hcontain Hwf Hsize Hmode Hfw Hfh left top.
  unfold pad_image_blur. rewrite Hfit. cbn [rbind]. rewrite Hblur. cbn [rbind].
  rewrite Hcontain. cbn [rbind]. fold (width fg) (height fg). fold left top.
  eexists. split; [reflexivity|].
  destruct (well_formed_paste O bkg fg (left, top) Hwf Hmode) as [Hwf' Hsize'].
  split; [done|]. split; [congruence|].
  split.
  { subst left. pose proof (Z.div_mod (fst dimensions - width fg) 2 ltac:(lia)).
    pose proof (Z.mod_pos_bound (fst dimensions - width fg) 2 ltac:(lia)). lia. }
  split.
  { subst top. pose proof (Z.div_mod (snd dimensions - height fg) 2 ltac:(lia)).
    pose proof (Z.mod_pos_bound (snd dimensions - height fg) 2 ltac:(lia)). lia. }
  intros x y Hx Hy. apply pixel_at_paste; [done|..];
    unfold width, height; rewrite Hsize; done.
Qed.

Lemma pad_image_blur_centred_witness :
  exists out,
    pad_image_blur sample_ops sample_grey (4, 1) = Ok out /\
    well_formed out /\ size out = (4, 1) /\
    pixel_at out 0 0 = PxL x10 /\ pixel_at out 1 0 = PxL x10 /\
    pixel_at out 2 0 = PxL x20 /\ pixel_at out 3 0 = PxL x00.
Proof.
  assert (Hwf : well_formed (mk_bitmap (4, 1) (ModeL [x10; x20; x00; x00])))
    by (unfold well_formed, width, height; cbn; lia).
  destruct (pad_image_blur_centred sample_ops sample_grey (4, 1)
              (mk_bitmap (4, 1) (ModeL [x10; x20; x00; x00]))
              (mk_bitmap (4, 1) (ModeL [x10; x20; x00; x00]))
              sample_grey
              eq_refl eq_refl eq_refl Hwf eq_refl eq_refl
              ltac:(vm_compute; discriminate) ltac:(vm_compute; discriminate))
    as (out & Hout & Hwf' & Hsize & _ & _ & Hpx).
  exists out. split; [exact Hout|]. split; [exact Hwf'|]. split; [exact Hsize|].
  rewrite !Hpx by (cbn; lia). repeat split.
Defined.

Lemma float_one_eqb : SFeqb float_one float_one = true.
Proof. reflexivity. Qed.

(** X13.  A setting that is missing counts as the factor 1.0, and a
    stage whose factor is 1.0 returns its input: with no setting, or with
    every present setting equal to 1.0, [apply_image_enhancement] returns
    the image it was given, provided no enhancer fails on it. *)
Theorem apply_image_enhancement_default (E : ImageEnhance) (img : Bitmap)
    (image_settings : gmap string PyFloat.float) :
  (forall kind, exists d, degenerate E kind img = Ok d) ->
  (forall key factor,
     key ∈ ["brightness"; "contrast"; "saturation"; "sharpness"] ->
     image_settings !! key = Some factor -> factor = float_one) ->
  apply_image_enhancement E img image_settings = Ok img.
Proof.
  intros Hdeg Hone.
  assert (Hset : forall key,
            key ∈ ["brightness"; "contrast"; "saturation"; "sharpness"] ->
            setting image_settings key = float_one).
  { intros key Hkey. unfold setting.
    destruct (image_settings !! key) as [factor|] eqn:Hk; [|reflexivity].
    cbn. by apply (Hone key). }
  assert (Hstage : forall kind, enhance E kind img float_one = Ok img).
  { intros kind. unfold enhance. destruct (Hdeg kind) as [d ->]. reflexivity. }
  unfold apply_image_enhancement.
  rewrite !Hset by (apply list_elem_of_In; simpl; auto).
  repeat (rewrite Hstage; cbn [rbind]). reflexivity.
Qed.

Lemma apply_image_enhancement_default_witness :
  apply_image_enhancement sample_enhance sample_grey
    {[ "contrast" := float_one; "dither" := S754_zero false ]}
  = Ok sample_grey.
Proof.
  apply apply_image_enhancement_default.
  - intros kind. by eexists.
  - intros key factor Hkey Hlook.
    apply list_elem_of_In in Hkey. simpl in Hkey.
    destruct Hkey as [<-|[<-|[<-|[<-|[]]]]]; vm_compute in Hlook;
      by inversion Hlook.
Defined.

(** ** [resize_image]: the crop box

    Each rounding of binary64 moves a value by at most one part in [2^52];
    followed through the divisions, the product and the truncation of
    [resize_image], this bounds the crop box. *)

Module FloatBounds.
Import PyFloat.

Lemma round_enclosure (s : bool) (m e : Z) (l : location) :
  0 < m -> 53 <= Zdigits2 m -> -1021 <= Zdigits2 m + e -> Zdigits2 m + e <= 1023 ->
  exists m' e',
    binary_round_aux prec emax s m e l = S754_finite s m' e' /\
    Zpos (digits2_pos m') = 53 /\
    Zdigits2 m + e <= e' + 53 <= Zdigits2 m + e + 1 /\
    e <= e' /\
    (m + 1) * (2 ^ 52 - 1) <= Zpos m' * 2 ^ (e' - e) * 2 ^ 52 /\
    Zpos m' * 2 ^ (e' - e) * 2 ^ 52 <= m * (2 ^ 52 + 1).
Proof.
  intros Hm Hd Hlo Hhi. unfold binary_round_aux, shr_fexp.
  rewrite FloatFacts.fexp_normal by done.
  set (d := Zdigits2 m) in *.
  assert (Hb : 2 ^ (d - 1) <= m /\ m < 2 ^ d).
  { destruct m as [|p|p]; try lia. apply FloatFacts.digits2_pos_bounds. }
  destruct (FloatFacts.shr_spec (shr_record_of_loc m l) e (d + e - 53 - e)) as [Hm1 He1].
  { rewrite FloatFacts.shr_record_of_loc_m. lia. }
  { lia. }
  destruct (shr (shr_record_of_loc m l) e (d + e - 53 - e)) as [r1 e1].
  cbn [fst snd] in Hm1, He1. rewrite FloatFacts.shr_record_of_loc_m in Hm1.
  replace (d + e - 53 - e) with (d - 53) in Hm1, He1 by lia.
  set (k := d - 53) in *.
  assert (Hk : 0 <= k) by (unfold k; lia).
  assert (Hpk : 0 < 2 ^ k) by (apply Z.pow_pos_nonneg; lia).
  assert (Hkm : 2 ^ k * 2 ^ 52 <= m).
  { rewrite <- Z.pow_add_r by lia. replace (k + 52) with (d - 1) by (unfold k; lia). lia. }
  assert (Hkd : m < 2 ^ k * 2 ^ 53).
  { rewrite <- Z.pow_add_r by lia. replace (k + 53) with d by (unfold k; lia). lia. }
  pose proof (Z.div_mod m (2 ^ k) ltac:(lia)) as Hdm.
  pose proof (Z.mod_pos_bound m (2 ^ k) ltac:(lia)) as Hmod.
  assert (Hr1 : 2 ^ 52 <= shr_m r1 < 2 ^ 53).
  { rewrite Hm1. split.
    - apply Z.div_le_lower_bound; lia.
    - apply Z.div_lt_upper_bound; lia. }
  pose proof (FloatFacts.round_nearest_even_bounds (shr_m r1) (loc_of_shr_record r1)) as Hr2.
  set (m2 := round_nearest_even (shr_m r1) (loc_of_shr_record r1)) in *.
  assert (Hlow : (m + 1) * (2 ^ 52 - 1) <= m2 * 2 ^ k * 2 ^ 52).
  { rewrite Hm1 in Hr2. nia. }
  assert (Hupp : m2 * 2 ^ k * 2 ^ 52 <= m * (2 ^ 52 + 1)).
  { rewrite Hm1 in Hr2. nia. }
  destruct (FloatFacts.Zdigits2_53_or_54 m2) as [[Hd2 Hlt]|[Hd2 Heq]]; [lia| |].
  - rewrite Hd2, FloatFacts.fexp_normal by lia.
    replace (53 + e1 - 53 - e1) with 0 by lia. cbn [shr shr_record_of_loc shr_m].
    destruct m2 as [|p2|p2]; try lia.
    replace (e1 <=? emax - prec) with true by (unfold emax, prec; lia).
    exists p2, e1. cbn [Zdigits2] in Hd2. split; [done|]. split; [done|].
    split; [lia|]. split; [lia|].
    replace (e1 - e) with k by lia. done.
  - rewrite Hd2, FloatFacts.fexp_normal by lia.
    replace (54 + e1 - 53 - e1) with 1 by lia. rewrite Heq.
    cbn [shr shr_record_of_loc shr_m SpecFloat.iter_pos].
    replace (e1 + 1 <=? emax - prec) with true by (unfold emax, prec; lia).
    cbn -[Z.pow Z.mul Z.add Z.sub digits2_pos]. eexists _, _. split; [reflexivity|].
    split; [reflexivity|]. split; [lia|]. split; [lia|].
    replace (e1 + 1 - e) with (Z.succ k) by lia. rewrite Z.pow_succ_r by lia.
    rewrite Heq in Hlow, Hupp. lia.
Qed.


Lemma two_pow_pos (e : Z) : (0 < 2 ^ e)%Q.
Proof. apply Qpower_0_lt. reflexivity. Qed.

Lemma two_pow_add (a b : Z) : (2 ^ (a + b) == 2 ^ a * 2 ^ b)%Q.
Proof. apply Qpower_plus. discriminate. Qed.

Lemma two_pow_inject (k : Z) : 0 <= k -> (2 ^ k == inject_Z (2 ^ k))%Q.
Proof. intros Hk. rewrite Zpower_Qpower by done. reflexivity. Qed.

Lemma value_shift (m : positive) (e e0 : Z) :
  e0 <= e ->
  (value (S754_finite false m e) == inject_Z (Zpos m * 2 ^ (e - e0)) * 2 ^ e0)%Q.
Proof.
  intros He. cbn [value].
  replace e with ((e - e0) + e0) at 1 by lia.
  rewrite two_pow_add, two_pow_inject, inject_Z_mult by lia. ring.
Qed.

Lemma value_pos (lo hi : Z) (x : float) : normal false lo hi x -> (0 < value x)%Q.
Proof.
  intros (m & e & -> & _ & _). cbn [value].
  apply Qmult_lt_0_compat; [|apply two_pow_pos].
  change 0%Q with (inject_Z 0). rewrite <- Zlt_Qlt. lia.
Qed.

(** Rounding moves a value by at most one part in [2^52]. *)
Lemma round_value (m e : Z) (l : location) :
  0 < m -> 53 <= Zdigits2 m -> -1021 <= Zdigits2 m + e -> Zdigits2 m + e <= 1023 ->
  exists r,
    binary_round_aux prec emax false m e l = r /\
    normal false (Zdigits2 m + e) (Zdigits2 m + e + 1) r /\
    (inject_Z (m + 1) * 2 ^ e * 4503599627370495 <= value r * 4503599627370496)%Q /\
    (value r * 4503599627370496 <= inject_Z m * 2 ^ e * 4503599627370497)%Q.
Proof.
  intros Hm Hd Hlo Hhi.
  destruct (round_enclosure false m e l Hm Hd Hlo Hhi)
    as (m' & e' & -> & Hd' & He' & Hee & Hl & Hu).
  eexists. split; [reflexivity|]. split; [exists m', e'; done|].
  rewrite (value_shift m' e' e Hee).
  pose proof (two_pow_pos e) as Hp.
  rewrite Zle_Qle in Hl, Hu.
  rewrite !inject_Z_mult in Hl, Hu.
  change (inject_Z (2 ^ 52)) with 4503599627370496%Q in Hl, Hu.
  change (inject_Z (2 ^ 52 - 1)) with 4503599627370495%Q in Hl.
  change (inject_Z (2 ^ 52 + 1)) with 4503599627370497%Q in Hu.
  rewrite inject_Z_mult.
  set (a := inject_Z (Zpos m')) in *. set (b := inject_Z (2 ^ (e' - e))) in *.
  set (c := inject_Z (m + 1)) in *. set (c' := inject_Z m) in *.
  set (p := (2 ^ e)%Q) in *.
  split; nra.
Qed.


Lemma SFdiv_value (mx : positive) (ex : Z) (my : positive) (ey : Z) :
  -1021 <= mag mx ex - mag my ey -> mag mx ex - mag my ey <= 1022 ->
  exists r,
    SFdiv prec emax (S754_finite false mx ex) (S754_finite false my ey) = r /\
    normal false (mag mx ex - mag my ey) (mag mx ex - mag my ey + 2) r /\
    (value (S754_finite false mx ex) * 4503599627370495
     <= value r * value (S754_finite false my ey) * 4503599627370496)%Q /\
    (value r * value (S754_finite false my ey) * 4503599627370496
     <= value (S754_finite false mx ex) * 4503599627370497)%Q.
Proof.
  unfold mag. intros Hlo Hhi. cbn [SFdiv xorb]. unfold SFdiv_core_binary. cbn [Zdigits2].
  set (dx := Zpos (digits2_pos mx)) in *. set (dy := Zpos (digits2_pos my)) in *.
  rewrite FloatFacts.fexp_normal by lia.
  set (e' := Z.min (dx + ex - (dy + ey) - 53) (ex - ey)).
  set (sh := ex - ey - e').
  assert (Hsh : 0 <= sh /\ dy - dx + 53 <= sh) by (unfold sh, e'; lia).
  set (m' := match sh with Z.pos _ => Z.shiftl (Z.pos mx) sh | 0 => Z.pos mx | Z.neg _ => 0 end).
  assert (Hm' : m' = Zpos mx * 2 ^ sh).
  { unfold m'. destruct sh as [|p|p] eqn:E; [lia| |lia].
    rewrite Z.shiftl_mul_pow2 by lia. reflexivity. }
  pose proof (Z_div_mod m' (Zpos my) eq_refl) as Hdm.
  destruct (Z.div_eucl m' (Z.pos my)) as [q r]. destruct Hdm as [Hq Hr].
  pose proof (FloatFacts.digits2_pos_bounds mx) as [Hxl Hxh]. fold dx in Hxl, Hxh.
  pose proof (FloatFacts.digits2_pos_bounds my) as [Hyl Hyh]. fold dy in Hyl, Hyh.
  set (K := dx + sh - dy - 1).
  assert (HK : 52 <= K) by (unfold K; lia).
  assert (Hrel : 2 ^ K * (2 * 2 ^ (dy - 1)) = 2 ^ (dx - 1) * 2 ^ sh).
  { rewrite <- FloatFacts.pow2_split by lia. rewrite <- !Z.pow_add_r by lia.
    f_equal. unfold K. lia. }
  rewrite (FloatFacts.pow2_split dx) in Hxh by lia.
  rewrite (FloatFacts.pow2_split dy) in Hyh by lia.
  assert (HS : 0 < 2 ^ sh) by (apply Z.pow_pos_nonneg; lia).
  assert (HKp : 0 < 2 ^ K) by (apply Z.pow_pos_nonneg; lia).
  assert (HA : 0 < 2 ^ (dx - 1)) by (apply Z.pow_pos_nonneg; lia).
  assert (HB : 0 < 2 ^ (dy - 1)) by (apply Z.pow_pos_nonneg; lia).
  assert (Hql : 2 ^ K <= q).
  { destruct (Z.le_gt_cases (2 ^ K) q); [done|]. exfalso.
    assert (m' < Z.pos my * 2 ^ K) by nia. nia. }
  assert (Hqh : q < 2 ^ (K + 2)).
  { replace (K + 2) with (Z.succ (Z.succ K)) by lia. rewrite !Z.pow_succ_r by lia.
    destruct (Z.le_gt_cases (2 * (2 * 2 ^ K)) q); [|done]. exfalso. nia. }
  assert (Hq0 : 0 < q) by lia.
  assert (Hdl : K + 1 <= Zdigits2 q).
  { apply FloatFacts.Zdigits2_ge; [done|]. replace (K + 1 - 1) with K by lia. done. }
  assert (Hdh : Zdigits2 q <= K + 2) by (apply FloatFacts.Zdigits2_le; [done|lia|done]).
  assert (Hse : sh + e' = ex - ey) by (unfold sh; lia).
  match goal with
  | |- context [binary_round_aux _ _ _ _ _ ?l] =>
      destruct (round_value q e' l) as (res & -> & Hn & Hl & Hu); [unfold K in *; lia..|]
  end.
  eexists. split; [reflexivity|].
  split; [eapply FloatFacts.normal_weaken; [exact Hn|..]; unfold K in *; lia|].
  assert (Hvx : (value (S754_finite false mx ex)
                 == inject_Z m' * 2 ^ e' * 2 ^ ey)%Q).
  { cbn [value]. replace ex with (sh + (e' + ey)) by lia.
    rewrite !two_pow_add, (two_pow_inject sh), Hm', inject_Z_mult by lia. ring. }
  rewrite Hvx. cbn [value].
  assert (H1 : (inject_Z q * inject_Z (Zpos my) <= inject_Z m')%Q).
  { rewrite <- inject_Z_mult, <- Zle_Qle. lia. }
  assert (H2 : (inject_Z m' <= inject_Z (q + 1) * inject_Z (Zpos my))%Q).
  { rewrite <- inject_Z_mult, <- Zle_Qle. lia. }
  assert (Hy : (0 < inject_Z (Zpos my))%Q).
  { change 0%Q with (inject_Z 0). rewrite <- Zlt_Qlt. lia. }
  pose proof (two_pow_pos e') as Hp. pose proof (two_pow_pos ey) as Ht.
  set (A := inject_Z q) in *. set (A1 := inject_Z (q + 1)) in *.
  set (B := inject_Z (Zpos my)) in *. set (C := inject_Z m') in *.
  set (p := (2 ^ e')%Q) in *. set (t := (2 ^ ey)%Q) in *.
  set (v := value res) in *.
  assert (Hbt : (0 < B * t)%Q) by nra.
  assert (Hpt : (0 < p * t)%Q) by nra.
  split.
  - apply Qle_trans with (A1 * p * 4503599627370495 * (B * t))%Q; [|nra].
    assert (C * (p * t) <= A1 * B * (p * t))%Q by nra. nra.
  - apply Qle_trans with (A * p * 4503599627370497 * (B * t))%Q; [nra|].
    assert (A * B * (p * t) <= C * (p * t))%Q by nra. nra.
Qed.

Lemma SFmul_value (mx : positive) (ex : Z) (my : positive) (ey : Z) :
  54 <= Zpos (digits2_pos mx) + Zpos (digits2_pos my) ->
  -1020 <= mag mx ex + mag my ey -> mag mx ex + mag my ey <= 1023 ->
  exists r,
    SFmul prec emax (S754_finite false mx ex) (S754_finite false my ey) = r /\
    normal false (mag mx ex + mag my ey - 1) (mag mx ex + mag my ey + 1) r /\
    (value (S754_finite false mx ex) * value (S754_finite false my ey) * 4503599627370495
     <= value r * 4503599627370496)%Q /\
    (value r * 4503599627370496
     <= value (S754_finite false mx ex) * value (S754_finite false my ey)
        * 4503599627370497)%Q.
Proof.
  unfold mag. intros Hd Hlo Hhi. cbn [SFmul xorb].
  set (dx := Zpos (digits2_pos mx)) in *. set (dy := Zpos (digits2_pos my)) in *.
  pose proof (FloatFacts.digits2_pos_bounds mx) as [Hxl Hxh]. fold dx in Hxl, Hxh.
  pose proof (FloatFacts.digits2_pos_bounds my) as [Hyl Hyh]. fold dy in Hyl, Hyh.
  assert (HA : 0 < 2 ^ (dx - 1)) by (apply Z.pow_pos_nonneg; lia).
  assert (HB : 0 < 2 ^ (dy - 1)) by (apply Z.pow_pos_nonneg; lia).
  assert (Hdl : dx + dy - 1 <= Zdigits2 (Zpos (mx * my))).
  { apply FloatFacts.Zdigits2_ge; [lia|].
    replace (dx + dy - 1 - 1) with ((dx - 1) + (dy - 1)) by lia.
    rewrite Z.pow_add_r, Pos2Z.inj_mul by lia. nia. }
  assert (Hdh : Zdigits2 (Zpos (mx * my)) <= dx + dy).
  { apply FloatFacts.Zdigits2_le; [lia|lia|]. rewrite Z.pow_add_r, Pos2Z.inj_mul by lia. nia. }
  destruct (round_value (Zpos (mx * my)) (ex + ey) loc_Exact)
    as (res & -> & Hn & Hl & Hu); [lia..|].
  eexists. split; [reflexivity|].
  split; [eapply FloatFacts.normal_weaken; [exact Hn|..]; lia|].
  cbn [value]. rewrite two_pow_add in Hl, Hu.
  rewrite inject_Z_plus in Hl. rewrite Pos2Z.inj_mul, inject_Z_mult in Hl, Hu.
  pose proof (two_pow_pos ex) as Hp. pose proof (two_pow_pos ey) as Ht.
  assert (Hp' : (0 < 2 ^ ex * 2 ^ ey)%Q) by nra.
  change (inject_Z 1) with 1%Q in Hl.
  set (A := inject_Z (Zpos mx)) in *. set (B := inject_Z (Zpos my)) in *.
  set (p := (2 ^ ex)%Q) in *. set (t := (2 ^ ey)%Q) in *.
  set (v := value res) in *.
  split; nra.
Qed.

Lemma of_int_value (z : Z) :
  0 < z -> Zdigits2 z <= 1023 ->
  exists x,
    of_int z = Ok x /\ normal false (Zdigits2 z) (Zdigits2 z + 1) x /\
    (inject_Z z * 4503599627370495 <= value x * 4503599627370496)%Q /\
    (value x * 4503599627370496 <= inject_Z z * 4503599627370497)%Q.
Proof.
  intros Hz Hd. destruct z as [|p|p]; try lia. cbn [Zdigits2] in *.
  unfold of_int. cbn [binary_normalize]. unfold binary_round.
  set (d := Zpos (digits2_pos p)) in *.
  pose proof (FloatFacts.digits2_pos_bounds p) as [Hl Hh]. fold d in Hl, Hh.
  rewrite FloatFacts.fexp_normal by lia. unfold shl_align.
  assert (Hone : forall mz ez,
            Zpos mz = Zpos p * 2 ^ (- ez) -> ez <= 0 -> 53 <= Zpos (digits2_pos mz) ->
            Zpos (digits2_pos mz) + ez = d ->
            exists x,
              (if is_finite (binary_round_aux prec emax false (Zpos mz) ez loc_Exact)
               then Ok (binary_round_aux prec emax false (Zpos mz) ez loc_Exact)
               else Raise (mk_exc OverflowError "int too large to convert to float"))
              = Ok x /\
              normal false d (d + 1) x /\
              (inject_Z (Zpos p) * 4503599627370495 <= value x * 4503599627370496)%Q /\
              (value x * 4503599627370496 <= inject_Z (Zpos p) * 4503599627370497)%Q).
  { intros mz ez Hv Hez Hdz Hmag.
    destruct (round_value (Zpos mz) ez loc_Exact) as (res & -> & Hn & Hlo & Hup);
      cbn [Zdigits2]; [lia..|].
    cbn [Zdigits2] in Hn. rewrite Hmag in Hn.
    destruct Hn as (m & e & -> & Hm & He). cbn [is_finite].
    eexists. split; [reflexivity|]. split; [exists m, e; done|].
    assert (Hvp : (inject_Z (Zpos mz) * 2 ^ ez == inject_Z (Zpos p) * (2 ^ (-ez) * 2 ^ ez))%Q).
    { rewrite Hv, inject_Z_mult, (two_pow_inject (- ez)) by lia. ring. }
    rewrite <- two_pow_add in Hvp. replace (- ez + ez) with 0 in Hvp by lia.
    change (2 ^ 0)%Q with 1%Q in Hvp.
    rewrite inject_Z_plus in Hlo. change (inject_Z 1) with 1%Q in Hlo.
    pose proof (two_pow_pos ez) as Hp.
    set (A := inject_Z (Zpos p)) in *. set (B := inject_Z (Zpos mz)) in *.
    set (t := (2 ^ ez)%Q) in *. set (v := value (S754_finite false m e)) in *.
    assert (Hpz : (0 < B)%Q).
    { unfold B. change 0%Q with (inject_Z 0). rewrite <- Zlt_Qlt. lia. }
    split; nra. }
  destruct (d + 0 - 53 - 0) as [|k|k] eqn:E.
  - apply Hone; cbn; fold d; lia.
  - apply Hone; cbn; fold d; lia.
  - assert (Hk : Zpos k = 53 - d) by lia.
    assert (Hdk : Zpos (digits2_pos (Pos.iter xO p k)) = 53).
    { apply FloatFacts.digits2_pos_unique; rewrite FloatFacts.iter_xO_pow, Hk.
      - replace (53 - 1) with ((d - 1) + (53 - d)) by lia. rewrite Z.pow_add_r by lia.
        apply Z.mul_le_mono_nonneg_r; [apply Z.pow_nonneg|]; lia.
      - replace 53 with (d + (53 - d)) at 2 by lia. rewrite Z.pow_add_r by lia.
        apply Z.mul_lt_mono_pos_r; [apply Z.pow_pos_nonneg|]; lia. }
    unfold shift_pos. apply Hone; [|lia|lia|lia].
    rewrite FloatFacts.iter_xO_pow. f_equal. f_equal. lia.
Qed.


Lemma int_truediv_value (a b : Z) :
  0 < a -> 0 < b -> -1021 <= Zdigits2 a - Zdigits2 b -> Zdigits2 a - Zdigits2 b <= 1022 ->
  exists x,
    int_truediv a b = Ok x /\
    normal false (Zdigits2 a - Zdigits2 b) (Zdigits2 a - Zdigits2 b + 2) x /\
    (inject_Z a * 4503599627370495 <= value x * inject_Z b * 4503599627370496)%Q /\
    (value x * inject_Z b * 4503599627370496 <= inject_Z a * 4503599627370497)%Q.
Proof.
  intros Ha Hb Hlo Hhi. unfold int_truediv.
  destruct (Z.eqb_spec b 0); [lia|].
  destruct a as [|pa|pa], b as [|pb|pb]; try lia. cbn [exact Zdigits2] in *.
  destruct (SFdiv_value pa 0 pb 0) as (r & -> & Hn & Hl & Hu);
    [unfold mag; lia..|].
  unfold mag in Hn. rewrite !Z.add_0_r in Hn.
  destruct Hn as (m & e & -> & Hm & He). cbn [is_finite].
  eexists. split; [reflexivity|]. split; [exists m, e; done|].
  cbn [value] in Hl, Hu |- *. change (2 ^ 0)%Q with 1%Q in Hl, Hu.
  rewrite !Qmult_1_r in Hl, Hu. done.
Qed.

Lemma SFltb_value (lo hi lo' hi' : Z) (x y : float) :
  normal false lo hi x -> normal false lo' hi' y ->
  if SFltb x y then (value x < value y)%Q else (value y <= value x)%Q.
Proof.
  intros (m1 & e1 & -> & Hd1 & _) (m2 & e2 & -> & Hd2 & _).
  pose proof (FloatFacts.digits2_pos_bounds m1) as [Hl1 Hh1].
  pose proof (FloatFacts.digits2_pos_bounds m2) as [Hl2 Hh2].
  rewrite Hd1 in Hl1, Hh1. rewrite Hd2 in Hl2, Hh2.
  unfold SFltb, SFcompare.
  destruct (Z.compare_spec e1 e2) as [->|Hlt|Hgt].
  - pose proof (two_pow_pos e2) as Hp. cbn [value].
    change (Pcompare m1 m2 Eq) with (Pos.compare m1 m2).
    destruct (Pos.compare_spec m1 m2) as [->|Hm|Hm].
    + apply Qle_refl.
    + apply Qmult_lt_compat_r; [done|]. rewrite <- Zlt_Qlt. lia.
    + apply Qmult_le_compat_r; [|lra]. rewrite <- Zle_Qle. lia.
  - rewrite (value_shift m2 e2 e1) by lia. cbn [value].
    apply Qmult_lt_compat_r; [apply two_pow_pos|]. rewrite <- Zlt_Qlt.
    assert (2 ^ 1 <= 2 ^ (e2 - e1)) by (apply Z.pow_le_mono_r; lia). nia.
  - rewrite (value_shift m1 e1 e2) by lia. cbn [value].
    apply Qmult_le_compat_r; [|pose proof (two_pow_pos e2); lra]. rewrite <- Zle_Qle.
    assert (2 ^ 1 <= 2 ^ (e1 - e2)) by (apply Z.pow_le_mono_r; lia). nia.
Qed.

Lemma to_int_value (lo hi : Z) (x : float) :
  normal false lo hi x ->
  exists n, to_int x = Ok n /\ 0 <= n /\
            (inject_Z n <= value x)%Q /\ (value x < inject_Z n + 1)%Q.
Proof.
  intros (m & e & -> & _ & _). cbn [to_int value]. eexists. split; [reflexivity|].
  destruct e as [|p|p].
  - rewrite Z.shiftl_0_r. change (2 ^ 0)%Q with 1%Q. split; [lia|]. split; lra.
  - rewrite Z.shiftl_mul_pow2 by lia. split; [lia|].
    rewrite inject_Z_mult, <- two_pow_inject by lia. split; lra.
  - rewrite Z.shiftr_div_pow2 by lia.
    assert (Hpp : 0 < 2 ^ Zpos p) by (apply Z.pow_pos_nonneg; lia).
    pose proof (Z.div_mod (Zpos m) (2 ^ Zpos p) ltac:(lia)) as Hdm.
    pose proof (Z.mod_pos_bound (Zpos m) (2 ^ Zpos p) ltac:(lia)) as Hmod.
    set (n := Zpos m / 2 ^ Zpos p) in *.
    split; [apply Z.div_pos; lia|].
    assert (Hinv : (2 ^ Zpos p * 2 ^ Zneg p == 1)%Q).
    { rewrite <- two_pow_add. replace (Z.pos p + Z.neg p) with 0 by lia. reflexivity. }
    rewrite (two_pow_inject (Zpos p)) in Hinv by lia.
    assert (H1 : (inject_Z n * inject_Z (2 ^ Zpos p) <= inject_Z (Zpos m))%Q).
    { rewrite <- inject_Z_mult, <- Zle_Qle. lia. }
    assert (H2 : (inject_Z (Zpos m) < (inject_Z n + 1) * inject_Z (2 ^ Zpos p))%Q).
    { change 1%Q with (inject_Z 1).
      rewrite <- inject_Z_plus, <- inject_Z_mult, <- Zlt_Qlt. lia. }
    pose proof (two_pow_pos (Zneg p)) as Ht.
    set (N := inject_Z n) in *. set (T := inject_Z (2 ^ Zpos p)) in *.
    set (M := inject_Z (Zpos m)) in *. set (t := (2 ^ Zneg p)%Q) in *.
    split.
    + apply Qle_trans with (N * T * t)%Q; [|nra].
      assert (N * T * t == N * (T * t))%Q as -> by ring. rewrite Hinv. lra.
    + apply Qlt_le_trans with ((N + 1) * T * t)%Q; [nra|].
      assert ((N + 1) * T * t == (N + 1) * (T * t))%Q as -> by ring. rewrite Hinv. lra.
Qed.

End FloatBounds.


Section Chains.
Local Open Scope Q_scope.
Local Abbreviation L := 4503599627370495.
Local Abbreviation P := 4503599627370496.
Local Abbreviation U := 4503599627370497.

Variables N vr vf vdr vir H W DW DH : Q.
Hypothesis HH : 0 < H.
Hypothesis HW : 0 < W.
Hypothesis HDW : 0 < DW.
Hypothesis HDH : 0 < DH.
Hypothesis Hvdr : 0 < vdr.
Hypothesis Hvir : 0 < vir.
Hypothesis Hvf : 0 < vf.
Hypothesis Hvr : 0 < vr.
Hypothesis HN : 0 <= N.
Hypothesis HNl : N <= vr.
Hypothesis HNu : vr < N + 1.
Hypothesis Hdl : DW * L <= vdr * DH * P.
Hypothesis Hdu : vdr * DH * P <= DW * U.

Lemma product_upper :
  vf * P <= H * U -> vr * P <= vf * vdr * U -> vr * (P * P) <= H * vdr * (U * U).
Proof.
  intros H1 H2.
  assert (vf * vdr * P <= H * vdr * U) by nra.
  nra.
Qed.

Lemma product_lower :
  H * L <= vf * P -> vf * vdr * L <= vr * P -> H * vdr * (L * L) <= vr * (P * P).
Proof.
  intros H1 H2.
  assert (H * vdr * L <= vf * vdr * P) by nra.
  nra.
Qed.

Lemma wide_inside :
  vf * P <= H * U -> vr * P <= vf * vdr * U ->
  vdr < vir -> vir * H * P <= W * U -> W <= 2147483648 ->
  N < W + 1.
Proof.
  intros H1 H2 Hc Hi Hb.
  pose proof (product_upper H1 H2) as Hp.
  assert (H3 : H * vdr * P <= W * U) by nra.
  assert (H4 : vr * (P * P * P) <= W * (U * U * U)) by nra.
  lra.
Qed.

Lemma wide_ratio :
  H * L <= vf * P -> vf * P <= H * U ->
  vf * vdr * L <= vr * P -> vr * P <= vf * vdr * U ->
  N * DH * 1125899906842624 <= H * DW * 1125899906842625 /\
  H * DW * 1125899906842623 < (N + 1) * DH * 1125899906842624.
Proof.
  intros H1 H2 H3 H4.
  pose proof (product_upper H2 H4) as Hu.
  pose proof (product_lower H1 H3) as Hl.
  assert (Hu1 : vr * DH * (P * P * P) <= H * DW * (U * U * U)).
  { assert (vr * (P * P) * (DH * P) <= H * vdr * (U * U) * (DH * P)) by nra.
    assert (H * (U * U) * (vdr * DH * P) <= H * (U * U) * (DW * U)) by nra.
    nra. }
  assert (Hl1 : H * DW * (L * L * L) <= vr * DH * (P * P * P)).
  { assert (H * vdr * (L * L) * (DH * P) <= vr * (P * P) * (DH * P)) by nra.
    assert (H * (L * L) * (DW * L) <= H * (L * L) * (vdr * DH * P)) by nra.
    nra. }
  assert (Hn1 : N * DH <= vr * DH) by nra.
  assert (Hn2 : vr * DH < (N + 1) * DH) by nra.
  assert (Hy : 0 < H * DW) by nra.
  set (X := N * DH) in *. set (X1 := (N + 1) * DH) in *.
  set (Y := H * DW) in *. set (Z := vr * DH) in *.
  split; lra.
Qed.

Lemma tall_upper :
  vf * P <= W * U -> vr * vdr * P <= vf * U -> vr * vdr * (P * P) <= W * (U * U).
Proof. intros H1 H2. nra. Qed.

Lemma tall_lower :
  W * L <= vf * P -> vf * L <= vr * vdr * P -> W * (L * L) <= vr * vdr * (P * P).
Proof. intros H1 H2. nra. Qed.

Lemma tall_inside :
  vf * P <= W * U -> vr * vdr * P <= vf * U ->
  vir <= vdr -> W * L <= vir * H * P -> H <= 2147483648 ->
  N < H + 1.
Proof.
  intros H1 H2 Hc Hi Hb.
  pose proof (tall_upper H1 H2) as Hp.
  assert (H3 : vr * vir <= vr * vdr) by nra.
  assert (H4 : vr * (W * L) <= vr * (vir * H * P)) by nra.
  assert (H5 : vr * vir * (H * P) <= vr * vdr * (H * P)) by nra.
  assert (H6 : W * (vr * L * P) <= W * (H * (U * U))).
  { assert (vr * vdr * (P * P) * H <= W * (U * U) * H) by nra. nra. }
  assert (H7 : vr * L * P <= H * (U * U)).
  { destruct (Qlt_le_dec (H * (U * U)) (vr * L * P)) as [Hlt|Hle]; [|exact Hle].
    exfalso. nra. }
  lra.
Qed.

Lemma tall_ratio :
  W * L <= vf * P -> vf * P <= W * U ->
  vf * L <= vr * vdr * P -> vr * vdr * P <= vf * U ->
  N * DW * 1125899906842624 <= W * DH * 1125899906842625 /\
  W * DH * 1125899906842623 < (N + 1) * DW * 1125899906842624.
Proof.
  intros H1 H2 H3 H4.
  pose proof (tall_upper H2 H4) as Hu.
  pose proof (tall_lower H1 H3) as Hl.
  assert (Hu1 : vr * DW * (L * P) <= W * DH * (U * U)).
  { assert (vr * (DW * L) <= vr * (vdr * DH * P)) by nra.
    assert (vr * vdr * (P * P) * DH <= W * (U * U) * DH) by nra.
    nra. }
  assert (Hl1 : W * DH * (L * L) <= vr * DW * (U * P)).
  { assert (vr * (vdr * DH * P) <= vr * (DW * U)) by nra.
    assert (W * (L * L) * DH <= vr * vdr * (P * P) * DH) by nra.
    nra. }
  assert (Hn1 : N * DW <= vr * DW) by nra.
  assert (Hn2 : vr * DW < (N + 1) * DW) by nra.
  assert (Hy : 0 < W * DH) by nra.
  set (X := N * DW) in *. set (X1 := (N + 1) * DW) in *.
  set (Y := W * DH) in *. set (Z := vr * DW) in *.
  split; lra.
Qed.

End Chains.

Lemma inject_Z_pos (z : Z) : 0 < z -> (0 < inject_Z z)%Q.
Proof. intros Hz. change 0%Q with (inject_Z 0). rewrite <- Zlt_Qlt. done. Qed.

Lemma inject_Z_dim (z : Z) : valid_dim z -> (inject_Z z <= 2147483648)%Q.
Proof.
  intros [_ Hz]. change 2147483648%Q with (inject_Z 2147483648).
  rewrite <- Zle_Qle. lia.
Qed.

(** The crop geometry on valid sizes: the box lies inside the source, one
    side is the source's and the other follows the target ratio. *)
Lemma resize_plan_geometry (iw ih : Z) (dw0 dh0 : pyval) (dw dh : Z)
    (settings : list string) :
  valid_dim iw -> valid_dim ih ->
  py_int dw0 = Ok dw -> py_int dh0 = Ok dh -> valid_dim dw -> valid_dim dh ->
  exists p wider,
    resize_plan (iw, ih) (dw0, dh0) settings = Ok (p, (dw, dh)) /\
    source_is_wider (iw, ih) (dw, dh) = Ok wider /\
    (0 <= x_offset p /\ 0 <= new_width p /\ x_offset p + new_width p <= iw) /\
    (0 <= y_offset p /\ 0 <= new_height p /\ y_offset p + new_height p <= ih) /\
    if wider then
      new_height p = ih /\
      new_width p * dh * 2 ^ 50 <= ih * dw * (2 ^ 50 + 1) /\
      ih * dw * (2 ^ 50 - 1) < (new_width p + 1) * dh * 2 ^ 50
    else
      new_width p = iw /\
      new_height p * dw * 2 ^ 50 <= iw * dh * (2 ^ 50 + 1) /\
      iw * dh * (2 ^ 50 - 1) < (new_height p + 1) * dw * 2 ^ 50.
Proof.
  intros Hiw Hih Edw Edh Hdw Hdh. unfold resize_plan, source_is_wider.
  cbn [fst snd]. rewrite Edw, Edh. cbn [rbind].
  pose proof (valid_dim_digits _ Hiw). pose proof (valid_dim_digits _ Hih).
  pose proof (valid_dim_digits _ Hdw). pose proof (valid_dim_digits _ Hdh).
  pose proof (proj1 Hiw) as Hiw0. pose proof (proj1 Hih) as Hih0.
  pose proof (inject_Z_pos iw (proj1 Hiw)) as HW.
  pose proof (inject_Z_pos ih (proj1 Hih)) as HH.
  pose proof (inject_Z_pos dw (proj1 Hdw)) as HDW.
  pose proof (inject_Z_pos dh (proj1 Hdh)) as HDH.
  destruct (FloatBounds.int_truediv_value iw ih) as (ir & -> & Hir & Hir_l & Hir_u);
    [unfold valid_dim in *; lia..|].
  destruct (FloatBounds.int_truediv_value dw dh) as (dr & -> & Hdr & Hdr_l & Hdr_u);
    [unfold valid_dim in *; lia..|].
  cbn [rbind].
  pose proof (FloatBounds.SFltb_value _ _ _ _ dr ir Hdr Hir) as Hcmp.
  pose proof (FloatBounds.value_pos _ _ _ Hir) as Hvir.
  pose proof (FloatBounds.value_pos _ _ _ Hdr) as Hvdr.
  unfold PyFloat.gt.
  destruct Hdr as (m2 & e2 & -> & Hm2 & He2).
  set (vdr := value (S754_finite false m2 e2)) in *.
  destruct (SFltb (S754_finite false m2 e2) ir).
  - destruct (FloatBounds.of_int_value ih) as (fh & -> & Hfh & Hf_l & Hf_u);
      [unfold valid_dim in *; lia..|].
    pose proof (FloatBounds.value_pos _ _ _ Hfh) as Hvf.
    destruct Hfh as (m1 & e1 & -> & Hm1 & He1).
    set (vf := value (S754_finite false m1 e1)) in *.
    cbn [rbind]. unfold PyFloat.mul.
    destruct (FloatBounds.SFmul_value m1 e1 m2 e2) as (pr & -> & Hpr & Hp_l & Hp_u);
      [unfold PyFloat.mag; lia..|].
    fold vf vdr in Hp_l, Hp_u.
    pose proof (FloatBounds.value_pos _ _ _ Hpr) as Hvr.
    destruct (FloatBounds.to_int_value _ _ _ Hpr) as (n & -> & Hn0 & Hn_l & Hn_u).
    cbn [rbind]. eexists _, _. split; [reflexivity|]. split; [reflexivity|].
    cbn [x_offset y_offset new_width new_height].
    assert (HN : (0 <= inject_Z n)%Q).
    { change 0%Q with (inject_Z 0). rewrite <- Zle_Qle. done. }
    assert (Hin : n < iw + 1).
    { rewrite Zlt_Qlt, inject_Z_plus. change (inject_Z 1) with 1%Q.
      apply wide_inside with (vr := value pr) (vf := vf) (vdr := vdr) (vir := value ir)
                             (H := inject_Z ih); try assumption.
      by apply inject_Z_dim. }
    destruct (wide_ratio (inject_Z n) (value pr) vf vdr (inject_Z ih) (inject_Z dw)
                (inject_Z dh)) as [Hr1 Hr2]; try assumption.
    split; [destruct (negb _); [Z.div_mod_to_equations|]; lia|]. split; [lia|]. split; [done|].
    split.
    + rewrite Zle_Qle, !inject_Z_mult. exact Hr1.
    + rewrite Zlt_Qlt, !inject_Z_mult, inject_Z_plus. exact Hr2.
  - destruct (FloatBounds.of_int_value iw) as (fw & -> & Hfw & Hf_l & Hf_u);
      [unfold valid_dim in *; lia..|].
    pose proof (FloatBounds.value_pos _ _ _ Hfw) as Hvf.
    destruct Hfw as (m1 & e1 & -> & Hm1 & He1).
    set (vf := value (S754_finite false m1 e1)) in *.
    cbn [rbind]. unfold PyFloat.truediv. cbn [PyFloat.is_zero rbind].
    destruct (FloatBounds.SFdiv_value m1 e1 m2 e2) as (qr & -> & Hqr & Hq_l & Hq_u);
      [unfold PyFloat.mag; lia..|].
    fold vf vdr in Hq_l, Hq_u.
    pose proof (FloatBounds.value_pos _ _ _ Hqr) as Hvr.
    destruct (FloatBounds.to_int_value _ _ _ Hqr) as (n & -> & Hn0 & Hn_l & Hn_u).
    cbn [rbind]. eexists _, _. split; [reflexivity|]. split; [reflexivity|].
    cbn [x_offset y_offset new_width new_height].
    assert (HN : (0 <= inject_Z n)%Q).
    { change 0%Q with (inject_Z 0). rewrite <- Zle_Qle. done. }
    assert (Hin : n < ih + 1).
    { rewrite Zlt_Qlt, inject_Z_plus. change (inject_Z 1) with 1%Q.
      apply tall_inside with (vr := value qr) (vf := vf) (vdr := vdr) (vir := value ir)
                             (W := inject_Z iw); try assumption.
      by apply inject_Z_dim. }
    destruct (tall_ratio (inject_Z n) (value qr) vf vdr (inject_Z iw) (inject_Z dw)
                (inject_Z dh)) as [Hr1 Hr2]; try assumption.
    split; [lia|]. split; [destruct (negb _); [Z.div_mod_to_equations|]; lia|]. split; [done|].
    split.
    + rewrite Zle_Qle, !inject_Z_mult. exact Hr1.
    + rewrite Zlt_Qlt, !inject_Z_mult, inject_Z_plus. exact Hr2.
Qed.

Lemma pixel_at_crop (image cropped : Bitmap) (x0 y0 w h x y : Z) :
  crop image (x0, y0, x0 + w, y0 + h) = Ok cropped ->
  0 <= x < w -> 0 <= y < h ->
  size cropped = (w, h) /\ pixel_at cropped x y = pixel_at image (x0 + x) (y0 + y).
Proof.
  destruct image as [[iw ih] px]. unfold crop. cbn [size pixels].
  intros Hcrop Hx Hy.
  destruct (Z.ltb_spec (x0 + w) x0); [lia|].
  destruct (Z.ltb_spec (y0 + h) y0); [lia|].
  injection Hcrop as <-.
  replace (x0 + w - x0) with w by lia. replace (y0 + h - y0) with h by lia.
  split; [reflexivity|].
  unfold pixel_at, width, height. cbn [size pixels fst snd].
  destruct px; cbn [pixels]; unfold crop_data;
    replace (x0 + w - x0) with w by lia; replace (y0 + h - y0) with h by lia;
    by rewrite getpixel_tabulate.
Qed.

(** X14.  On a bitmap and a target with valid sizes, the box that
    [resize_image] crops lies inside the source: the offsets are not
    negative and the box ends at or before the right and bottom edges.  So
    the crop succeeds, has the planned size, each of its pixels is the
    source pixel at the offset position, never padding from outside the
    source, and the result is the crop resized to the target. *)
Theorem resize_image_crop_inside (P : Pillow) (image : Bitmap) (dw0 dh0 : pyval)
    (dw dh : Z) (settings : list string) :
  valid_dim (width image) -> valid_dim (height image) ->
  py_int dw0 = Ok dw -> py_int dh0 = Ok dh -> valid_dim dw -> valid_dim dh ->
  exists p cropped,
    resize_plan (size image) (dw0, dh0) settings = Ok (p, (dw, dh)) /\
    (0 <= x_offset p /\ x_offset p + new_width p <= width image) /\
    (0 <= y_offset p /\ y_offset p + new_height p <= height image) /\
    crop image (x_offset p, y_offset p,
                x_offset p + new_width p, y_offset p + new_height p) = Ok cropped /\
    size cropped = (new_width p, new_height p) /\
    (forall x y, 0 <= x < new_width p -> 0 <= y < new_height p ->
       (0 <= x_offset p + x < width image /\ 0 <= y_offset p + y < height image) /\
       pixel_at cropped x y = pixel_at image (x_offset p + x) (y_offset p + y)) /\
    resize_image P image (dw0, dh0) settings = resize P cropped (dw, dh).
Proof.
  intros Hiw Hih Edw Edh Hdw Hdh.
  destruct (resize_plan_geometry (width image) (height image) dw0 dh0 dw dh settings)
    as (p & wider & Hplan & _ & (Hx0 & Hw0 & Hx1) & (Hy0 & Hh0 & Hy1) & _); try done.
  assert (Hsize : size image = (width image, height image)) by (by destruct image as [[? ?] ?]).
  rewrite <- Hsize in Hplan.
  assert (Hcrop : exists cropped,
            crop image (x_offset p, y_offset p,
                        x_offset p + new_width p, y_offset p + new_height p) = Ok cropped).
  { unfold crop. destruct (size image).
    destruct (Z.ltb_spec (x_offset p + new_width p) (x_offset p)); [lia|].
    destruct (Z.ltb_spec (y_offset p + new_height p) (y_offset p)); [lia|].
    by eexists. }
  destruct Hcrop as [cropped Hcrop].
  exists p, cropped. split; [done|]. split; [lia|]. split; [lia|]. split; [done|].
  split.
  { unfold crop in Hcrop. destruct (size image).
    destruct (Z.ltb_spec (x_offset p + new_width p) (x_offset p)); [lia|].
    destruct (Z.ltb_spec (y_offset p + new_height p) (y_offset p)); [lia|].
    injection Hcrop as <-. cbn [size]. f_equal; lia. }
  split.
  { intros x y Hx Hy. split; [lia|].
    by destruct (pixel_at_crop image cropped (x_offset p) (y_offset p)
                   (new_width p) (new_height p) x y). }
  unfold resize_image. rewrite Hplan. cbn [rbind]. rewrite Hcrop. reflexivity.
Qed.

(** X15.  On valid sizes the crop keeps one side of the source and gives
    the other the target's aspect ratio to within one pixel.  When the
    source is wider than the target, the height is the source's and the
    width [w] satisfies [w <= r * (1 + 2^-50)] and [r * (1 - 2^-50) < w + 1]
    for the exact [r = img_height * desired_width / desired_height];
    otherwise the width is the source's and the height is bound in the same
    way to [img_width * desired_height / desired_width]. *)
Theorem resize_plan_follows_ratio (iw ih : Z) (dw0 dh0 : pyval) (dw dh : Z)
    (settings : list string) :
  valid_dim iw -> valid_dim ih ->
  py_int dw0 = Ok dw -> py_int dh0 = Ok dh -> valid_dim dw -> valid_dim dh ->
  exists p wider,
    resize_plan (iw, ih) (dw0, dh0) settings = Ok (p, (dw, dh)) /\
    source_is_wider (iw, ih) (dw, dh) = Ok wider /\
    if wider then
      new_height p = ih /\
      new_width p * dh * 2 ^ 50 <= ih * dw * (2 ^ 50 + 1) /\
      ih * dw * (2 ^ 50 - 1) < (new_width p + 1) * dh * 2 ^ 50
    else
      new_width p = iw /\
      new_height p * dw * 2 ^ 50 <= iw * dh * (2 ^ 50 + 1) /\
      iw * dh * (2 ^ 50 - 1) < (new_height p + 1) * dw * 2 ^ 50.
Proof.
  intros Hiw Hih Edw Edh Hdw Hdh.
  destruct (resize_plan_geometry iw ih dw0 dh0 dw dh settings)
    as (p & wider & Hplan & Hwider & _ & _ & Hratio); try done.
  by exists p, wider.
Qed.

(** ** Timeouts, degenerate targets and the shape of the digest *)

Lemma timeout_seconds_of_positive (z : Z) :
  0 < z < 2 ^ 1000 ->
  exists t,
    timeout_seconds_of (VInt z) = Ok (Some t) /\
    timeout_kwarg (Some t) = Some t /\
    (inject_Z z * 1125899906842623 <= value t * 1000 * 1125899906842624)%Q /\
    (value t * 1000 * 1125899906842624 <= inject_Z z * 1125899906842625)%Q.
Proof.
  intros [Hz0 Hz1].
  assert (Hd : 1 <= Zdigits2 z <= 1000).
  { split; [apply FloatFacts.Zdigits2_ge; [done|cbn; lia]|].
    apply FloatFacts.Zdigits2_le; [done|lia|done]. }
  unfold timeout_seconds_of, py_truthy, div_1000.
  destruct (Z.eqb_spec z 0) as [|_]; [lia|]. cbn [negb].
  destruct (FloatBounds.of_int_value z) as (x & -> & Hx & Hx_l & Hx_u); [lia..|].
  cbn [rbind]. pose proof (FloatBounds.value_pos _ _ _ Hx) as Hvx.
  destruct Hx as (m1 & e1 & -> & Hm1 & He1).
  set (vx := value (S754_finite false m1 e1)) in *.
  unfold PyFloat.truediv.
  change float_1000 with (S754_finite false 8796093022208000 (-43)).
  cbn [PyFloat.is_zero rbind].
  destruct (FloatBounds.SFdiv_value m1 e1 8796093022208000 (-43))
    as (t & -> & Ht & Ht_l & Ht_u); [unfold PyFloat.mag; cbn; lia..|].
  fold vx in Ht_l, Ht_u.
  assert (Hk : (value (S754_finite false 8796093022208000 (-43)) == 1000)%Q)
    by reflexivity.
  rewrite Hk in Ht_l, Ht_u.
  pose proof (FloatBounds.value_pos _ _ _ Ht) as Hvt.
  exists t. split; [reflexivity|]. split.
  { destruct Ht as (m & e & -> & _). reflexivity. }
  pose proof (inject_Z_pos z Hz0) as HZ.
  set (Z' := inject_Z z) in *. set (vt := value t) in *.
  split; lra.
Qed.

(** X16.  A positive integer [timeout_ms] is enforced: [timeout_seconds]
    is a positive double within a relative [2^-50] of [timeout_ms / 1000],
    it is truthy, and every browser command that [take_screenshot] spawns
    carries exactly that value as its [timeout] keyword. *)
Theorem take_screenshot_timeout_in_seconds (H : Host) (P : Pillow) (target : string)
    (dimensions : Z * Z) (z : Z) (w : World) :
  0 < z < 2 ^ 1000 ->
  exists t calls,
    timeout_seconds_of (VInt z) = Ok (Some t) /\
    (inject_Z z * 1125899906842623 <= value t * 1000 * 1125899906842624)%Q /\
    (value t * 1000 * 1125899906842624 <= inject_Z z * 1125899906842625)%Q /\
    spawned (snd (take_screenshot H P target dimensions (VInt z) w))
      = spawned w ++ calls /\
    Forall (fun call => snd call = Some t) calls.
Proof.
  intros Hz.
  destruct (timeout_seconds_of_positive z Hz) as (t & Hts & Hkw & Hl & Hu).
  destruct (take_screenshot_of_render H P target dimensions (VInt z) w)
    as (r & w' & _ & Hs & Hshot).
  destruct (render_spawned H P target dimensions (VInt z) (output_path ".png" w)
              (with_output ".png" w)) as (calls & Hcalls & Hc).
  exists t, calls. split; [done|]. split; [done|]. split; [done|].
  rewrite Hshot. cbn [snd]. rewrite Hs, Hcalls. split; [reflexivity|].
  apply Forall_forall. intros c Hin. destruct (Hc c Hin) as (ts & Hts' & ->).
  rewrite Hts in Hts'. injection Hts' as <-. exact Hkw.
Qed.

Lemma take_screenshot_timeout_in_seconds_witness :
  exists t calls,
    timeout_seconds_of (VInt 5000) = Ok (Some t) /\
    (inject_Z 5000 * 1125899906842623 <= value t * 1000 * 1125899906842624)%Q /\
    (value t * 1000 * 1125899906842624 <= inject_Z 5000 * 1125899906842625)%Q /\
    spawned (snd (take_screenshot failing_host sample_pillow "http://example.org"
                    (800, 480) (VInt 5000) empty_world))
      = spawned empty_world ++ calls /\
    Forall (fun call => snd call = Some t) calls.
Proof.
  apply (take_screenshot_timeout_in_seconds failing_host sample_pillow
           "http://example.org" (800, 480) 5000 empty_world).
  split; reflexivity.
Defined.

(** X17.  A target height that coerces to 0 (the integer 0, [False], a
    float of magnitude below 1) makes [resize_image] raise
    [ZeroDivisionError] on any bitmap with valid sizes, and so does a
    bitmap of height 0 with any coercible target: nothing is cropped or
    resized. *)
Theorem resize_image_zero_height (P : Pillow) (image : Bitmap) (dw0 dh0 : pyval)
    (dw dh : Z) (settings : list string) :
  py_int dw0 = Ok dw -> py_int dh0 = Ok dh ->
  height image = 0 \/ (valid_dim (width image) /\ valid_dim (height image) /\ dh = 0) ->
  resize_image P image (dw0, dh0) settings
  = Raise (mk_exc ZeroDivisionError "division by zero").
Proof.
  intros Edw Edh Hcase. destruct image as [[iw ih] px].
  unfold height, width in Hcase. cbn [size fst snd] in Hcase.
  unfold resize_image, resize_plan. cbn [size]. rewrite Edw, Edh. cbn [rbind].
  destruct Hcase as [->|(Hiw & Hih & ->)].
  - reflexivity.
  - pose proof (valid_dim_digits _ Hiw). pose proof (valid_dim_digits _ Hih).
    destruct (FloatFacts.int_truediv_normal iw ih) as (ir & -> & _);
      [unfold valid_dim in *; lia..|].
    reflexivity.
Qed.

Lemma resize_image_zero_height_witness :
  resize_image sample_pillow sample_grey (VInt 800, VFloat (S754_zero true)) []
  = Raise (mk_exc ZeroDivisionError "division by zero").
Proof.
  apply (resize_image_zero_height sample_pillow sample_grey (VInt 800)
           (VFloat (S754_zero true)) 800 0 []); [reflexivity|reflexivity|].
  right. split; [split; reflexivity|]. split; [split; reflexivity|reflexivity].
Defined.

Module SHA256Facts.
Import SHA256.

Lemma round_length (st : list Z) (kw : Z * Z) :
  length st = 8%nat -> length (round st kw) = 8%nat.
Proof.
  intros Hl. do 9 (destruct st as [|? st]; try discriminate Hl). reflexivity.
Qed.

Lemma fold_round_length (kws : list (Z * Z)) (st : list Z) :
  length st = 8%nat -> length (fold_left round kws st) = 8%nat.
Proof.
  revert st. induction kws as [|kw kws IH]; intros st Hl; [done|].
  cbn [fold_left]. apply IH. by apply round_length.
Qed.

Lemma compress_length (st block : list Z) :
  length st = 8%nat -> length (compress st block) = 8%nat.
Proof.
  intros Hl. unfold compress. rewrite length_zip_with, fold_round_length, Hl by done.
  reflexivity.
Qed.

Lemma fold_compress_length (blocks : list (list Z)) (st : list Z) :
  length st = 8%nat -> length (fold_left compress blocks st) = 8%nat.
Proof.
  revert st. induction blocks as [|b blocks IH]; intros st Hl; [done|].
  cbn [fold_left]. apply IH. by apply compress_length.
Qed.

Lemma be_bytes_length (k : nat) (x : Z) : length (be_bytes k x) = k.
Proof. induction k as [|k IH]; cbn [be_bytes length]; congruence. Qed.

Lemma be_bytes_range (k : nat) (x : Z) : Forall (fun b => 0 <= b < 256) (be_bytes k x).
Proof.
  induction k as [|k IH]; cbn [be_bytes]; constructor; [|done].
  apply Z.mod_pos_bound. lia.
Qed.

Lemma words_bytes_length (ws : list Z) :
  length (flat_map (be_bytes 4) ws) = (4 * length ws)%nat.
Proof.
  induction ws as [|x ws IH]; [done|].
  cbn [flat_map]. rewrite length_app, be_bytes_length, IH. cbn [length]. lia.
Qed.

Lemma words_bytes_range (ws : list Z) :
  Forall (fun b => 0 <= b < 256) (flat_map (be_bytes 4) ws).
Proof.
  induction ws as [|x ws IH]; [constructor|].
  cbn [flat_map]. apply Forall_app. split; [apply be_bytes_range|done].
Qed.

Lemma digest_length (msg : list Z) : length (digest msg) = 32%nat.
Proof.
  unfold digest. rewrite words_bytes_length, fold_compress_length; reflexivity.
Qed.

Lemma digest_range (msg : list Z) : Forall (fun b => 0 <= b < 256) (digest msg).
Proof. apply words_bytes_range. Qed.

Lemma hex_length (bs : list Z) : String.length (hex bs) = (2 * length bs)%nat.
Proof. induction bs as [|b bs IH]; [done|]. cbn [hex String.length length]. lia. Qed.

Lemma hex_digit_lower (n : Z) : 0 <= n < 16 -> is_lower_hex (hex_digit n) = true.
Proof.
  intros Hn.
  assert (Hnat : forall k : nat,
            (k < 16)%nat -> is_lower_hex (hex_digit (Z.of_nat k)) = true).
  { intros k Hk. do 16 (destruct k as [|k]; [reflexivity|]). lia. }
  rewrite <- (Z2Nat.id n) by lia. apply Hnat. lia.
Qed.

Lemma hex_lower (bs : list Z) :
  Forall (fun b => 0 <= b < 256) bs ->
  Forall (fun c => is_lower_hex c = true) (list_ascii_of_string (hex bs)).
Proof.
  induction 1 as [|b bs Hb _ IH]; [constructor|].
  cbn [hex list_ascii_of_string].
  constructor; [|constructor; [|done]]; apply hex_digit_lower.
  - split; [apply Z.div_pos; lia|apply Z.div_lt_upper_bound; lia].
  - apply Z.mod_pos_bound. lia.
Qed.

End SHA256Facts.

(** X18.  For every bitmap, [compute_image_hash] returns a string of
    exactly 64 characters, each a digit or a lower-case letter from [a] to
    [f]: the hexadecimal form of a 32-byte digest, whatever the mode and
    the size of the image. *)
Theorem compute_image_hash_format (image : Bitmap) :
  exists digest,
    compute_image_hash (Some image) = Ok digest /\
    String.length digest = 64%nat /\
    Forall (fun c => is_lower_hex c = true) (list_ascii_of_string digest).
Proof.
  eexists. split; [reflexivity|]. unfold SHA256.hexdigest. split.
  - rewrite SHA256Facts.hex_length, SHA256Facts.digest_length. reflexivity.
  - apply SHA256Facts.hex_lower, SHA256Facts.digest_range.
Qed.



(** ** Quarter turns compose *)

Section Turns.
Context {A : Type} (zero : A).

Lemma rotate_270_90 (w h : Z) (d : list A) :
  0 <= w -> 0 <= h -> Z.of_nat (length d) = w * h ->
  rotate_270_data zero h w (rotate_90_data zero w h d) = d.
Proof.
  intros Hw Hh Hd. unfold rotate_270_data, rotate_90_data.
  etransitivity; [|by apply (tabulate_getpixel zero w h d)].
  apply tabulate_ext. intros x y Hx Hy.
  rewrite getpixel_tabulate by lia. f_equal; lia.
Qed.

Lemma rotate_90_270 (w h : Z) (d : list A) :
  0 <= w -> 0 <= h -> Z.of_nat (length d) = w * h ->
  rotate_90_data zero h w (rotate_270_data zero w h d) = d.
Proof.
  intros Hw Hh Hd. unfold rotate_270_data, rotate_90_data.
  etransitivity; [|by apply (tabulate_getpixel zero w h d)].
  apply tabulate_ext. intros x y Hx Hy.
  rewrite getpixel_tabulate by lia. f_equal; lia.
Qed.

Lemma rotate_90_90 (w h : Z) (d : list A) :
  rotate_90_data zero h w (rotate_90_data zero w h d) = rotate_180_data zero w h d.
Proof.
  unfold rotate_180_data, rotate_90_data.
  apply tabulate_ext. intros x y Hx Hy.
  rewrite getpixel_tabulate by lia. f_equal; lia.
Qed.
End Turns.

Lemma transpose_270_90 (im : Bitmap) :
  well_formed im -> transpose (transpose im ROTATE_90) ROTATE_270 = im.
Proof.
  destruct im as [[w h] px]. unfold well_formed, width, height, pixel_count.
  cbn [size pixels fst snd]. intros (Hw & Hh & Hlen). unfold transpose. cbn [size pixels].
  destruct px as [d|d|d]; by rewrite rotate_270_90.
Qed.

Lemma transpose_90_270 (im : Bitmap) :
  well_formed im -> transpose (transpose im ROTATE_270) ROTATE_90 = im.
Proof.
  destruct im as [[w h] px]. unfold well_formed, width, height, pixel_count.
  cbn [size pixels fst snd]. intros (Hw & Hh & Hlen). unfold transpose. cbn [size pixels].
  destruct px as [d|d|d]; by rewrite rotate_90_270.
Qed.

Lemma transpose_90_90 (im : Bitmap) :
  transpose (transpose im ROTATE_90) ROTATE_90 = transpose im ROTATE_180.
Proof.
  destruct im as [[w h] px]. unfold transpose. cbn [size pixels].
  destruct px as [d|d|d]; by rewrite rotate_90_90.
Qed.

(** X20.  Turning a well-formed bitmap to ['vertical'] and the result to
    ['vertical'] inverted gives the bitmap back, pixel for pixel, and so
    does the opposite order; turning to ['vertical'] twice is the same as
    turning to ['horizontal'] inverted once. *)
Theorem change_orientation_round_trip (P : Pillow) (image : Bitmap) :
  well_formed image ->
  exists quarter three_quarters,
    change_orientation P image "vertical" false = Ok quarter /\
    change_orientation P image "vertical" true = Ok three_quarters /\
    change_orientation P quarter "vertical" true = Ok image /\
    change_orientation P three_quarters "vertical" false = Ok image /\
    change_orientation P quarter "vertical" false
    = change_orientation P image "horizontal" true.
Proof.
  intros Hwf.
  exists (transpose image ROTATE_90), (transpose image ROTATE_270).
  split; [reflexivity|]. split; [reflexivity|].
  destruct (change_orientation_cases P (transpose image ROTATE_90)) as (_ & Hq & _ & Hqi).
  destruct (change_orientation_cases P (transpose image ROTATE_270)) as (_ & Ht & _ & _).
  destruct (change_orientation_cases P image) as (_ & _ & Hhi & _).
  rewrite Hq, Hqi, Ht, Hhi.
  rewrite transpose_270_90, transpose_90_270, transpose_90_90 by done.
  done.
Qed.

Lemma change_orientation_round_trip_witness :
  exists quarter three_quarters,
    change_orientation sample_pillow sample_wide "vertical" false = Ok quarter /\
    change_orientation sample_pillow sample_wide "vertical" true = Ok three_quarters /\
    change_orientation sample_pillow quarter "vertical" true = Ok sample_wide /\
    change_orientation sample_pillow three_quarters "vertical" false = Ok sample_wide /\
    change_orientation sample_pillow quarter "vertical" false
    = change_orientation sample_pillow sample_wide "horizontal" true.
Proof.
  apply (change_orientation_round_trip sample_pillow sample_wide).
  unfold well_formed, width, height. cbn. lia.
Defined.

(** ** Runs of the model for the properties above *)



Lemma try_executables_zero_exit_witness :
  try_executables rendering_host "http://example.org" "/tmp/tmp0.png" (800, 480) None
    ["chromium"; "google-chrome"] [] empty_world
  = (Ok ([], true),
     after_run rendering_host
       (_build_chromium_command rendering_host "chromium" "http://example.org"
          "/tmp/tmp0.png" (800, 480))
       None empty_world).
Proof.
  apply (proj1 (proj2 (try_executables_zero_exit rendering_host "http://example.org"
                         "/tmp/tmp0.png" (800, 480) None "chromium" ["google-chrome"]
                         [] empty_world []
                         [("/tmp/tmp0.png", Some [x2a]); ("/tmp/tmp0.html", None)]
                         eq_refl eq_refl))).
  by eexists.
Defined.


Lemma take_screenshot_html_normal_path_witness :
  files empty_world !! output_path ".html" empty_world = None /\
  exists r w2 calls,
    take_screenshot rendering_host sample_pillow (output_path ".html" empty_world)
      (800, 480) VNone
      (set_files (<[output_path ".html" empty_world := [x3c; x70; x3e]]>
                    (files empty_world)) empty_world)
    = (r, w2) /\
    spawned w2 = calls.
Proof.
  destruct (take_screenshot_html_normal_path rendering_host sample_pillow
              [60; 112; 62]%N (800, 480) VNone empty_world [x3c; x70; x3e] eq_refl)
    as (Hfresh & r & w2 & calls & Hshot & Hs & _).
  split; [exact Hfresh|]. exists r, w2, calls. split; [exact Hshot|exact Hs].
Defined.

Lemma normalize_target_idempotent_witness :
  exists normalized_target,
    _normalize_target rendering_host "/srv/page.html" empty_world
      = (Ok normalized_target, empty_world) /\
    _normalize_target rendering_host normalized_target empty_world
      = (Ok normalized_target, empty_world).
Proof.
  destruct (normalize_target_idempotent rendering_host "/srv/page.html" empty_world)
    as (nt & H1 & H2 & _).
  { intros path. destruct path; reflexivity. }
  exists nt. split; [exact H1|exact H2].
Defined.

Lemma change_orientation_geometry_witness :
  exists out,
    change_orientation sample_pillow sample_grey "vertical" true = Ok out /\
    well_formed out /\
    pixel_count out = pixel_count sample_grey /\
    size out = (1, 2).
Proof.
  apply (change_orientation_geometry sample_pillow sample_grey "vertical" true).
  - unfold well_formed, width, height. cbn. lia.
  - right. reflexivity.
Defined.

Lemma change_orientation_inverted_witness :
  exists upright upside_down,
    change_orientation sample_pillow sample_grey "vertical" false = Ok upright /\
    change_orientation sample_pillow sample_grey "vertical" true = Ok upside_down /\
    upside_down = transpose upright ROTATE_180 /\
    transpose upside_down ROTATE_180 = upright.
Proof.
  apply (change_orientation_inverted sample_pillow sample_grey "vertical").
  - unfold well_formed, width, height. cbn. lia.
  - right. reflexivity.
Defined.

Lemma resize_image_crop_inside_witness :
  exists p cropped,
    resize_plan (size sample_wide) (VInt 1, VInt 1) [] = Ok (p, (1, 1)) /\
    (0 <= x_offset p /\ x_offset p + new_width p <= width sample_wide) /\
    (0 <= y_offset p /\ y_offset p + new_height p <= height sample_wide) /\
    crop sample_wide (x_offset p, y_offset p,
                      x_offset p + new_width p, y_offset p + new_height p)
      = Ok cropped /\
    size cropped = (new_width p, new_height p) /\
    (forall x y, 0 <= x < new_width p -> 0 <= y < new_height p ->
       (0 <= x_offset p + x < width sample_wide /\
        0 <= y_offset p + y < height sample_wide) /\
       pixel_at cropped x y = pixel_at sample_wide (x_offset p + x) (y_offset p + y)) /\
    resize_image sample_pillow sample_wide (VInt 1, VInt 1) []
      = resize sample_pillow cropped (1, 1).
Proof.
  apply (resize_image_crop_inside sample_pillow sample_wide (VInt 1) (VInt 1) 1 1 []);
    try reflexivity; split; reflexivity.
Defined.

Lemma resize_plan_follows_ratio_witness :
  exists p wider,
    resize_plan (4, 2) (VInt 1, VInt 1) [] = Ok (p, (1, 1)) /\
    source_is_wider (4, 2) (1, 1) = Ok wider /\
    if wider then
      new_height p = 2 /\
      new_width p * 1 * 2 ^ 50 <= 2 * 1 * (2 ^ 50 + 1) /\
      2 * 1 * (2 ^ 50 - 1) < (new_width p + 1) * 1 * 2 ^ 50
    else
      new_width p = 4 /\
      new_height p * 1 * 2 ^ 50 <= 4 * 1 * (2 ^ 50 + 1) /\
      4 * 1 * (2 ^ 50 - 1) < (new_height p + 1) * 1 * 2 ^ 50.
Proof.
  apply (resize_plan_follows_ratio 4 2 (VInt 1) (VInt 1) 1 1 []);
    try reflexivity; split; reflexivity.
Defined.

(** The bound of one pixel is reached: for a bitmap of 1 by 93 pixels and
    a target of the same size, [1 / (1 / 93)] rounds to a double just
    below 93 and the crop keeps 92 rows. *)
Example resize_plan_own_size_loses_a_row :
  resize_plan (1, 93) (VInt 1, VInt 93) [] = Ok (mk_plan 0 0 1 92, (1, 93)).
Proof. vm_compute. reflexivity. Qed.

(** A browser that renders and leaves the output file so that it cannot
    be removed: the [finally] clause of [take_screenshot] raises, the
    caller sees the exception of [os.remove] instead of the bitmap, and
    the file stays. *)
Example take_screenshot_removal_raises :
  take_screenshot holding_host sample_pillow "http://example.org" (800, 480) VNone
    empty_world
  = (Raise (mk_exc OSError "[Errno 13] Permission denied: '/tmp/tmp0.png'"),
     mk_world {[ "/tmp/tmp0.png" := [x2a] ]} []
       (spawned (snd (take_screenshot holding_host sample_pillow "http://example.org"
                        (800, 480) VNone empty_world)))).
Proof. vm_compute. reflexivity. Qed.

(** [take_screenshot_html] catches that exception: it logs it, returns
    [None] and does not reach the removal of the page file. *)
Example take_screenshot_html_removal_raises :
  fst (take_screenshot_html holding_host sample_pillow [60%N; 62%N] (800, 480) VNone
         empty_world) = Ok None /\
  log (snd (take_screenshot_html holding_host sample_pillow [60%N; 62%N] (800, 480)
              VNone empty_world))
  = ["Failed to take screenshot: [Errno 13] Permission denied: '/tmp/tmp0.png'"] /\
  files (snd (take_screenshot_html holding_host sample_pillow [60%N; 62%N] (800, 480)
                VNone empty_world)) !! "/tmp/tmp0.html" = Some [x3c; x3e].
Proof. vm_compute. repeat split; reflexivity. Qed.
